(** * Test3.ipynb: a mass falling under gravity and quadratic drag

    The notebook defines three functions, [calculate_acceleration],
    [update_state] and [falling_mass], and calls
    [falling_mass(20, k=0.035)].  This file embeds the three functions and
    proves the properties the specification states about them.

    ** Two number systems

    The notebook computes with Python floats and, from the first call of
    [numpy.sign] on, with numpy [float64] scalars: IEEE 754 binary64
    numbers.  The three functions are embedded twice, line by line the
    same, over two number systems.

    - [Binary64] is the program as it runs.  A number is a [spec_float] of
      the Standard Library's specification of IEEE 754 arithmetic, at
      precision 53 and maximal exponent 1024: signed zeros, infinities,
      [nan], and every operation rounded to nearest, ties to even.  A
      float literal is the float nearest to it, and [x**2] is the rounded
      product [x*x].  Rounding, absorption, overflow and the errors Python
      raises are part of this embedding; what the program does on its
      actual inputs is stated on it.

    - The definitions outside of [Binary64] read the same code in exact
      arithmetic.  A number is an _extended rational_ [xq]: an exact
      rational, or one of [+inf], [-inf], [nan]; nothing is rounded and
      nothing is out of range, and a literal is the rational it is written
      as: [-9.81] is [-981/100], [0.1] is [1/10].  This is the integration
      scheme the code implements.  Statements made "in exact arithmetic"
      (closed forms, the time grid, termination, bounds on the scheme) are
      made on these definitions, and say so.

    ** Scalar types and errors

    A [value] carries its scalar type, Python float or numpy [float64].  A
    binary operation yields a numpy scalar as soon as one operand is one:
    [numpy.float64] is a subclass of [float], so its reflected operator is
    the one Python calls.  The two types differ in the two operations of
    the notebook that can fail:
    - [/]: a Python float divided by zero raises [ZeroDivisionError]; a
      numpy scalar divided by zero yields [nan] or an infinity;
    - [**]: the square of a Python float raises [OverflowError] when it is
      out of range; the square of a numpy scalar is then [inf].
    Where numpy yields [nan] or [inf] it prints a [RuntimeWarning] under its
    default error handling; warnings are not modelled.  In exact arithmetic
    no square is out of range.

    The arguments of the functions are floats.  An [int] argument, such as
    the [20] of the notebook's call, is the float of the same value.

    ** Control

    [falling_mass] loops [while h > 0].  The loop is a [Fixpoint] on a fuel
    argument that bounds the number of times the loop test is evaluated; a
    run that has not left the loop when the fuel is spent is [OutOfFuel]. *)

From Stdlib Require Import QArith Qfield Qround Qminmax Qabs Lqa Lia ZArith.
From Stdlib Require Import List Bool Arith SpecFloat.
Import ListNotations.

(** * The model *)

(** ** Rational helpers *)

Definition Qltb (a b : Q) : bool :=
  match a ?= b with Lt => true | _ => false end.

Definition Qis_zero (a : Q) : bool := (Qnum a =? 0)%Z.

(** The sign of a rational as a rational: [-1], [0] or [1]. *)
Definition Qsgn (a : Q) : Q := inject_Z (Z.sgn (Qnum a)).

(** The index [i] as a rational. *)
Definition Qnat (i : nat) : Q := inject_Z (Z.of_nat i).

(** ** Extended rationals *)

Module Xq.

Inductive xq : Type :=
| Fin (q : Q)
| Inf (negative : bool)
| NaN.

Definition add (x y : xq) : xq :=
  match x, y with
  | NaN, _ | _, NaN => NaN
  | Fin a, Fin b => Fin (a + b)
  | Inf s, Fin _ | Fin _, Inf s => Inf s
  | Inf s, Inf s' => if Bool.eqb s s' then Inf s else NaN
  end.

Definition neg (x : xq) : xq :=
  match x with
  | Fin a => Fin (- a)
  | Inf s => Inf (negb s)
  | NaN => NaN
  end.

(** An infinity times a rational: [nan] for zero, otherwise the infinity
    whose sign is the product of the signs. *)
Definition scale_inf (s : bool) (b : Q) : xq :=
  match (Qnum b ?= 0)%Z with
  | Eq => NaN
  | Gt => Inf s
  | Lt => Inf (negb s)
  end.

Definition mul (x y : xq) : xq :=
  match x, y with
  | NaN, _ | _, NaN => NaN
  | Fin a, Fin b => Fin (a * b)
  | Inf s, Fin b | Fin b, Inf s => scale_inf s b
  | Inf s, Inf s' => Inf (xorb s s')
  end.

(** IEEE division.  A zero divisor gives [nan] for [0/0] and an infinity of
    the dividend's sign otherwise (the zero is taken as [+0]). *)
Definition div (x y : xq) : xq :=
  match x, y with
  | NaN, _ | _, NaN => NaN
  | Fin a, Fin b =>
      if Qis_zero b then
        match (Qnum a ?= 0)%Z with
        | Eq => NaN
        | Gt => Inf false
        | Lt => Inf true
        end
      else Fin (a / b)
  | Fin _, Inf _ => Fin 0
  | Inf s, Fin b => Inf (xorb s (Qnum b <? 0)%Z)
  | Inf _, Inf _ => NaN
  end.

(** [x ** 2] *)
Definition pow2 (x : xq) : xq :=
  match x with
  | Fin a => Fin (a * a)
  | Inf _ => Inf false
  | NaN => NaN
  end.

(** [numpy.sign]: [-1], [0], [1], and [nan] for [nan]. *)
Definition sign (x : xq) : xq :=
  match x with
  | Fin a => Fin (Qsgn a)
  | Inf s => Fin (if s then - (1) else 1)
  | NaN => NaN
  end.

(** [x > y]; every comparison with [nan] is false. *)
Definition gt (x y : xq) : bool :=
  match x, y with
  | NaN, _ | _, NaN => false
  | Fin a, Fin b => Qltb b a
  | Inf s, Fin _ => negb s
  | Fin _, Inf s => s
  | Inf s, Inf s' => negb s && s'
  end.

(** [x <= y] *)
Definition le (x y : xq) : bool :=
  match x, y with
  | NaN, _ | _, NaN => false
  | Fin a, Fin b => Qle_bool a b
  | Inf s, Fin _ => s
  | Fin _, Inf s => negb s
  | Inf s, Inf s' => s || negb s'
  end.

Definition is_zero (x : xq) : bool :=
  match x with
  | Fin a => Qis_zero a
  | _ => false
  end.

End Xq.

Import Xq.

(** ** Python values and results *)

Inductive value : Type :=
| PyFloat (x : xq)      (* a Python float *)
| NpFloat64 (x : xq).   (* a numpy float64 scalar *)

Definition num (a : value) : xq :=
  match a with PyFloat x | NpFloat64 x => x end.

Inductive exn : Type := ZeroDivisionError | OverflowError.

Inductive result (A : Type) : Type :=
| Returns (a : A)
| Raises (e : exn)
| OutOfFuel.

Arguments Returns {A} a.
Arguments Raises {A} e.
Arguments OutOfFuel {A}.

Definition bind {A B : Type} (r : result A) (k : A -> result B) : result B :=
  match r with
  | Returns a => k a
  | Raises e => Raises e
  | OutOfFuel => OutOfFuel
  end.

Declare Scope py_scope.
Delimit Scope py_scope with py.
Bind Scope py_scope with value.

Notation "x <- e ;; k" := (bind e (fun x => k))
  (at level 61, e at next level, right associativity) : py_scope.

(** A binary operator that cannot fail: the result is a Python float only
    when both operands are. *)
Definition binop (f : xq -> xq -> xq) (a b : value) : value :=
  match a, b with
  | PyFloat x, PyFloat y => PyFloat (f x y)
  | _, _ => NpFloat64 (f (num a) (num b))
  end.

Definition unop (f : xq -> xq) (a : value) : value :=
  match a with
  | PyFloat x => PyFloat (f x)
  | NpFloat64 x => NpFloat64 (f x)
  end.

Definition vadd : value -> value -> value := binop Xq.add.
Definition vmul : value -> value -> value := binop Xq.mul.
Definition vneg : value -> value := unop Xq.neg.
Definition vpow2 : value -> value := unop Xq.pow2.

(** [a / b]: float division raises on a zero divisor; numpy division does
    not: under numpy's default error handling ([numpy.seterr]:
    [divide='warn'], [invalid='warn']) it prints a [RuntimeWarning] and
    returns the IEEE result. *)
Definition vdiv (a b : value) : result value :=
  match a, b with
  | PyFloat x, PyFloat y =>
      if Xq.is_zero y then Raises ZeroDivisionError
      else Returns (PyFloat (Xq.div x y))
  | _, _ => Returns (NpFloat64 (Xq.div (num a) (num b)))
  end.

(** [a > b] and [a <= b] *)
Definition vgt (a b : value) : bool := Xq.gt (num a) (num b).
Definition vle (a b : value) : bool := Xq.le (num a) (num b).

(** [from numpy import sign]: the result is a numpy scalar whatever the
    argument is. *)
Definition sign (a : value) : value := NpFloat64 (Xq.sign (num a)).

Notation "a + b" := (vadd a b) : py_scope.
Notation "a * b" := (vmul a b) : py_scope.
Notation "- a" := (vneg a) : py_scope.
Notation "a / b" := (vdiv a b) : py_scope.
Notation "a >? b" := (vgt a b) (at level 70, no associativity) : py_scope.
Notation "a <=? b" := (vle a b) (at level 70, no associativity) : py_scope.

(** A float literal, as the rational it denotes. *)
Definition float (q : Q) : value := PyFloat (Fin q).

(** ** The notebook's functions *)

Local Open Scope py_scope.

(** [def calculate_acceleration(v, k=0.0, mass=1.0, gravity=-9.81)] *)
Definition calculate_acceleration (v k mass gravity : value) : result value :=
  let force_gravity := mass * gravity in
  let force_air := (- sign v) * k * vpow2 v in
  let total_force := force_gravity + force_air in
  a <- total_force / mass ;;
  Returns a.

(** The constant expression [(1/2)]. *)
Definition one_half : value := float (1 # 2).

(** [def update_state(t, x, v, a, dt=0.1)] *)
Definition update_state (t x v a dt : value) : value * value * value :=
  let distance_moved := v * dt + one_half * a * vpow2 dt in
  let v := v + a * dt in
  let t := t + dt in
  let x := x + distance_moved in
  (t, x, v).

(** Fixed input values of [falling_mass]. *)
Definition start_velocity : value := float 0.
Definition gravity : value := float (- (981 # 100)).

(** The three lists [time], [height], [velocity], in the order
    [falling_mass] returns them. *)
Definition series : Type := (list value * list value * list value)%type.

(** The [while h > 0] loop of [falling_mass], with the three lists it
    appends to. *)
Fixpoint falling_loop (fuel : nat) (k mass dt : value) (t h v : value)
    (time height velocity : list value) : result series :=
  match fuel with
  | O => OutOfFuel
  | S fuel' =>
      if h >? float 0 then
        a <- calculate_acceleration v k mass gravity ;;
        let height := (height ++ [h])%list in
        let velocity := (velocity ++ [v])%list in
        let time := (time ++ [t])%list in
        let '(t', h', v') := update_state t h v a dt in
        falling_loop fuel' k mass dt t' h' v' time height velocity
      else Returns (time, height, velocity)
  end.

(** [def falling_mass(initial_height, k=0.0, mass=1.0, dt=0.1)].  The
    assignment [distance_moved = 0] before the loop is never read. *)
Definition falling_mass (fuel : nat) (initial_height k mass dt : value)
    : result series :=
  let h := initial_height in
  let v := start_velocity in
  let t := float 0 in
  falling_loop fuel k mass dt t h v [] [] [].

(** The default arguments. *)
Definition default_k : value := float 0.
Definition default_mass : value := float 1.
Definition default_dt : value := float (1 # 10).

Local Close Scope py_scope.
Local Open Scope Q_scope.

(** * The program on binary64 floats *)

(** ** Binary64 numbers

    A float is a [spec_float] of the Standard Library's specification of
    IEEE 754 arithmetic, at precision 53 and maximal exponent 1024: a signed
    zero, a signed infinity, [nan], or [(-1)^s * m * 2^e].  The operations
    round to nearest, ties to even. *)

Module F64.

Definition prec : Z := 53.
Definition emax : Z := 1024.

Definition add : spec_float -> spec_float -> spec_float := SFadd prec emax.
Definition mul : spec_float -> spec_float -> spec_float := SFmul prec emax.
Definition div : spec_float -> spec_float -> spec_float := SFdiv prec emax.
Definition neg : spec_float -> spec_float := SFopp.

(** [x > y] and [x <= y]; every comparison with [nan] is false. *)
Definition gt (x y : spec_float) : bool := SFltb y x.
Definition le (x y : spec_float) : bool := SFleb x y.

Definition is_zero (x : spec_float) : bool :=
  match x with S754_zero _ => true | _ => false end.

Definition is_finite (x : spec_float) : bool :=
  match x with S754_zero _ | S754_finite _ _ _ => true | _ => false end.

Definition is_nan (x : spec_float) : bool :=
  match x with S754_nan => true | _ => false end.

(** The float nearest to an integer, and to the quotient of two integers:
    the value of a decimal literal [n/d] whose [n] and [d] are floats
    themselves, such as [0.1 = 1/10] and [9.81 = 981/100]. *)
Definition of_Z (z : Z) : spec_float := binary_normalize prec emax z 0 false.

Definition of_Q (q : Q) : spec_float :=
  div (of_Z (Qnum q)) (of_Z (Zpos (Qden q))).

Definition zero : spec_float := S754_zero false.
Definition one : spec_float := of_Z 1.

(** [x ** 2]: the square, rounded once, as the product [x*x] is. *)
Definition square (x : spec_float) : spec_float := mul x x.

(** The square of a finite [x] is too large for a float. *)
Definition overflows (x : spec_float) : bool :=
  is_finite x && negb (is_finite (square x)).

(** [numpy.sign]: [-1.0] below zero, [1.0] above it, a zero for a zero
    and [nan] for [nan]. *)
Definition sign (x : spec_float) : spec_float :=
  match x with
  | S754_nan => S754_nan
  | S754_zero _ => zero
  | S754_infinity s | S754_finite s _ _ => if s then neg one else one
  end.

(** The acceleration [(mass*g + (-sign(v))*k*v**2) / mass], every
    operation rounded. *)
Definition accel (v k mass g : spec_float) : spec_float :=
  div (add (mul mass g) (mul (mul (neg (sign v)) k) (square v))) mass.

(** The sign bit; [nan] has none. *)
Definition sign_bit (x : spec_float) : bool :=
  match x with
  | S754_nan => false
  | S754_zero s | S754_infinity s | S754_finite s _ _ => s
  end.

(** A number that is not negative: its sign bit is clear, or it is a zero
    or [nan]; and one that is not positive. *)
Definition not_negative (x : spec_float) : Prop :=
  match x with
  | S754_zero _ | S754_nan => True
  | S754_infinity s | S754_finite s _ _ => s = false
  end.

Definition not_positive (x : spec_float) : Prop :=
  match x with
  | S754_zero _ | S754_nan => True
  | S754_infinity s | S754_finite s _ _ => s = true
  end.

End F64.

(** ** Python floats and numpy scalars *)

Module Binary64.

Inductive value : Type :=
| PyFloat (x : spec_float)      (* a Python float *)
| NpFloat64 (x : spec_float).   (* a numpy float64 scalar *)

Definition num (a : value) : spec_float :=
  match a with PyFloat x | NpFloat64 x => x end.

Definition is_numpy (a : value) : bool :=
  match a with PyFloat _ => false | NpFloat64 _ => true end.

(** [+], [*] and unary [-] never fail: an overflow gives an infinity.  The
    result is a Python float only when both operands are. *)
Definition binop (f : spec_float -> spec_float -> spec_float)
    (a b : value) : value :=
  match a, b with
  | PyFloat x, PyFloat y => PyFloat (f x y)
  | _, _ => NpFloat64 (f (num a) (num b))
  end.

Definition unop (f : spec_float -> spec_float) (a : value) : value :=
  match a with
  | PyFloat x => PyFloat (f x)
  | NpFloat64 x => NpFloat64 (f x)
  end.

Definition vadd : value -> value -> value := binop F64.add.
Definition vmul : value -> value -> value := binop F64.mul.
Definition vneg : value -> value := unop F64.neg.

(** [a ** 2] on a Python float raises [OverflowError] when the square of
    a finite [a] is out of range; on a numpy scalar it gives [inf] (and a
    warning). *)
Definition pow_raises (a : value) : bool :=
  match a with
  | PyFloat x => F64.overflows x
  | NpFloat64 _ => false
  end.

Definition vpow2 (a : value) : result value :=
  if pow_raises a then Raises OverflowError
  else Returns (unop F64.square a).

(** [a / b]: float division raises on a zero divisor, numpy division gives
    [nan] or an infinity (and a warning). *)
Definition vdiv (a b : value) : result value :=
  match a, b with
  | PyFloat x, PyFloat y =>
      if F64.is_zero y then Raises ZeroDivisionError
      else Returns (PyFloat (F64.div x y))
  | _, _ => Returns (NpFloat64 (F64.div (num a) (num b)))
  end.

Definition vgt (a b : value) : bool := F64.gt (num a) (num b).
Definition vle (a b : value) : bool := F64.le (num a) (num b).

(** [from numpy import sign]: a numpy scalar whatever the argument is. *)
Definition sign (a : value) : value := NpFloat64 (F64.sign (num a)).

Module Syntax.

Declare Scope b64_scope.
Delimit Scope b64_scope with b64.
Bind Scope b64_scope with value.

Notation "x <- e ;; k" := (bind e (fun x => k))
  (at level 61, e at next level, right associativity) : b64_scope.
Notation "a + b" := (vadd a b) : b64_scope.
Notation "a * b" := (vmul a b) : b64_scope.
Notation "- a" := (vneg a) : b64_scope.
Notation "a / b" := (vdiv a b) : b64_scope.
Notation "a >? b" := (vgt a b) (at level 70, no associativity) : b64_scope.
Notation "a <=? b" := (vle a b) (at level 70, no associativity) : b64_scope.

End Syntax.

Import Syntax.

(** A float literal. *)
Definition float (q : Q) : value := PyFloat (F64.of_Q q).

Local Open Scope b64_scope.

(** [def calculate_acceleration(v, k=0.0, mass=1.0, gravity=-9.81)].  The
    only operation of the body that can raise before the division is
    [v**2]. *)
Definition calculate_acceleration (v k mass gravity : value) : result value :=
  let force_gravity := mass * gravity in
  v2 <- vpow2 v ;;
  let force_air := (- sign v) * k * v2 in
  let total_force := force_gravity + force_air in
  a <- total_force / mass ;;
  Returns a.

(** The constant expression [(1/2)]. *)
Definition one_half : value := float (1 # 2).

Definition state : Type := (value * value * value)%type.

(** [def update_state(t, x, v, a, dt=0.1)] *)
Definition update_state (t x v a dt : value) : result state :=
  dt2 <- vpow2 dt ;;
  let distance_moved := v * dt + one_half * a * dt2 in
  let v := v + a * dt in
  let t := t + dt in
  let x := x + distance_moved in
  Returns (t, x, v).

Definition start_velocity : value := float 0.
Definition gravity : value := float (- (981 # 100)).

Definition series : Type := (list value * list value * list value)%type.

(** The [while h > 0] loop of [falling_mass]. *)
Fixpoint falling_loop (fuel : nat) (k mass dt : value) (t h v : value)
    (time height velocity : list value) : result series :=
  match fuel with
  | O => OutOfFuel
  | S fuel' =>
      if h >? float 0 then
        a <- calculate_acceleration v k mass gravity ;;
        let height := (height ++ [h])%list in
        let velocity := (velocity ++ [v])%list in
        let time := (time ++ [t])%list in
        s <- update_state t h v a dt ;;
        let '(t', h', v') := s in
        falling_loop fuel' k mass dt t' h' v' time height velocity
      else Returns (time, height, velocity)
  end.

(** [def falling_mass(initial_height, k=0.0, mass=1.0, dt=0.1)] *)
Definition falling_mass (fuel : nat) (initial_height k mass dt : value)
    : result series :=
  let h := initial_height in
  let v := start_velocity in
  let t := float 0 in
  falling_loop fuel k mass dt t h v [] [] [].

Definition default_k : value := float 0.
Definition default_mass : value := float 1.
Definition default_dt : value := float (1 # 10).

(** The notebook's call, [falling_mass(20, k=0.035)]. *)
Definition notebook_call (fuel : nat) : result series :=
  falling_mass fuel (float 20) (float (35 # 1000)) default_mass default_dt.

(** *** The loop as a sequence of passes *)

Definition time_of (s : state) : value := fst (fst s).
Definition height_of (s : state) : value := snd (fst s).
Definition velocity_of (s : state) : value := snd s.

Definition initial_state (initial_height : value) : state :=
  (float 0, initial_height, start_velocity).

(** The loop test [h > 0]. *)
Definition above (s : state) : bool := height_of s >? float 0.

(** One pass through the loop body. *)
Definition advance (k mass dt : value) (s : state) : result state :=
  a <- calculate_acceleration (velocity_of s) k mass gravity ;;
  update_state (time_of s) (height_of s) (velocity_of s) a dt.

(** [passes k mass dt s l s']: the loop entered in state [s] records the
    states [l], one per pass, and is in state [s'] after them.  Every
    recorded state is above the ground and advances to the next one. *)
Inductive passes (k mass dt : value) : state -> list state -> state -> Prop :=
| passes_nil s : passes k mass dt s [] s
| passes_cons s a s' l s'' :
    above s = true ->
    calculate_acceleration (velocity_of s) k mass gravity = Returns a ->
    update_state (time_of s) (height_of s) (velocity_of s) a dt
    = Returns s' ->
    passes k mass dt s' l s'' ->
    passes k mass dt s (s :: l) s''.

(** The lists the loop returns when it started with [time], [height],
    [velocity] and recorded [l]. *)
Definition record (time height velocity : list value) (l : list state)
    : series :=
  ((time ++ map time_of l)%list,
   (height ++ map height_of l)%list,
   (velocity ++ map velocity_of l)%list).

(** The velocity of the loop: the start velocity, or a numpy scalar. *)
Definition loop_velocity (v : value) : Prop :=
  v = start_velocity \/ is_numpy v = true.

(** [n] passes, as a function: the state after them, if every pass starts
    above the ground and raises nothing. *)
Fixpoint walk (k mass dt : value) (n : nat) (s : state) : option state :=
  match n with
  | O => Some s
  | S n' =>
      if above s then
        match advance k mass dt s with
        | Returns s' => walk k mass dt n' s'
        | _ => None
        end
      else None
  end.

(** The call [falling_mass(1e17, k=1.0)]: the height and the velocity it
    has reached after 45 passes. *)
Definition stall_height : value :=
  NpFloat64 (S754_finite false 6250000000000000 4).
Definition stall_velocity : value :=
  NpFloat64 (S754_finite true 7052844075474497 (-51)).

(** Every entry of a list is greater than the next one, and every entry
    is less than the next one. *)
Fixpoint falls (l : list value) : bool :=
  match l with
  | a :: (b :: _) as r => (a >? b) && falls r
  | _ => true
  end.

Fixpoint rises (l : list value) : bool :=
  match l with
  | a :: (b :: _) as r => (b >? a) && rises r
  | _ => true
  end.

End Binary64.

Import Binary64.Syntax.

(** * Definitions for the analysis *)

(** ** The loop as an iteration

    [calculate_acceleration] always returns, and always a numpy scalar: the
    call of [sign] makes [force_air], hence [total_force], one.  The loop
    body is therefore a total function on the state [(t, h, v)]. *)

Definition state : Type := (value * value * value)%type.

Definition time_of (s : state) : value := fst (fst s).
Definition height_of (s : state) : value := snd (fst s).
Definition velocity_of (s : state) : value := snd s.

(** The state [falling_mass] enters its loop with. *)
Definition initial_state (initial_height : value) : state :=
  (float 0, initial_height, start_velocity).

(** The acceleration as an extended rational. *)
Definition xaccel (v k mass g : xq) : xq :=
  Xq.div
    (Xq.add (Xq.mul mass g)
            (Xq.mul (Xq.mul (Xq.neg (Xq.sign v)) k) (Xq.pow2 v)))
    mass.

(** One pass through the loop body. *)
Definition advance (k mass dt : value) (s : state) : state :=
  let '(t, h, v) := s in
  update_state t h v
    (NpFloat64 (xaccel (num v) (num k) (num mass) (num gravity))) dt.

(** The loop test [h > 0]. *)
Definition above (s : state) : bool := (height_of s >? float 0)%py.

(** The state after [n] passes. *)
Fixpoint run (k mass dt : value) (n : nat) (s : state) : state :=
  match n with
  | O => s
  | S n' => run k mass dt n' (advance k mass dt s)
  end.

(** The first [n] states of the run, the ones the loop records. *)
Fixpoint samples (k mass dt : value) (n : nat) (s : state) : list state :=
  match n with
  | O => []
  | S n' => s :: samples k mass dt n' (advance k mass dt s)
  end.

(** The loop is left after exactly [n] passes. *)
Definition lands_after (k mass dt : value) (s : state) (n : nat) : Prop :=
  (forall i, (i < n)%nat -> above (run k mass dt i s) = true) /\
  above (run k mass dt n s) = false.

(** The lists the loop returns when it started with [time], [height],
    [velocity] and recorded [l]. *)
Definition record (time height velocity : list value) (l : list state)
    : series :=
  ((time ++ map time_of l)%list,
   (height ++ map height_of l)%list,
   (velocity ++ map velocity_of l)%list).

(** The value [a] is the rational [q]. *)
Definition is_rational (a : value) (q : Q) : Prop :=
  exists q', num a = Fin q' /\ q' == q.

(** ** Runs on rationals

    As long as the arguments are rationals and [mass] is not zero every
    value of the run is a rational, and the loop body is the following
    function on triples of rationals. *)

Definition g : Q := - (981 # 100).

Definition qaccel (v k mass gr : Q) : Q :=
  (mass * gr + (- Qsgn v) * k * (v * v)) / mass.

Definition qstate : Type := (Q * Q * Q)%type.

Definition qheight (s : qstate) : Q := snd (fst s).
Definition qvelocity (s : qstate) : Q := snd s.

Definition qadvance (k mass dt : Q) (s : qstate) : qstate :=
  let '(t, h, v) := s in
  let a := qaccel v k mass g in
  (t + dt, h + (v * dt + (1 # 2) * a * (dt * dt)), v + a * dt).

Fixpoint qrun (k mass dt : Q) (n : nat) (s : qstate) : qstate :=
  match n with
  | O => s
  | S n' => qrun k mass dt n' (qadvance k mass dt s)
  end.

(** The numbers of a state, and the numbers a triple of rationals stands
    for. *)
Definition nums (s : state) : xq * xq * xq :=
  (num (time_of s), num (height_of s), num (velocity_of s)).

Definition fin3 (s : qstate) : xq * xq * xq :=
  let '(t, h, v) := s in (Fin t, Fin h, Fin v).

(** ** The notebook's run, [falling_mass(20, k=0.035)], on rationals *)

Definition notebook_k : Q := 35 # 1000.

Definition notebook_qrun (n : nat) : qstate :=
  qrun notebook_k 1 (1 # 10) n (0, 20, 0).

(** ** Scaled speed and drop

    With drag the velocity obeys a quadratic recurrence.  In the scaled
    speed [u = -(k*dt/mass) * v] it reads [u' = u + theta - u*|u|] with
    [theta = k*dt^2*9.81/mass], and the scaled drop
    [E = (2*k/mass) * (h0 - h)] grows by [u + u'] per pass. *)

Definition drag_theta (k m dt : Q) : Q := k * (dt * dt) * (981 # 100) / m.

Definition drag_speed (k m dt h0 : Q) (n : nat) : Q :=
  - (k * dt / m) * qvelocity (qrun k m dt n (0, h0, 0)).

Definition drag_drop (k m dt h0 : Q) (n : nat) : Q :=
  2 * k / m * (h0 - qheight (qrun k m dt n (0, h0, 0))).

(** The invariant of the termination proof, on a speed sequence [u] and a
    drop sequence [E]: the mass is falling, for [theta <= 1] not faster than
    [theta + 1/4], and has dropped by [rho] per pass. *)
Definition good (theta : Q) (u E : nat -> Q) (rho : Q) (n : nat) : Prop :=
  0 <= u n /\ (theta <= 1 -> u n <= theta + (1 # 4)) /\
  Qnat n * rho <= E n.

(** ** Comparing runs *)

(** Two values are the same number. *)
Definition same_number (a b : value) : Prop :=
  exists q, is_rational a q /\ is_rational b q.

(** Two triples of rationals are equal as numbers. *)
Definition qstate_eq (s s' : qstate) : Prop :=
  fst (fst s) == fst (fst s') /\ qheight s == qheight s' /\
  qvelocity s == qvelocity s'.

(** The scalar type of a value. *)
Definition is_numpy (a : value) : bool :=
  match a with PyFloat _ => false | NpFloat64 _ => true end.

(** * Facts *)

(** ** Rationals *)

Lemma Qltb_true (a b : Q) : Qltb a b = true <-> a < b.
Proof.
  unfold Qltb. rewrite Qlt_alt. destruct (a ?= b); split; congruence.
Qed.

Lemma Qltb_false (a b : Q) : Qltb a b = false <-> b <= a.
Proof.
  rewrite <- Bool.not_true_iff_false, Qltb_true. split.
  - apply Qnot_lt_le.
  - intros H H'. apply (Qlt_irrefl b). eapply Qle_lt_trans; eauto.
Qed.

Lemma Qis_zero_true (a : Q) : Qis_zero a = true <-> a == 0.
Proof.
  unfold Qis_zero, Qeq. rewrite Z.eqb_eq. cbn. lia.
Qed.

Lemma Qis_zero_false (a : Q) : Qis_zero a = false <-> ~ a == 0.
Proof.
  rewrite <- Bool.not_true_iff_false, Qis_zero_true. reflexivity.
Qed.

Lemma Qsgn_pos (a : Q) : 0 < a -> Qsgn a = 1.
Proof.
  unfold Qsgn, Qlt. cbn. intros H.
  rewrite Z.sgn_pos by lia. reflexivity.
Qed.

Lemma Qsgn_neg (a : Q) : a < 0 -> Qsgn a = - (1).
Proof.
  unfold Qsgn, Qlt. cbn. intros H.
  rewrite Z.sgn_neg by lia. reflexivity.
Qed.

Lemma Qsgn_zero (a : Q) : a == 0 -> Qsgn a = 0.
Proof.
  unfold Qsgn, Qeq. cbn. intros H.
  replace (Qnum a) with 0%Z by lia. reflexivity.
Qed.

Lemma Qsgn_compat (a b : Q) : a == b -> Qsgn a = Qsgn b.
Proof.
  intros H. destruct (Q_dec a 0) as [[Ha|Ha]|Ha].
  - rewrite (Qsgn_neg a Ha). symmetry. apply Qsgn_neg. rewrite <- H. exact Ha.
  - rewrite (Qsgn_pos a Ha). symmetry. apply Qsgn_pos. rewrite <- H. exact Ha.
  - rewrite (Qsgn_zero a Ha). symmetry. apply Qsgn_zero. rewrite <- H.
    exact Ha.
Qed.

Lemma Qsq_nonneg (y : Q) : 0 <= y * y.
Proof. nra. Qed.

Lemma Qnat_S (i : nat) : Qnat (S i) == Qnat i + 1.
Proof.
  unfold Qnat. rewrite Nat2Z.inj_succ, <- Z.add_1_r, inject_Z_plus.
  reflexivity.
Qed.

Lemma Qnat_nonneg (i : nat) : 0 <= Qnat i.
Proof.
  unfold Qnat. change 0 with (inject_Z 0). rewrite <- Zle_Qle. lia.
Qed.

Lemma Qnat_le (i j : nat) : (i <= j)%nat -> Qnat i <= Qnat j.
Proof. intros H. unfold Qnat. rewrite <- Zle_Qle. lia. Qed.

(** The rationals are Archimedean. *)
Lemma Qnat_above (q : Q) : exists n, q <= Qnat n.
Proof.
  exists (Z.to_nat (Qceiling q)). unfold Qnat.
  eapply Qle_trans; [apply Qle_ceiling|].
  rewrite <- Zle_Qle. lia.
Qed.

(** ** Values *)

Lemma num_binop (f : xq -> xq -> xq) (a b : value) :
  num (binop f a b) = f (num a) (num b).
Proof. destruct a, b; reflexivity. Qed.

Lemma num_unop (f : xq -> xq) (a : value) : num (unop f a) = f (num a).
Proof. destruct a; reflexivity. Qed.

Lemma binop_numpy_r (f : xq -> xq -> xq) (a : value) (y : xq) :
  binop f a (NpFloat64 y) = NpFloat64 (f (num a) y).
Proof. destruct a; reflexivity. Qed.

Lemma binop_numpy_l (f : xq -> xq -> xq) (x : xq) (b : value) :
  binop f (NpFloat64 x) b = NpFloat64 (f x (num b)).
Proof. destruct b; reflexivity. Qed.

Lemma add_nan_r (x : xq) : Xq.add x NaN = NaN.
Proof. destruct x; reflexivity. Qed.

(** Dividing by a zero never gives a rational. *)
Lemma div_zero_not_finite (x : xq) (m q : Q) :
  Qis_zero m = true -> Xq.div x (Fin m) <> Fin q.
Proof.
  intros Hm. destruct x as [a|s|]; cbn; [|discriminate|discriminate].
  rewrite Hm. destruct (Qnum a ?= 0)%Z; discriminate.
Qed.

Lemma is_rational_eq (a : value) (p q : Q) :
  is_rational a p -> p == q -> is_rational a q.
Proof.
  intros (p' & Hp & Hp') H. exists p'. split; [exact Hp|].
  rewrite Hp'. exact H.
Qed.

Lemma is_rational_float (q : Q) : is_rational (float q) q.
Proof. exists q. split; reflexivity. Qed.

Lemma is_rational_add (a b : value) (p q : Q) :
  is_rational a p -> is_rational b q -> is_rational (a + b)%py (p + q).
Proof.
  intros (p' & Hp & Hp') (q' & Hq & Hq'). exists (p' + q'). split.
  - unfold vadd. rewrite num_binop, Hp, Hq. reflexivity.
  - rewrite Hp', Hq'. reflexivity.
Qed.

Lemma is_rational_mul (a b : value) (p q : Q) :
  is_rational a p -> is_rational b q -> is_rational (a * b)%py (p * q).
Proof.
  intros (p' & Hp & Hp') (q' & Hq & Hq'). exists (p' * q'). split.
  - unfold vmul. rewrite num_binop, Hp, Hq. reflexivity.
  - rewrite Hp', Hq'. reflexivity.
Qed.

Lemma is_rational_pow2 (a : value) (p : Q) :
  is_rational a p -> is_rational (vpow2 a) (p * p).
Proof.
  intros (p' & Hp & Hp'). exists (p' * p'). split.
  - unfold vpow2. rewrite num_unop, Hp. reflexivity.
  - rewrite Hp'. reflexivity.
Qed.

Create HintDb rational.
#[local] Hint Resolve is_rational_float is_rational_add is_rational_mul
  is_rational_pow2 : rational.

Lemma vle_not_vgt (h : value) :
  (h <=? float 0)%py = true -> (h >? float 0)%py = false.
Proof.
  unfold vle, vgt, Xq.le, Xq.gt. cbn [num float].
  destruct (num h) as [q|s|]; try congruence.
  - intros H. apply Qle_bool_iff in H. apply Qltb_false. exact H.
  - intros ->. reflexivity.
Qed.

Lemma vle_rational (a : value) (q : Q) :
  is_rational a q -> q <= 0 -> (a <=? float 0)%py = true.
Proof.
  intros (q' & Hq & Hq') H. unfold vle, Xq.le. rewrite Hq. cbn [num float].
  apply Qle_bool_iff. rewrite Hq'. exact H.
Qed.

(** A Python float divided by the float zero does raise. *)
Example float_division_by_zero :
  (float 1 / float 0)%py = Raises ZeroDivisionError.
Proof. reflexivity. Qed.

(** ** The loop *)

(** The division in [calculate_acceleration] is a numpy division: the call
    returns, whatever its arguments are. *)
Lemma calculate_acceleration_returns (v k mass gr : value) :
  calculate_acceleration v k mass gr
  = Returns (NpFloat64 (xaccel (num v) (num k) (num mass) (num gr))).
Proof.
  unfold calculate_acceleration, sign, vadd, vmul, vneg, vpow2, xaccel.
  cbn [unop]. rewrite binop_numpy_l, binop_numpy_l, binop_numpy_r.
  cbn [vdiv bind num]. rewrite num_binop, num_unop. reflexivity.
Qed.

(** The loop body, from the notebook's two functions. *)
Lemma advance_update_state k mass dt t h v :
  exists a,
    calculate_acceleration v k mass gravity = Returns a /\
    update_state t h v a dt = advance k mass dt (t, h, v).
Proof.
  eexists. split; [apply calculate_acceleration_returns | reflexivity].
Qed.

Lemma falling_loop_step fuel k mass dt t h v time height velocity :
  falling_loop (S fuel) k mass dt t h v time height velocity
  = if above (t, h, v) then
      let '(t', h', v') := advance k mass dt (t, h, v) in
      falling_loop fuel k mass dt t' h' v'
        (time ++ [t]) (height ++ [h]) (velocity ++ [v])
    else Returns (time, height, velocity).
Proof.
  cbn [falling_loop]. unfold above, height_of. cbn [fst snd].
  destruct (h >? float 0)%py; [|reflexivity].
  rewrite calculate_acceleration_returns. reflexivity.
Qed.

Lemma run_S k mass dt n s :
  run k mass dt (S n) s = advance k mass dt (run k mass dt n s).
Proof.
  revert s. induction n as [|n IH]; intros s; [reflexivity|].
  change (run k mass dt (S (S n)) s)
    with (run k mass dt (S n) (advance k mass dt s)).
  rewrite IH. reflexivity.
Qed.

Lemma samples_length k mass dt n s : length (samples k mass dt n s) = n.
Proof. revert s. induction n; intros; cbn; auto. Qed.

Lemma samples_nth k mass dt n s i d :
  (i < n)%nat -> nth i (samples k mass dt n s) d = run k mass dt i s.
Proof.
  revert s i. induction n as [|n IH]; intros s i Hi; [lia|].
  destruct i; cbn; [reflexivity|]. apply IH. lia.
Qed.

Lemma samples_snoc k mass dt n s :
  samples k mass dt (S n) s
  = (samples k mass dt n s ++ [run k mass dt n s])%list.
Proof.
  revert s. induction n as [|n IH]; intros s; [reflexivity|].
  change (samples k mass dt (S (S n)) s)
    with (s :: samples k mass dt (S n) (advance k mass dt s)).
  rewrite IH. reflexivity.
Qed.

Lemma samples_In k mass dt n s x :
  In x (samples k mass dt n s) ->
  exists i, (i < n)%nat /\ x = run k mass dt i s.
Proof.
  revert s. induction n as [|n IH]; intros s; [intros []|].
  cbn [samples In]. intros [<-|H].
  - exists 0%nat. split; [lia | reflexivity].
  - destruct (IH _ H) as (i & Hi & ->). exists (S i). split; [lia|].
    reflexivity.
Qed.

Lemma nth_map_samples (f : state -> value) k mass dt n s i d :
  (i < n)%nat ->
  nth i (map f (samples k mass dt n s)) d = f (run k mass dt i s).
Proof.
  intros Hi.
  rewrite (nth_indep _ d (f s)) by (rewrite length_map, samples_length; lia).
  rewrite map_nth, samples_nth by lia. reflexivity.
Qed.

Lemma last_map_samples (f : state -> value) k mass dt n s d :
  last (map f (samples k mass dt (S n) s)) d = f (run k mass dt n s).
Proof. rewrite samples_snoc, map_app. cbn [map]. apply last_last. Qed.

Lemma record_cons time height velocity s l :
  record time height velocity (s :: l)
  = record (time ++ [time_of s]) (height ++ [height_of s])
      (velocity ++ [velocity_of s]) l.
Proof. unfold record. cbn [map]. rewrite <- !app_assoc. reflexivity. Qed.

Lemma lands_after_unique k mass dt s n m :
  lands_after k mass dt s n -> lands_after k mass dt s m -> n = m.
Proof.
  intros [Hn Hn'] [Hm Hm'].
  destruct (Nat.lt_trichotomy n m) as [H|[H|H]]; auto.
  - rewrite (Hm n H) in Hn'. discriminate.
  - rewrite (Hn m H) in Hm'. discriminate.
Qed.

Lemma lands_after_S k mass dt s n :
  above s = true ->
  lands_after k mass dt (advance k mass dt s) n ->
  lands_after k mass dt s (S n).
Proof.
  intros Hs [Hlt Hn]. split; [|exact Hn].
  intros [|i] Hi; [exact Hs|]. apply Hlt. lia.
Qed.

Lemma lands_after_pos k mass dt s n :
  above s = true -> lands_after k mass dt s n -> (0 < n)%nat.
Proof.
  intros Hs [_ Hn]. destruct n; [|lia].
  cbn in Hn. congruence.
Qed.

(** A run that is on the ground after [n] passes left the loop after at
    most [n]. *)
Lemma first_landing k mass dt n :
  forall s, above (run k mass dt n s) = false ->
  exists m, (m <= n)%nat /\ lands_after k mass dt s m.
Proof.
  induction n as [|n IH]; intros s Hn.
  - exists 0%nat. split; [lia|]. split; [intros i Hi; lia | exact Hn].
  - destruct (above s) eqn:Hs.
    + destruct (IH (advance k mass dt s) Hn) as (m & Hm & Hl).
      exists (S m). split; [lia|]. now apply lands_after_S.
    + exists 0%nat. split; [lia|]. split; [intros i Hi; lia | exact Hs].
Qed.

(** What a run of the loop with [fuel] yields. *)
Lemma falling_loop_spec fuel k mass dt :
  forall t h v time height velocity,
  match falling_loop fuel k mass dt t h v time height velocity with
  | Returns r =>
      exists n, (n < fuel)%nat /\ lands_after k mass dt (t, h, v) n /\
        r = record time height velocity (samples k mass dt n (t, h, v))
  | Raises _ => False
  | OutOfFuel =>
      forall i, (i < fuel)%nat -> above (run k mass dt i (t, h, v)) = true
  end.
Proof.
  induction fuel as [|fuel IH]; intros t h v time height velocity.
  - cbn. intros i Hi. lia.
  - rewrite falling_loop_step.
    destruct (above (t, h, v)) eqn:Hab.
    + destruct (advance k mass dt (t, h, v)) as [[t' h'] v'] eqn:Hadv.
      specialize (IH t' h' v' (time ++ [t]) (height ++ [h])
                     (velocity ++ [v]))%list.
      destruct (falling_loop fuel k mass dt t' h' v' _ _ _) as [r|e|].
      * destruct IH as (n & Hn & Hl & Hr). exists (S n).
        split; [lia|]. split.
        -- apply lands_after_S; [exact Hab|]. rewrite Hadv. exact Hl.
        -- cbn [samples]. rewrite record_cons, Hadv. exact Hr.
      * exact IH.
      * intros [|i] Hi; [exact Hab|]. cbn [run]. rewrite Hadv.
        apply IH. lia.
    + exists 0%nat. split; [lia|]. split.
      * split; [intros i Hi; lia | exact Hab].
      * unfold record. cbn. rewrite !app_nil_r. reflexivity.
Qed.

(** The loop raises no exception. *)
Lemma falling_loop_no_raise fuel k mass dt t h v time height velocity e :
  falling_loop fuel k mass dt t h v time height velocity <> Raises e.
Proof.
  intros H.
  pose proof (falling_loop_spec fuel k mass dt t h v time height velocity)
    as Hs.
  rewrite H in Hs. exact Hs.
Qed.

Lemma falling_loop_returns fuel k mass dt t h v time height velocity r :
  falling_loop fuel k mass dt t h v time height velocity = Returns r ->
  exists n, (n < fuel)%nat /\ lands_after k mass dt (t, h, v) n /\
    r = record time height velocity (samples k mass dt n (t, h, v)).
Proof.
  intros H.
  pose proof (falling_loop_spec fuel k mass dt t h v time height velocity)
    as Hs.
  rewrite H in Hs. exact Hs.
Qed.

(** Enough fuel: a run that is left after [n] passes returns with any fuel
    above [n]. *)
Lemma falling_loop_lands fuel k mass dt t h v time height velocity n :
  lands_after k mass dt (t, h, v) n -> (n < fuel)%nat ->
  falling_loop fuel k mass dt t h v time height velocity
  = Returns (record time height velocity (samples k mass dt n (t, h, v))).
Proof.
  intros Hl Hn.
  pose proof (falling_loop_spec fuel k mass dt t h v time height velocity)
    as Hs.
  destruct (falling_loop fuel k mass dt t h v time height velocity)
    as [r|e|].
  - destruct Hs as (m & _ & Hm & ->).
    rewrite (lands_after_unique _ _ _ _ _ _ Hm Hl). reflexivity.
  - contradiction.
  - destruct Hl as [_ Hl]. rewrite (Hs n Hn) in Hl. discriminate.
Qed.

(** ** What [falling_mass] returns *)

Lemma falling_mass_returns fuel h0 k mass dt time height velocity :
  falling_mass fuel h0 k mass dt = Returns (time, height, velocity) ->
  exists n, (n < fuel)%nat /\
    lands_after k mass dt (initial_state h0) n /\
    time = map time_of (samples k mass dt n (initial_state h0)) /\
    height = map height_of (samples k mass dt n (initial_state h0)) /\
    velocity = map velocity_of (samples k mass dt n (initial_state h0)).
Proof.
  unfold falling_mass. intros H.
  apply falling_loop_returns in H. destruct H as (n & Hn & Hl & Hr).
  exists n. unfold record in Hr. cbn [app] in Hr.
  injection Hr as -> -> ->. auto.
Qed.

Lemma falling_mass_lands fuel h0 k mass dt n :
  lands_after k mass dt (initial_state h0) n -> (n < fuel)%nat ->
  falling_mass fuel h0 k mass dt
  = Returns (map time_of (samples k mass dt n (initial_state h0)),
             map height_of (samples k mass dt n (initial_state h0)),
             map velocity_of (samples k mass dt n (initial_state h0))).
Proof.
  intros Hl Hn. unfold falling_mass.
  exact (falling_loop_lands fuel k mass dt _ _ _ [] [] [] n Hl Hn).
Qed.

(** Replaces a returned call by the number of passes and the recorded
    states. *)
Ltac returned H n Hl :=
  apply falling_mass_returns in H;
  destruct H as (n & _ & Hl & -> & -> & ->).

(** A run without drag, [falling_mass(20, dt=1.0)]: three samples, the
    fourth state is below the ground. *)
Example free_fall_run :
  exists time height velocity,
    falling_mass 4 (float 20) default_k default_mass (float 1)
    = Returns (time, height, velocity) /\
    Forall2 is_rational time [0; 1; 2] /\
    Forall2 is_rational height [20; 15.095; 0.38] /\
    Forall2 is_rational velocity [0; - 9.81; - 19.62].
Proof.
  eexists _, _, _. split; [vm_compute; reflexivity|].
  repeat split; repeat constructor; (eexists; split; reflexivity).
Qed.

(** The loop needs one unit of fuel per test: three samples take four. *)
Example free_fall_run_out_of_fuel :
  falling_mass 3 (float 20) default_k default_mass (float 1) = OutOfFuel.
Proof. reflexivity. Qed.

(** ** The loop body on numbers *)

Lemma nums_advance k mass dt s :
  nums (advance k mass dt s)
  = let '(t, h, v) := nums s in
    let a := xaccel v (num k) (num mass) (Fin g) in
    (Xq.add t (num dt),
     Xq.add h (Xq.add (Xq.mul v (num dt))
                      (Xq.mul (Xq.mul (Fin (1 # 2)) a) (Xq.pow2 (num dt)))),
     Xq.add v (Xq.mul a (num dt))).
Proof.
  destruct s as [[t h] v].
  unfold nums, advance, update_state, time_of, height_of, velocity_of,
    vadd, vmul, vpow2.
  cbn [fst snd]. rewrite !num_binop, num_unop. reflexivity.
Qed.

(** The clock does not depend on the motion. *)
Lemma time_of_advance k mass dt s :
  num (time_of (advance k mass dt s)) = Xq.add (num (time_of s)) (num dt).
Proof.
  pose proof (nums_advance k mass dt s) as H.
  apply (f_equal (fun p => fst (fst p))) in H.
  destruct s as [[t h] v]. exact H.
Qed.

Lemma height_of_advance k mass dt t h v :
  num (height_of (advance k mass dt (t, h, v)))
  = Xq.add (num h)
      (Xq.add (Xq.mul (num v) (num dt))
         (Xq.mul
            (Xq.mul (Fin (1 # 2)) (xaccel (num v) (num k) (num mass) (Fin g)))
            (Xq.pow2 (num dt)))).
Proof.
  pose proof (nums_advance k mass dt (t, h, v)) as H.
  apply (f_equal (fun p => snd (fst p))) in H. exact H.
Qed.

Lemma time_of_run k mass dt s qd t0 n :
  num dt = Fin qd -> is_rational (time_of s) t0 ->
  is_rational (time_of (run k mass dt n s)) (t0 + Qnat n * qd).
Proof.
  intros Hd Ht. induction n as [|n IH].
  - destruct Ht as (q & Hq & Hq'). exists q. split; [exact Hq|].
    rewrite Hq'. change (Qnat 0) with 0. ring.
  - destruct IH as (q & Hq & Hq').
    rewrite run_S. exists (q + qd). split.
    + rewrite time_of_advance, Hq, Hd. reflexivity.
    + rewrite Hq', Qnat_S. ring.
Qed.

(** The recorded times are the multiples of [dt]. *)
Lemma time_grid k mass dt h0 (qd : Q) (n : nat) :
  is_rational dt qd ->
  is_rational (time_of (run k mass dt n (initial_state h0))) (Qnat n * qd).
Proof.
  intros (qd' & Hd & Hd').
  apply (is_rational_eq _ (0 + Qnat n * qd')).
  - apply time_of_run; [exact Hd | apply is_rational_float].
  - rewrite Hd'. ring.
Qed.

(** ** The loop body on rationals *)

Lemma xaccel_fin (v k mass gr : Q) :
  Qis_zero mass = false ->
  xaccel (Fin v) (Fin k) (Fin mass) (Fin gr) = Fin (qaccel v k mass gr).
Proof.
  intros Hm. unfold xaccel, qaccel. cbn. rewrite Hm. reflexivity.
Qed.

Lemma qaccel_compat (v k m gr v' k' m' gr' : Q) :
  v == v' -> k == k' -> m == m' -> gr == gr' ->
  qaccel v k m gr == qaccel v' k' m' gr'.
Proof.
  intros Hv Hk Hm Hg. unfold qaccel.
  rewrite (Qsgn_compat v v' Hv), Hv, Hk, Hm, Hg. reflexivity.
Qed.

Lemma advance_fin k mass dt s qk qm qd q :
  num k = Fin qk -> num mass = Fin qm -> num dt = Fin qd ->
  Qis_zero qm = false ->
  nums s = fin3 q ->
  nums (advance k mass dt s) = fin3 (qadvance qk qm qd q).
Proof.
  intros Hk Hm Hd Hz Hs. rewrite nums_advance, Hs, Hk, Hm, Hd.
  destruct q as [[qt qh] qv]. cbn [fin3].
  rewrite xaccel_fin by exact Hz. reflexivity.
Qed.

Lemma qrun_S k mass dt n s :
  qrun k mass dt (S n) s = qadvance k mass dt (qrun k mass dt n s).
Proof.
  revert s. induction n as [|n IH]; intros s; [reflexivity|].
  change (qrun k mass dt (S (S n)) s)
    with (qrun k mass dt (S n) (qadvance k mass dt s)).
  rewrite IH. reflexivity.
Qed.

Lemma run_fin k mass dt s qk qm qd q n :
  num k = Fin qk -> num mass = Fin qm -> num dt = Fin qd ->
  Qis_zero qm = false ->
  nums s = fin3 q ->
  nums (run k mass dt n s) = fin3 (qrun qk qm qd n q).
Proof.
  intros Hk Hm Hd Hz Hs. induction n as [|n IH]; [exact Hs|].
  rewrite run_S, qrun_S. now apply advance_fin.
Qed.

Lemma is_rational_nums (s : state) (q : qstate) :
  nums s = fin3 q ->
  is_rational (time_of s) (fst (fst q)) /\
  is_rational (height_of s) (qheight q) /\
  is_rational (velocity_of s) (qvelocity q).
Proof.
  destruct q as [[t h] v]. unfold nums, qheight, qvelocity.
  cbn [fin3 fst snd]. intros H. injection H as Ht Hh Hv.
  repeat split; eexists; (split; [eassumption|reflexivity]).
Qed.

Lemma above_rational (s : state) (q : Q) :
  is_rational (height_of s) q -> above s = Qltb 0 q.
Proof.
  intros (q' & Hq & Hq'). unfold above, vgt. rewrite Hq. cbn.
  unfold Qltb. rewrite Hq'. reflexivity.
Qed.

(** The heights of a run on rationals, when the mass is not zero. *)
Lemma run_heights k mass dt h0 (qk qm qd q0 : Q) :
  is_rational k qk -> is_rational mass qm -> ~ qm == 0 ->
  is_rational dt qd -> is_rational h0 q0 ->
  exists k' m' d' q0',
    k' == qk /\ m' == qm /\ d' == qd /\ q0' == q0 /\
    forall n,
      is_rational (height_of (run k mass dt n (initial_state h0)))
        (qheight (qrun k' m' d' n (0, q0', 0))).
Proof.
  intros (k' & Hk & Hk') (m' & Hm & Hm') Hne (d' & Hd & Hd')
    (q0' & Hq & Hq').
  exists k', m', d', q0'. repeat split; try assumption.
  intros n.
  assert (Hz : Qis_zero m' = false).
  { apply Qis_zero_false. rewrite Hm'. exact Hne. }
  assert (Hs : nums (initial_state h0) = fin3 (0, q0', 0)).
  { unfold nums, initial_state. cbn. rewrite Hq. reflexivity. }
  apply (is_rational_nums _ _
           (run_fin k mass dt _ k' m' d' _ n Hk Hm Hd Hz Hs)).
Qed.

(** ** Free fall: [k = 0] *)

Lemma qaccel_free_fall (v k m gr : Q) :
  k == 0 -> ~ m == 0 -> qaccel v k m gr == gr.
Proof.
  intros Hk Hm. unfold qaccel. rewrite Hk. field. exact Hm.
Qed.

(** Without drag the run is the parabola, sampled exactly. *)
Lemma qrun_free_fall (k m dt h0 : Q) (n : nat) :
  k == 0 -> ~ m == 0 ->
  let '(t, h, v) := qrun k m dt n (0, h0, 0) in
  t == Qnat n * dt /\
  h == h0 + (1 # 2) * g * (Qnat n * dt) ^ 2 /\
  v == g * (Qnat n * dt).
Proof.
  intros Hk Hm. induction n as [|n IH].
  - cbn. change (Qnat 0) with 0. repeat split; ring.
  - rewrite qrun_S. destruct (qrun k m dt n (0, h0, 0)) as [[t h] v].
    destruct IH as (Ht & Hh & Hv). cbn [qadvance].
    rewrite (qaccel_free_fall v k m g Hk Hm), Ht, Hh, Hv, Qnat_S.
    repeat split; ring.
Qed.

(** The states of a free fall, for a mass that is not zero. *)
Lemma run_free_fall k mass dt h0 (qm qd q0 : Q) (n : nat) :
  is_rational k 0 -> is_rational mass qm -> ~ qm == 0 ->
  is_rational dt qd -> is_rational h0 q0 ->
  let s := run k mass dt n (initial_state h0) in
  is_rational (time_of s) (Qnat n * qd) /\
  is_rational (height_of s) (q0 + (1 # 2) * g * (Qnat n * qd) ^ 2) /\
  is_rational (velocity_of s) (g * (Qnat n * qd)).
Proof.
  intros (k' & Hk & Hk') (m' & Hm & Hm') Hne (d' & Hd & Hd')
    (q0' & Hq & Hq').
  assert (Hz : Qis_zero m' = false).
  { apply Qis_zero_false. rewrite Hm'. exact Hne. }
  assert (Hs : nums (initial_state h0) = fin3 (0, q0', 0)).
  { unfold nums, initial_state. cbn. rewrite Hq. reflexivity. }
  pose proof (run_fin k mass dt _ k' m' d' _ n Hk Hm Hd Hz Hs) as Hrun.
  apply is_rational_nums in Hrun.
  assert (Hne' : ~ m' == 0) by (rewrite Hm'; exact Hne).
  pose proof (qrun_free_fall k' m' d' q0' n Hk' Hne') as Hq3.
  destruct (qrun k' m' d' n (0, q0', 0)) as [[t h] v].
  unfold qheight, qvelocity in Hrun. cbn [fst snd] in Hrun.
  destruct Hrun as (Rt & Rh & Rv).
  destruct Hq3 as (Et & Eh & Ev). cbn zeta. repeat split.
  - apply (is_rational_eq _ _ _ Rt). rewrite Et, Hd'. reflexivity.
  - apply (is_rational_eq _ _ _ Rh). rewrite Eh, Hd', Hq'. reflexivity.
  - apply (is_rational_eq _ _ _ Rv). rewrite Ev, Hd'. reflexivity.
Qed.

(** ** A mass of zero *)

(** At rest the force on a mass of zero is zero, and [0/0] is [nan]. *)
Lemma xaccel_at_rest_zero_mass (kx : xq) (m gr : Q) :
  Qis_zero m = true -> xaccel (Fin 0) kx (Fin m) (Fin gr) = NaN.
Proof.
  intros Hm. unfold xaccel. cbn [Xq.sign Xq.neg Xq.pow2].
  assert (Hnum : forall x, x == 0 -> (Qnum (m * gr + x) ?= 0)%Z = Eq).
  { intros x Hx. apply Z.compare_eq_iff.
    assert (H : m * gr + x == 0).
    { apply Qis_zero_true in Hm. rewrite Hm, Hx. ring. }
    apply Qis_zero_true in H. unfold Qis_zero in H.
    apply Z.eqb_eq in H. exact H. }
  destruct kx as [k|s|].
  - cbn [Xq.mul Xq.add Xq.div]. rewrite Hm, Hnum; [reflexivity|]. ring.
  - reflexivity.
  - reflexivity.
Qed.

(** With a mass of zero the height is [nan] after the first pass. *)
Lemma zero_mass_lands k mass dt h0 (qm : Q) :
  is_rational mass qm -> qm == 0 ->
  above (initial_state h0) = true ->
  lands_after k mass dt (initial_state h0) 1.
Proof.
  intros (m' & Hm & Hm') Hz Hab.
  split.
  - intros i Hi. replace i with 0%nat by lia. exact Hab.
  - cbn [run]. unfold above, vgt, initial_state.
    rewrite height_of_advance, Hm. cbn [num start_velocity float].
    rewrite xaccel_at_rest_zero_mass
      by (apply Qis_zero_true; rewrite Hm'; exact Hz).
    cbn [Xq.mul]. rewrite !add_nan_r. reflexivity.
Qed.

(** Every recorded state of a free fall lies on the parabola; a mass of
    zero records the initial state only. *)
Lemma free_fall_samples k mass dt h0 (qm qd q0 : Q) (n i : nat) :
  is_rational k 0 -> is_rational mass qm ->
  is_rational dt qd -> is_rational h0 q0 ->
  lands_after k mass dt (initial_state h0) n -> (i < n)%nat ->
  let s := run k mass dt i (initial_state h0) in
  is_rational (time_of s) (Qnat i * qd) /\
  is_rational (height_of s) (q0 + (1 # 2) * g * (Qnat i * qd) ^ 2) /\
  is_rational (velocity_of s) (g * (Qnat i * qd)).
Proof.
  intros Hk Hm Hd Hq Hl Hi.
  destruct (Qeq_dec qm 0) as [Hz|Hnz].
  - assert (Hab : above (initial_state h0) = true).
    { destruct Hl as [Hl _]. apply (Hl 0%nat). lia. }
    pose proof (zero_mass_lands k mass dt h0 qm Hm Hz Hab) as Hl1.
    pose proof (lands_after_unique _ _ _ _ _ _ Hl Hl1) as ->.
    replace i with 0%nat by lia. cbn [run]. cbn zeta.
    unfold initial_state, time_of, height_of, velocity_of. cbn [fst snd].
    change (Qnat 0) with 0. repeat split.
    + apply (is_rational_eq _ 0); [apply is_rational_float | ring].
    + apply (is_rational_eq _ _ _ Hq). ring.
    + apply (is_rational_eq _ 0); [apply is_rational_float | ring].
  - now apply (run_free_fall k mass dt h0 qm qd q0 i).
Qed.

(** ** The notebook's run: [falling_mass(20, k=0.035)]

    The heights of this run cannot be computed in exact arithmetic (the
    drag term squares the denominator of the velocity at every pass), so
    the run is followed by an invariant: from the first pass on the
    velocity stays between [-17] and [-0.981] m/s, and the height drops by
    at least [0.0981] m per pass. *)

Lemma notebook_pass (t h v : Q) :
  - (17) <= v -> v <= - (981 # 1000) ->
  let s' := qadvance notebook_k 1 (1 # 10) (t, h, v) in
  - (17) <= qvelocity s' /\ qvelocity s' <= - (981 # 1000) /\
  qheight s' <= h - (981 # 10000).
Proof.
  intros Hlo Hhi. cbn zeta. unfold qadvance, qheight, qvelocity.
  cbn [fst snd].
  assert (Hneg : v < 0) by lra.
  assert (Ha : qaccel v notebook_k 1 g == g + notebook_k * (v * v)).
  { unfold qaccel. rewrite (Qsgn_neg v Hneg). field. }
  rewrite Ha. unfold g, notebook_k.
  repeat split; nra.
Qed.

Lemma notebook_qrun_S (n : nat) :
  notebook_qrun (S n) = qadvance notebook_k 1 (1 # 10) (notebook_qrun n).
Proof. apply qrun_S. Qed.

Lemma notebook_invariant (n : nat) :
  - (17) <= qvelocity (notebook_qrun (S n)) /\
  qvelocity (notebook_qrun (S n)) <= - (981 # 1000) /\
  qheight (notebook_qrun (S n))
  <= 20 - (981 # 20000) - Qnat n * (981 # 10000).
Proof.
  induction n as [|n IH].
  - vm_compute. repeat split; discriminate.
  - rewrite notebook_qrun_S.
    destruct (notebook_qrun (S n)) as [[t h] v].
    unfold qheight, qvelocity in IH. cbn [fst snd] in IH.
    destruct IH as (Hlo & Hhi & Hh).
    destruct (notebook_pass t h v Hlo Hhi) as (Hlo' & Hhi' & Hh').
    split; [exact Hlo'|]. split; [exact Hhi'|].
    rewrite Qnat_S. lra.
Qed.

Lemma notebook_heights_decrease (n : nat) :
  qheight (notebook_qrun (S n)) < qheight (notebook_qrun n).
Proof.
  destruct n as [|n].
  - vm_compute. reflexivity.
  - rewrite notebook_qrun_S.
    destruct (notebook_invariant n) as (Hlo & Hhi & _).
    destruct (notebook_qrun (S n)) as [[t h] v].
    unfold qheight, qvelocity in *. cbn [fst snd] in Hlo, Hhi.
    destruct (notebook_pass t h v Hlo Hhi) as (_ & _ & Hh').
    unfold qheight in Hh'. cbn [fst snd]. lra.
Qed.

Lemma notebook_heights_antitone (i j : nat) :
  (i <= j)%nat ->
  qheight (notebook_qrun j) <= qheight (notebook_qrun i).
Proof.
  induction 1 as [|j Hij IH]; [apply Qle_refl|].
  pose proof (notebook_heights_decrease j). lra.
Qed.

(** After 205 passes the mass is below the ground. *)
Lemma notebook_below_ground : qheight (notebook_qrun 205) <= 0.
Proof.
  destruct (notebook_invariant 204) as (_ & _ & H).
  eapply Qle_trans; [exact H|]. vm_compute. discriminate.
Qed.

(** The states of the notebook's run are those of [notebook_qrun]. *)
Lemma notebook_run_height (n : nat) :
  is_rational
    (height_of (run (float notebook_k) default_mass default_dt n
                  (initial_state (float 20))))
    (qheight (notebook_qrun n)).
Proof.
  apply (is_rational_nums _ (notebook_qrun n)).
  apply run_fin; reflexivity.
Qed.

Lemma notebook_run_lands :
  exists n, (0 < n <= 205)%nat /\
    lands_after (float notebook_k) default_mass default_dt
      (initial_state (float 20)) n.
Proof.
  destruct (first_landing (float notebook_k) default_mass default_dt 205
              (initial_state (float 20))) as (n & Hn & Hl).
  - rewrite (above_rational _ _ (notebook_run_height 205)).
    apply Qltb_false. apply notebook_below_ground.
  - exists n. split; [|exact Hl]. split; [|exact Hn].
    apply (lands_after_pos (float notebook_k) default_mass default_dt
             (initial_state (float 20)) n eq_refl Hl).
Qed.

(** The first passes of the notebook's run, in exact arithmetic. *)
Example notebook_first_samples :
  Forall2 Qeq (map qheight (map notebook_qrun [0; 1; 2]%nat))
    [20; 19.95095; 19.803968413175] /\
  Forall2 Qeq (map qvelocity (map notebook_qrun [0; 1; 2]%nat))
    [0; - 0.981; - 1.9586317365].
Proof.
  split; repeat constructor; vm_compute; reflexivity.
Qed.

(** ** Termination

    For [theta <= 1] the scaled speed stays in [[0, theta + 1/4]].  For
    larger [theta] the explicit scheme overshoots and the mass can move
    upwards for one pass, which the next pass more than makes up for.  In
    both cases the drop grows without bound. *)

Section Progress.
Variables (theta : Q) (u E : nat -> Q).
Hypothesis theta_pos : 0 < theta.
Hypothesis u_0 : u 0%nat == 0.
Hypothesis E_0 : E 0%nat == 0.
Hypothesis u_fall :
  forall n, 0 <= u n -> u (S n) == u n + theta - u n * u n.
Hypothesis u_rise :
  forall n, u n < 0 -> u (S n) == u n + theta + u n * u n.
Hypothesis E_step : forall n, E (S n) == E n + u n + u (S n).

(** A slow fall stays a fall. *)
Lemma fall_nonneg x :
  theta <= 1 -> 0 <= x -> x <= theta + (1 # 4) -> 0 <= x + theta - x * x.
Proof.
  intros Hth H0 H1. destruct (Qlt_le_dec x 1) as [H|H]; nra.
Qed.

(** Two falling states in a row drop by [min 1 theta] at least. *)
Lemma fall_gain x r :
  0 < r -> r <= theta -> r <= 1 -> 0 <= x -> 0 <= x + theta - x * x ->
  r <= x + (x + theta - x * x).
Proof.
  intros Hr Hrt Hr1 H0 H1. destruct (Qlt_le_dec x r) as [H|H]; nra.
Qed.

(** After an overshoot [y < 0] the mass falls again, and the two passes
    together drop by [1/4] at least. *)
Lemma rise_gain x :
  1 <= theta -> 0 <= x -> x + theta - x * x < 0 ->
  let y := x + theta - x * x in
  0 <= y + theta + y * y /\
  (1 # 4) <= x + y + (y + (y + theta + y * y)).
Proof.
  intros Hth H0 Hneg y. subst y.
  set (U := - (x + theta - x * x)) in *.
  assert (HU : 0 < U) by (unfold U; lra).
  assert (Hx : x * x == U + x + theta) by (unfold U; ring).
  setoid_replace (x + theta - x * x) with (- U) by (unfold U; ring).
  setoid_replace (x + - U + (- U + (- U + theta + - U * - U)))
    with (U * U - 4 * U + x * x) by (rewrite Hx; ring).
  pose proof (Qsq_nonneg (U - (3 # 2))).
  pose proof (Qsq_nonneg (U - (1 # 2))).
  assert (1 <= x) by nra.
  split; nra.
Qed.

Lemma good_0 rho : good theta u E rho 0.
Proof.
  unfold good. rewrite u_0, E_0.
  change (Qnat 0) with 0. repeat split; intros; lra.
Qed.

Lemma good_step rho n :
  0 < rho -> rho <= theta -> rho <= 1 # 8 ->
  good theta u E rho n ->
  good theta u E rho (S n) \/ good theta u E rho (S (S n)).
Proof.
  intros Hr Hrt Hr8 (H0 & H1 & HE). unfold good.
  pose proof (u_fall n H0) as Hu. pose proof (E_step n) as He.
  pose proof (Qnat_S n) as Hn. pose proof (Qnat_nonneg n) as Hn0.
  destruct (Qlt_le_dec 1 theta) as [Hth|Hth].
  - destruct (Qlt_le_dec (u (S n)) 0) as [Hneg|Hpos].
    + right. pose proof (u_rise (S n) Hneg) as Hu'.
      pose proof (E_step (S n)) as He'. pose proof (Qnat_S (S n)) as Hn'.
      destruct (rise_gain (u n)) as (Hpos' & Hgain); [lra|exact H0|lra|].
      cbn zeta in Hpos', Hgain. rewrite <- Hu in Hpos', Hgain.
      rewrite <- Hu' in Hpos', Hgain.
      split; [exact Hpos'|]. split; [intros; lra|].
      rewrite He', He, Hn', Hn. nra.
    + left. split; [exact Hpos|]. split; [intros; lra|].
      assert (Hg : rho <= u n + (u n + theta - u n * u n)).
      { apply fall_gain; lra. }
      rewrite <- Hu in Hg. rewrite He, Hn. nra.
  - left. specialize (H1 Hth).
    pose proof (fall_nonneg (u n) Hth H0 H1) as Hpos.
    assert (Hg : rho <= u n + (u n + theta - u n * u n)).
    { apply fall_gain; lra. }
    pose proof (Qsq_nonneg (u n - (1 # 2))) as Hsq.
    rewrite <- Hu in Hpos, Hg.
    split; [exact Hpos|]. split; [intros _; rewrite Hu; nra|].
    rewrite He, Hn. nra.
Qed.

Lemma good_eventually rho N :
  0 < rho -> rho <= theta -> rho <= 1 # 8 ->
  exists n, (N <= n)%nat /\ good theta u E rho n.
Proof.
  intros Hr Hrt Hr8. induction N as [|N (n & Hn & Hg)].
  - exists 0%nat. split; [lia | apply good_0].
  - destruct (good_step rho n Hr Hrt Hr8 Hg) as [H|H].
    + exists (S n). split; [lia | exact H].
    + exists (S (S n)). split; [lia | exact H].
Qed.

(** The drop exceeds every bound. *)
Lemma drop_unbounded (L : Q) : exists n, L <= E n.
Proof.
  set (rho := Qmin theta (1 # 8)).
  assert (Hr : 0 < rho) by (unfold rho; apply Q.min_glb_lt; lra).
  assert (Hrt : rho <= theta) by apply Q.le_min_l.
  assert (Hr8 : rho <= 1 # 8) by apply Q.le_min_r.
  destruct (Qnat_above (L / rho)) as (N & HN).
  destruct (good_eventually rho N Hr Hrt Hr8) as (n & Hn & _ & _ & HE).
  exists n. apply Qnat_le in Hn.
  assert (HL : L <= Qnat N * rho).
  { apply (Qmult_le_r _ _ rho Hr) in HN.
    setoid_replace (L / rho * rho) with L in HN by (field; lra).
    exact HN. }
  nra.
Qed.

End Progress.

Section Drag.
Variables k m dt h0 : Q.
Hypothesis k_pos : 0 < k.
Hypothesis m_pos : 0 < m.
Hypothesis dt_pos : 0 < dt.

Lemma scale_pos : 0 < k * dt / m.
Proof.
  apply Qlt_shift_div_l; [exact m_pos|]. nra.
Qed.

Lemma drag_theta_pos : 0 < drag_theta k m dt.
Proof.
  unfold drag_theta. apply Qlt_shift_div_l; [exact m_pos|].
  assert (H1 : 0 < dt * dt) by nra.
  assert (H2 : 0 < k * (dt * dt)) by nra.
  lra.
Qed.

Lemma drag_speed_0 : drag_speed k m dt h0 0 == 0.
Proof. unfold drag_speed, qvelocity. cbn. ring. Qed.

Lemma drag_drop_0 : drag_drop k m dt h0 0 == 0.
Proof. unfold drag_drop, qheight. cbn. ring. Qed.

Lemma drag_speed_fall n :
  0 <= drag_speed k m dt h0 n ->
  drag_speed k m dt h0 (S n)
  == drag_speed k m dt h0 n + drag_theta k m dt
     - drag_speed k m dt h0 n * drag_speed k m dt h0 n.
Proof.
  unfold drag_speed. rewrite qrun_S.
  destruct (qrun k m dt n (0, h0, 0)) as [[t h] v].
  unfold qvelocity, qadvance, drag_theta, qaccel, g. cbn [fst snd].
  intros Hu. pose proof scale_pos as Hb.
  assert (Hv : v <= 0) by nra.
  destruct (Qle_lt_or_eq _ _ Hv) as [Hneg|Hz].
  - rewrite (Qsgn_neg v Hneg). field. lra.
  - rewrite (Qsgn_zero v Hz), Hz. field. lra.
Qed.

Lemma drag_speed_rise n :
  drag_speed k m dt h0 n < 0 ->
  drag_speed k m dt h0 (S n)
  == drag_speed k m dt h0 n + drag_theta k m dt
     + drag_speed k m dt h0 n * drag_speed k m dt h0 n.
Proof.
  unfold drag_speed. rewrite qrun_S.
  destruct (qrun k m dt n (0, h0, 0)) as [[t h] v].
  unfold qvelocity, qadvance, drag_theta, qaccel, g. cbn [fst snd].
  intros Hu. pose proof scale_pos as Hb.
  assert (Hv : 0 < v) by nra.
  rewrite (Qsgn_pos v Hv). field. lra.
Qed.

Lemma drag_drop_step n :
  drag_drop k m dt h0 (S n)
  == drag_drop k m dt h0 n + drag_speed k m dt h0 n
     + drag_speed k m dt h0 (S n).
Proof.
  unfold drag_drop, drag_speed. rewrite qrun_S.
  destruct (qrun k m dt n (0, h0, 0)) as [[t h] v].
  unfold qvelocity, qheight, qadvance. cbn [fst snd].
  generalize (qaccel v k m g). intros a. field. lra.
Qed.

(** With drag the height reaches the ground. *)
Lemma drag_hits_ground :
  exists n, qheight (qrun k m dt n (0, h0, 0)) <= 0.
Proof.
  destruct (drop_unbounded (drag_theta k m dt) (drag_speed k m dt h0)
              (drag_drop k m dt h0) drag_theta_pos drag_speed_0 drag_drop_0
              drag_speed_fall drag_speed_rise drag_drop_step
              (2 * k / m * h0)) as (n & Hn).
  exists n. unfold drag_drop in Hn.
  assert (Hc : 0 < 2 * k / m).
  { apply Qlt_shift_div_l; [exact m_pos|]. lra. }
  nra.
Qed.

End Drag.

(** Without drag it does as well. *)
Lemma free_fall_hits_ground (k m dt h0 : Q) :
  k == 0 -> 0 < m -> 0 < dt ->
  exists n, qheight (qrun k m dt n (0, h0, 0)) <= 0.
Proof.
  intros Hk Hm Hdt.
  assert (Hdd : 0 < dt * dt) by nra.
  set (c := (981 # 100) * (dt * dt)).
  assert (Hd : 0 < c) by (unfold c; lra).
  set (x := 2 * h0 / c).
  assert (Hx : x * c == 2 * h0) by (unfold x; field; lra).
  destruct (Qnat_above (1 + Qabs x)) as (n & Hn).
  pose proof (Qabs_nonneg x) as Hx0. pose proof (Qle_Qabs x) as Hx1.
  exists n.
  assert (Hne : ~ m == 0) by lra.
  pose proof (qrun_free_fall k m dt h0 n Hk Hne) as H.
  destruct (qrun k m dt n (0, h0, 0)) as [[t h] v].
  destruct H as (_ & Hh & _). unfold qheight. cbn [fst snd].
  rewrite Hh. unfold g.
  setoid_replace (h0 + (1 # 2) * - (981 # 100) * (Qnat n * dt) ^ 2)
    with (h0 - (1 # 2) * (Qnat n * (Qnat n * c))) by (unfold c; ring).
  assert (H1 : 1 <= Qnat n) by lra.
  assert (H2 : x <= Qnat n) by lra.
  assert (H3 : 2 * h0 <= Qnat n * c) by nra.
  clearbody x c. remember (Qnat n * c) as y eqn:Ey.
  assert (H4 : 0 <= y) by (subst y; nra).
  assert (H5 : y <= Qnat n * y) by nra.
  lra.
Qed.

Lemma qrun_hits_ground (k m dt h0 : Q) :
  0 <= k -> 0 < m -> 0 < dt ->
  exists n, qheight (qrun k m dt n (0, h0, 0)) <= 0.
Proof.
  intros Hk Hm Hdt. destruct (Qle_lt_or_eq _ _ Hk) as [Hpos|Hz].
  - now apply drag_hits_ground.
  - apply free_fall_hits_ground; auto. symmetry. exact Hz.
Qed.

(** The hypothesis [dt > 0] is needed: with [dt = 0] the state never
    changes and a mass above the ground stays there, whatever the fuel. *)
Lemma qrun_no_step (k m h0 : Q) (n : nat) :
  qheight (qrun k m 0 n (0, h0, 0)) == h0.
Proof.
  induction n as [|n IH]; [reflexivity|].
  rewrite qrun_S. destruct (qrun k m 0 n (0, h0, 0)) as [[t h] v].
  unfold qheight in *. cbn [qadvance fst snd] in *. rewrite <- IH. ring.
Qed.

Lemma no_step_never_returns (h0 k m : Q) (fuel : nat) :
  0 < h0 -> ~ m == 0 ->
  falling_mass fuel (float h0) (float k) (float m) (float 0) = OutOfFuel.
Proof.
  intros Hh Hm.
  assert (Hab : forall n,
            above (run (float k) (float m) (float 0) n
                     (initial_state (float h0))) = true).
  { intros n.
    assert (Hrat : is_rational
              (height_of (run (float k) (float m) (float 0) n
                            (initial_state (float h0))))
              (qheight (qrun k m 0 n (0, h0, 0)))).
    { apply (is_rational_nums _ (qrun k m 0 n (0, h0, 0))).
      apply run_fin; try reflexivity. now apply Qis_zero_false. }
    rewrite (above_rational _ _ Hrat). apply Qltb_true.
    rewrite qrun_no_step. exact Hh. }
  unfold falling_mass.
  pose proof (falling_loop_spec fuel (float k) (float m) (float 0)
                (float 0) (float h0) start_velocity [] [] []) as Hs.
  destruct (falling_loop fuel _ _ _ _ _ _ _ _ _) as [r|e|].
  - destruct Hs as (n & _ & [_ Hn] & _).
    change (float 0, float h0, start_velocity)
      with (initial_state (float h0)) in Hn.
    rewrite Hab in Hn. discriminate.
  - contradiction.
  - reflexivity.
Qed.

(** ** The time grid and termination in exact arithmetic *)

(** In exact arithmetic the times are the multiples of [dt]; for [dt > 0]
    they increase strictly, consecutive ones being [dt] apart. *)
Lemma exact_time_grid fuel h0 k mass dt time height velocity :
  falling_mass fuel h0 k mass dt = Returns (time, height, velocity) ->
  length time = length height /\
  length height = length velocity /\
  forall qd, is_rational dt qd ->
    (forall i, (i < length time)%nat ->
       is_rational (nth i time (float 0)) (Qnat i * qd)) /\
    (0 < qd ->
     forall i, (S i < length time)%nat ->
       exists a b,
         is_rational (nth i time (float 0)) a /\
         is_rational (nth (S i) time (float 0)) b /\
         a < b /\ b - a == qd).
Proof.
  intros H. returned H n Hl.
  rewrite !length_map, samples_length. repeat split.
  - intros i Hi. rewrite nth_map_samples by exact Hi.
    now apply time_grid.
  - intros Hpos i Hi.
    exists (Qnat i * qd), (Qnat (S i) * qd).
    rewrite !nth_map_samples by lia.
    split; [now apply time_grid|]. split; [now apply time_grid|].
    rewrite Qnat_S. split; [nra | ring].
Qed.

(** In exact arithmetic, for rational [dt > 0], [k >= 0], [mass > 0] and
    any rational [initial_height], the loop is left after finitely many
    passes, with a height [<= 0]. *)
Lemma exact_termination (h0 k mass dt : value) (q0 qk qm qd : Q) :
  is_rational h0 q0 -> is_rational k qk -> is_rational mass qm ->
  is_rational dt qd ->
  0 <= qk -> 0 < qm -> 0 < qd ->
  exists n,
    lands_after k mass dt (initial_state h0) n /\
    (height_of (run k mass dt n (initial_state h0)) <=? float 0)%py = true /\
    forall fuel, (n < fuel)%nat ->
      exists r, falling_mass fuel h0 k mass dt = Returns r.
Proof.
  intros Hq Hk Hm Hd Hk0 Hm0 Hd0.
  assert (Hne : ~ qm == 0) by lra.
  destruct (run_heights k mass dt h0 qk qm qd q0 Hk Hm Hne Hd Hq)
    as (k' & m' & d' & q0' & Hk' & Hm' & Hd' & _ & Hh).
  destruct (qrun_hits_ground k' m' d' q0') as (N & HN);
    [rewrite Hk'; exact Hk0 | rewrite Hm'; exact Hm0
    | rewrite Hd'; exact Hd0 |].
  destruct (first_landing k mass dt N (initial_state h0)) as (n & _ & Hl).
  { rewrite (above_rational _ _ (Hh N)). apply Qltb_false. exact HN. }
  exists n. split; [exact Hl|]. split.
  - apply (vle_rational _ _ (Hh n)). apply Qltb_false.
    rewrite <- (above_rational _ _ (Hh n)). destruct Hl as [_ Hl].
    exact Hl.
  - intros fuel Hfuel. eexists.
    apply (falling_mass_lands fuel h0 k mass dt n Hl Hfuel).
Qed.

(** * Facts about binary64 numbers *)

(** Rounding keeps the sign. *)
Lemma f64_round_sign s m e l :
  match binary_round_aux F64.prec F64.emax s m e l with
  | S754_zero s' | S754_infinity s' | S754_finite s' _ _ => s' = s
  | S754_nan => True
  end.
Proof.
  unfold binary_round_aux.
  destruct (shr_fexp F64.prec F64.emax m e l) as [mrs e'].
  destruct (shr_fexp F64.prec F64.emax _ e' loc_Exact) as [mrs' e''].
  destruct (shr_m mrs'); [reflexivity | | exact I].
  destruct (e'' <=? F64.emax - F64.prec)%Z; reflexivity.
Qed.

Lemma f64_mul_nan_l x : F64.mul S754_nan x = S754_nan.
Proof. reflexivity. Qed.

Lemma f64_mul_nan_r x : F64.mul x S754_nan = S754_nan.
Proof. destruct x; reflexivity. Qed.

Lemma f64_add_nan_l x : F64.add S754_nan x = S754_nan.
Proof. reflexivity. Qed.

Lemma f64_add_nan_r x : F64.add x S754_nan = S754_nan.
Proof. destruct x; reflexivity. Qed.

Lemma f64_div_nan_l x : F64.div S754_nan x = S754_nan.
Proof. reflexivity. Qed.

(** A division by zero never gives a finite number. *)
Lemma f64_div_zero x y :
  F64.is_zero y = true -> F64.is_finite (F64.div x y) = false.
Proof. destruct y; try discriminate. intros _. destruct x; reflexivity. Qed.

(** The sign of a product. *)
Lemma f64_mul_sign x y :
  match F64.mul x y with
  | S754_nan => True
  | z => F64.sign_bit z = xorb (F64.sign_bit x) (F64.sign_bit y)
  end.
Proof.
  destruct x as [sx|sx| |sx mx ex], y as [sy|sy| |sy my ey];
    try reflexivity; try exact I.
  unfold F64.mul, SFmul.
  pose proof (f64_round_sign (xorb sx sy) (Z.pos (mx * my)) (ex + ey)
                loc_Exact) as H.
  destruct (binary_round_aux _ _ _ _ _ _); cbn [F64.sign_bit]; auto.
Qed.



Lemma f64_mul_not_positive_l x y :
  F64.not_negative x -> F64.not_positive y -> F64.not_positive (F64.mul x y).
Proof.
  intros Hx Hy. pose proof (f64_mul_sign x y) as H.
  destruct x as [sx|sx| |sx mx ex], y as [sy|sy| |sy my ey];
    cbn [F64.not_positive F64.not_negative] in Hx, Hy; subst;
    try exact I;
    destruct (F64.mul _ _); cbn [F64.not_positive F64.sign_bit] in *;
    try exact I; exact H.
Qed.







(** The literals of the program. *)
Lemma b64_float_0 : Binary64.float 0 = Binary64.PyFloat F64.zero.
Proof. reflexivity. Qed.

Lemma b64_gravity_finite :
  exists m e, Binary64.num Binary64.gravity = S754_finite true m e.
Proof. eexists _, _. vm_compute. reflexivity. Qed.

Lemma b64_one_half_finite :
  exists m e, Binary64.num Binary64.one_half = S754_finite false m e.
Proof. eexists _, _. vm_compute. reflexivity. Qed.


(** * Facts about the binary64 program *)

(** ** Scalar types *)

Lemma b64_num_binop f a b :
  Binary64.num (Binary64.binop f a b) = f (Binary64.num a) (Binary64.num b).
Proof. destruct a, b; reflexivity. Qed.

Lemma b64_num_unop f a :
  Binary64.num (Binary64.unop f a) = f (Binary64.num a).
Proof. destruct a; reflexivity. Qed.

Lemma b64_binop_numpy_r f a y :
  Binary64.binop f a (Binary64.NpFloat64 y)
  = Binary64.NpFloat64 (f (Binary64.num a) y).
Proof. destruct a; reflexivity. Qed.

Lemma b64_binop_numpy_l f x b :
  Binary64.binop f (Binary64.NpFloat64 x) b
  = Binary64.NpFloat64 (f x (Binary64.num b)).
Proof. destruct b; reflexivity. Qed.

Lemma b64_binop_is_numpy f a b :
  Binary64.is_numpy (Binary64.binop f a b)
  = Binary64.is_numpy a || Binary64.is_numpy b.
Proof. destruct a, b; reflexivity. Qed.

(** ** The two functions of the loop body *)

(** [v**2] raises, or [calculate_acceleration] returns a numpy scalar. *)
Lemma b64_calculate_acceleration_cases v k mass gr :
  Binary64.calculate_acceleration v k mass gr
  = if Binary64.pow_raises v then Raises OverflowError
    else Returns (Binary64.NpFloat64
                    (F64.accel (Binary64.num v) (Binary64.num k)
                       (Binary64.num mass) (Binary64.num gr))).
Proof.
  unfold Binary64.calculate_acceleration, Binary64.vpow2.
  destruct (Binary64.pow_raises v); [reflexivity|].
  cbn [bind]. unfold Binary64.sign, Binary64.vadd, Binary64.vmul, Binary64.vneg.
  cbn [Binary64.unop].
  rewrite b64_binop_numpy_l, b64_binop_numpy_l, b64_binop_numpy_r.
  cbn [Binary64.vdiv bind Binary64.num].
  rewrite b64_num_binop, b64_num_unop. reflexivity.
Qed.

Lemma b64_update_state_cases t x v a dt :
  Binary64.update_state t x v a dt
  = if Binary64.pow_raises dt then Raises OverflowError
    else Returns
           ((t + dt)%b64,
            (x + (v * dt
                  + Binary64.one_half * a * Binary64.unop F64.square dt))%b64,
            (v + a * dt)%b64).
Proof.
  unfold Binary64.update_state, Binary64.vpow2.
  destruct (Binary64.pow_raises dt); reflexivity.
Qed.

(** A numpy scalar is squared without an error. *)
Lemma b64_pow_raises_numpy a :
  Binary64.is_numpy a = true -> Binary64.pow_raises a = false.
Proof. destruct a; [discriminate | reflexivity]. Qed.

Lemma b64_pow_raises_start : Binary64.pow_raises Binary64.start_velocity = false.
Proof. reflexivity. Qed.

Lemma b64_loop_velocity_pow v :
  Binary64.loop_velocity v -> Binary64.pow_raises v = false.
Proof.
  intros [-> | H]; [reflexivity | now apply b64_pow_raises_numpy].
Qed.

Lemma b64_advance_cases k mass dt s :
  Binary64.advance k mass dt s
  = if Binary64.pow_raises (Binary64.velocity_of s) then Raises OverflowError
    else Binary64.update_state (Binary64.time_of s) (Binary64.height_of s)
           (Binary64.velocity_of s)
           (Binary64.NpFloat64
              (F64.accel (Binary64.num (Binary64.velocity_of s))
                 (Binary64.num k) (Binary64.num mass)
                 (Binary64.num Binary64.gravity))) dt.
Proof.
  unfold Binary64.advance. rewrite b64_calculate_acceleration_cases.
  destruct (Binary64.pow_raises (Binary64.velocity_of s)); reflexivity.
Qed.

(** After a pass the height and the velocity are numpy scalars. *)
Lemma b64_advance_kinds k mass dt s s' :
  Binary64.advance k mass dt s = Returns s' ->
  Binary64.is_numpy (Binary64.height_of s') = true /\
  Binary64.is_numpy (Binary64.velocity_of s') = true /\
  Binary64.time_of s' = (Binary64.time_of s + dt)%b64.
Proof.
  rewrite b64_advance_cases, b64_update_state_cases.
  destruct (Binary64.pow_raises (Binary64.velocity_of s)); [discriminate|].
  destruct (Binary64.pow_raises dt); [discriminate|].
  intros H. injection H as <-.
  unfold Binary64.height_of, Binary64.velocity_of, Binary64.time_of.
  cbn [fst snd]. unfold Binary64.vadd, Binary64.vmul.
  rewrite !b64_binop_is_numpy. cbn [Binary64.is_numpy].
  repeat split; repeat (rewrite orb_true_r || rewrite orb_true_l);
    reflexivity.
Qed.

(** What a pass can raise: [OverflowError], from [v**2] or from [dt**2]. *)
Lemma b64_advance_raises k mass dt s e :
  Binary64.advance k mass dt s = Raises e ->
  e = OverflowError /\
  (Binary64.pow_raises (Binary64.velocity_of s) = true \/
   Binary64.pow_raises dt = true).
Proof.
  rewrite b64_advance_cases, b64_update_state_cases.
  destruct (Binary64.pow_raises (Binary64.velocity_of s)).
  - intros H. injection H as <-. auto.
  - destruct (Binary64.pow_raises dt); [|discriminate].
    intros H. injection H as <-. auto.
Qed.

Lemma b64_advance_not_out_of_fuel k mass dt s :
  Binary64.advance k mass dt s <> OutOfFuel.
Proof.
  rewrite b64_advance_cases, b64_update_state_cases.
  destruct (Binary64.pow_raises (Binary64.velocity_of s)); [discriminate|].
  destruct (Binary64.pow_raises dt); discriminate.
Qed.

(** ** The loop *)

Lemma b64_falling_loop_step fuel k mass dt t h v time height velocity :
  Binary64.falling_loop (S fuel) k mass dt t h v time height velocity
  = if Binary64.above (t, h, v) then
      match Binary64.advance k mass dt (t, h, v) with
      | Returns (t', h', v') =>
          Binary64.falling_loop fuel k mass dt t' h' v'
            (time ++ [t]) (height ++ [h]) (velocity ++ [v])
      | Raises e => Raises e
      | OutOfFuel => OutOfFuel
      end
    else Returns (time, height, velocity).
Proof.
  cbn [Binary64.falling_loop]. unfold Binary64.above, Binary64.advance.
  cbn [Binary64.height_of Binary64.velocity_of Binary64.time_of fst snd].
  destruct (Binary64.vgt h (Binary64.float 0)); [|reflexivity].
  destruct (Binary64.calculate_acceleration v k mass Binary64.gravity)
    as [a| |]; reflexivity.
Qed.

Lemma b64_record_cons time height velocity s l :
  Binary64.record (time ++ [Binary64.time_of s])
    (height ++ [Binary64.height_of s])
    (velocity ++ [Binary64.velocity_of s]) l
  = Binary64.record time height velocity (s :: l).
Proof.
  unfold Binary64.record. cbn [map]. rewrite <- !app_assoc. reflexivity.
Qed.

Lemma b64_passes_advance k mass dt s s' l s'' :
  Binary64.above s = true ->
  Binary64.advance k mass dt s = Returns s' ->
  Binary64.passes k mass dt s' l s'' ->
  Binary64.passes k mass dt s (s :: l) s''.
Proof.
  unfold Binary64.advance. intros Hab Hadv Hp.
  destruct (Binary64.calculate_acceleration (Binary64.velocity_of s) k mass
              Binary64.gravity) as [a| |] eqn:Ha; try discriminate.
  cbn [bind] in Hadv. exact (Binary64.passes_cons _ _ _ s a s' l s'' Hab Ha Hadv Hp).
Qed.

Lemma b64_passes_inv k mass dt s s0 l s'' :
  Binary64.passes k mass dt s (s0 :: l) s'' ->
  s0 = s /\ Binary64.above s = true /\
  exists s', Binary64.advance k mass dt s = Returns s' /\
             Binary64.passes k mass dt s' l s''.
Proof.
  intros H. inversion H as [|? a s' ? ? Hab Ha Hu Hp]; subst.
  split; [reflexivity|]. split; [exact Hab|]. exists s'. split; [|exact Hp].
  unfold Binary64.advance. rewrite Ha. exact Hu.
Qed.

(** What the loop does, by its result. *)
Lemma b64_falling_loop_spec fuel k mass dt :
  forall t h v time height velocity,
  match Binary64.falling_loop fuel k mass dt t h v time height velocity with
  | Returns r =>
      exists l s', Binary64.passes k mass dt (t, h, v) l s' /\
        Binary64.above s' = false /\ (length l < fuel)%nat /\
        r = Binary64.record time height velocity l
  | Raises e =>
      exists l s', Binary64.passes k mass dt (t, h, v) l s' /\
        Binary64.above s' = true /\ (length l < fuel)%nat /\
        Binary64.advance k mass dt s' = Raises e
  | OutOfFuel =>
      exists l s', Binary64.passes k mass dt (t, h, v) l s' /\
        length l = fuel
  end.
Proof.
  induction fuel as [|fuel IH]; intros t h v time height velocity.
  - cbn. exists [], (t, h, v). split; [constructor | reflexivity].
  - rewrite b64_falling_loop_step.
    destruct (Binary64.above (t, h, v)) eqn:Hab.
    + destruct (Binary64.advance k mass dt (t, h, v))
        as [[[t' h'] v']|e|] eqn:Hadv.
      * specialize (IH t' h' v' (time ++ [t]) (height ++ [h])
                      (velocity ++ [v])).
        destruct (Binary64.falling_loop fuel k mass dt t' h' v' _ _ _)
          as [r|e|].
        -- destruct IH as (l & s' & Hp & Hs' & Hlen & ->).
           exists ((t, h, v) :: l), s'.
           split; [exact (b64_passes_advance _ _ _ _ _ _ _ Hab Hadv Hp)|].
           split; [exact Hs'|]. split; [cbn [length]; lia|].
           exact (b64_record_cons time height velocity (t, h, v) l).
        -- destruct IH as (l & s' & Hp & Hs' & Hlen & He).
           exists ((t, h, v) :: l), s'.
           split; [exact (b64_passes_advance _ _ _ _ _ _ _ Hab Hadv Hp)|].
           split; [exact Hs'|]. split; [cbn [length]; lia | exact He].
        -- destruct IH as (l & s' & Hp & Hlen).
           exists ((t, h, v) :: l), s'.
           split; [exact (b64_passes_advance _ _ _ _ _ _ _ Hab Hadv Hp)|].
           cbn [length]. lia.
      * exists [], (t, h, v). split; [constructor|]. split; [exact Hab|].
        split; [cbn; lia | exact Hadv].
      * exfalso. exact (b64_advance_not_out_of_fuel _ _ _ _ Hadv).
    + exists [], (t, h, v). split; [constructor|]. split; [exact Hab|].
      split; [cbn; lia|]. unfold Binary64.record. cbn [map].
      rewrite !app_nil_r. reflexivity.
Qed.

(** The converse: the passes decide the result. *)
Lemma b64_falling_loop_passes k mass dt s l s' :
  Binary64.passes k mass dt s l s' ->
  forall fuel time height velocity,
  Binary64.falling_loop (length l + fuel) k mass dt
    (Binary64.time_of s) (Binary64.height_of s) (Binary64.velocity_of s)
    time height velocity
  = let '(time', height', velocity') :=
      Binary64.record time height velocity l in
    Binary64.falling_loop fuel k mass dt
      (Binary64.time_of s') (Binary64.height_of s') (Binary64.velocity_of s')
      time' height' velocity'.
Proof.
  induction 1 as [s|s a s' l s'' Hab Ha Hu Hp IH];
    intros fuel time height velocity.
  - unfold Binary64.record. cbn [map length Nat.add]. rewrite !app_nil_r.
    reflexivity.
  - cbn [length Nat.add]. rewrite b64_falling_loop_step.
    destruct s as [[t h] v].
    cbn [Binary64.time_of Binary64.height_of Binary64.velocity_of fst snd]
      in *.
    rewrite Hab. unfold Binary64.advance.
    cbn [Binary64.time_of Binary64.height_of Binary64.velocity_of fst snd].
    rewrite Ha. cbn [bind]. rewrite Hu.
    destruct s' as [[t' h'] v'].
    specialize (IH fuel (time ++ [t]) (height ++ [h]) (velocity ++ [v])).
    cbn [Binary64.time_of Binary64.height_of Binary64.velocity_of fst snd]
      in IH.
    rewrite IH.
    pose proof (b64_record_cons time height velocity (t, h, v) l) as Hr.
    cbn [Binary64.time_of Binary64.height_of Binary64.velocity_of fst snd]
      in Hr.
    rewrite Hr. reflexivity.
Qed.

(** ** Passes *)

Lemma b64_passes_length_nil k mass dt s l s' :
  Binary64.passes k mass dt s l s' -> l = [] -> s' = s.
Proof. intros H ->. inversion H. reflexivity. Qed.

Lemma b64_passes_app k mass dt s l s' l' s'' :
  Binary64.passes k mass dt s l s' ->
  Binary64.passes k mass dt s' l' s'' ->
  Binary64.passes k mass dt s (l ++ l') s''.
Proof.
  induction 1 as [s|s a s1 l s2 Hab Ha Hu Hp IH]; intros H'; [exact H'|].
  cbn [app]. econstructor; eauto.
Qed.

(** The recorded states are above the ground. *)
Lemma b64_passes_above k mass dt s l s' :
  Binary64.passes k mass dt s l s' ->
  forall x, In x l -> Binary64.above x = true.
Proof.
  induction 1 as [s|s a s1 l s2 Hab Ha Hu Hp IH]; intros x Hx.
  - destruct Hx.
  - destruct Hx as [<- | Hx]; [exact Hab | exact (IH x Hx)].
Qed.

(** The first recorded state is the one the loop was entered with. *)
Lemma b64_passes_first k mass dt s l s' x :
  Binary64.passes k mass dt s l s' -> nth_error l 0 = Some x -> x = s.
Proof.
  intros H Hx. destruct H; [discriminate|]. cbn in Hx. congruence.
Qed.

Lemma b64_passes_head k mass dt s l s' :
  Binary64.passes k mass dt s l s' -> nth_error (l ++ [s']) 0 = Some s.
Proof. intros H. destruct H; reflexivity. Qed.

(** Each recorded state advances to the next recorded state, the last one
    to the state the loop ends in. *)
Lemma b64_passes_next k mass dt s l s' :
  Binary64.passes k mass dt s l s' ->
  forall i x, nth_error l i = Some x ->
    exists a y,
      Binary64.calculate_acceleration (Binary64.velocity_of x) k mass
        Binary64.gravity = Returns a /\
      Binary64.update_state (Binary64.time_of x) (Binary64.height_of x)
        (Binary64.velocity_of x) a dt = Returns y /\
      nth_error (l ++ [s']) (S i) = Some y.
Proof.
  induction 1 as [s|s a s1 l s2 Hab Ha Hu Hp IH]; intros i x Hx.
  - destruct i; discriminate.
  - destruct i as [|i].
    + cbn in Hx. injection Hx as <-. exists a, s1.
      split; [exact Ha|]. split; [exact Hu|].
      cbn [app nth_error]. destruct Hp; reflexivity.
    + cbn [nth_error] in Hx. destruct (IH i x Hx) as (a' & y & H1 & H2 & H3).
      exists a', y. auto.
Qed.

Lemma b64_passes_last k mass dt s l s' :
  Binary64.passes k mass dt s l s' -> l <> [] ->
  exists l' x a,
    l = l' ++ [x] /\ Binary64.above x = true /\
    Binary64.calculate_acceleration (Binary64.velocity_of x) k mass
      Binary64.gravity = Returns a /\
    Binary64.update_state (Binary64.time_of x) (Binary64.height_of x)
      (Binary64.velocity_of x) a dt = Returns s'.
Proof.
  induction 1 as [s|s a s1 l s2 Hab Ha Hu Hp IH]; intros Hne.
  - contradiction.
  - destruct l as [|y l].
    + inversion Hp; subst. exists [], s, a. auto.
    + destruct IH as (l' & x & a' & -> & H1 & H2 & H3); [discriminate|].
      exists (s :: l'), x, a'. auto.
Qed.

(** The run as a function. *)
Lemma b64_walk_passes k mass dt n :
  forall s s', Binary64.walk k mass dt n s = Some s' ->
  exists l, Binary64.passes k mass dt s l s' /\ length l = n.
Proof.
  induction n as [|n IH]; intros s s' H.
  - cbn in H. injection H as <-. exists []. split; [constructor|reflexivity].
  - cbn [Binary64.walk] in H.
    destruct (Binary64.above s) eqn:Hab; [|discriminate].
    destruct (Binary64.advance k mass dt s) as [s1| |] eqn:Hadv;
      try discriminate.
    destruct (IH s1 s' H) as (l & Hp & Hlen).
    exists (s :: l). split; [|cbn [length]; lia].
    exact (b64_passes_advance _ _ _ _ _ _ _ Hab Hadv Hp).
Qed.

(** ** [falling_mass] *)

Lemma b64_falling_mass_returns fuel h0 k mass dt time height velocity :
  Binary64.falling_mass fuel h0 k mass dt = Returns (time, height, velocity) ->
  exists l s',
    Binary64.passes k mass dt (Binary64.initial_state h0) l s' /\
    Binary64.above s' = false /\ (length l < fuel)%nat /\
    time = map Binary64.time_of l /\
    height = map Binary64.height_of l /\
    velocity = map Binary64.velocity_of l.
Proof.
  unfold Binary64.falling_mass. intros H.
  pose proof (b64_falling_loop_spec fuel k mass dt (Binary64.float 0) h0
                Binary64.start_velocity [] [] []) as Hs.
  rewrite H in Hs. destruct Hs as (l & s' & Hp & Hab & Hlen & Hr).
  exists l, s'. unfold Binary64.record in Hr. cbn [app] in Hr.
  injection Hr as -> -> ->. auto 6.
Qed.

Lemma b64_falling_mass_lands fuel h0 k mass dt l s' :
  Binary64.passes k mass dt (Binary64.initial_state h0) l s' ->
  Binary64.above s' = false -> (length l < fuel)%nat ->
  Binary64.falling_mass fuel h0 k mass dt
  = Returns (map Binary64.time_of l, map Binary64.height_of l,
             map Binary64.velocity_of l).
Proof.
  intros Hp Hab Hlen. unfold Binary64.falling_mass.
  replace fuel with (length l + S (fuel - length l - 1))%nat by lia.
  pose proof (b64_falling_loop_passes k mass dt _ l s' Hp
                (S (fuel - length l - 1)) [] [] []) as H.
  cbn [Binary64.initial_state Binary64.time_of Binary64.height_of
         Binary64.velocity_of fst snd] in H.
  rewrite H. unfold Binary64.record. cbn [app].
  destruct s' as [[t h] v]. rewrite b64_falling_loop_step.
  cbn [Binary64.time_of Binary64.height_of Binary64.velocity_of fst snd].
  rewrite Hab. reflexivity.
Qed.

(** More fuel does not change a returned result. *)
Lemma b64_falling_mass_more_fuel fuel fuel' h0 k mass dt r :
  Binary64.falling_mass fuel h0 k mass dt = Returns r ->
  (fuel <= fuel')%nat ->
  Binary64.falling_mass fuel' h0 k mass dt = Returns r.
Proof.
  intros H Hle. destruct r as [[time height] velocity].
  destruct (b64_falling_mass_returns _ _ _ _ _ _ _ _ H)
    as (l & s' & Hp & Hab & Hlen & -> & -> & ->).
  apply (b64_falling_mass_lands fuel' h0 k mass dt l s' Hp Hab). lia.
Qed.

(** A run with passes of every number never returns. *)
Lemma b64_never_lands h0 k mass dt :
  (forall n, exists l s',
     Binary64.passes k mass dt (Binary64.initial_state h0) l s' /\
     length l = n) ->
  forall fuel, Binary64.falling_mass fuel h0 k mass dt = OutOfFuel.
Proof.
  intros H fuel. destruct (H fuel) as (l & s' & Hp & Hlen).
  unfold Binary64.falling_mass.
  pose proof (b64_falling_loop_passes k mass dt _ l s' Hp 0 [] [] []) as E.
  cbn [Binary64.initial_state Binary64.time_of Binary64.height_of
         Binary64.velocity_of fst snd] in E.
  rewrite Hlen, Nat.add_0_r in E. rewrite E.
  destruct (Binary64.record [] [] [] l) as [[? ?] ?]. reflexivity.
Qed.

(** A property of states that every pass keeps, and that holds above the
    ground only, gives passes of every number. *)
Lemma b64_passes_invariant k mass dt (P : Binary64.state -> Prop) :
  (forall s, P s ->
     Binary64.above s = true /\
     exists s', Binary64.advance k mass dt s = Returns s' /\ P s') ->
  forall n s, P s ->
  exists l s', Binary64.passes k mass dt s l s' /\ length l = n /\ P s'.
Proof.
  intros Hstep. induction n as [|n IH]; intros s Hs.
  - exists [], s. split; [constructor|]. auto.
  - destruct (Hstep s Hs) as (Hab & s1 & Hadv & Hs1).
    destruct (IH s1 Hs1) as (l & s' & Hp & Hlen & Hs').
    exists (s :: l), s'.
    split; [exact (b64_passes_advance _ _ _ _ _ _ _ Hab Hadv Hp)|].
    split; [cbn [length]; lia | exact Hs'].
Qed.

(** The velocity the loop works with never makes [v**2] raise. *)
Lemma b64_passes_velocity k mass dt s l s' :
  Binary64.passes k mass dt s l s' ->
  Binary64.loop_velocity (Binary64.velocity_of s) ->
  Binary64.loop_velocity (Binary64.velocity_of s').
Proof.
  induction 1 as [s|s a s1 l s2 Hab Ha Hu Hp IH]; intros Hv; [exact Hv|].
  apply IH. right.
  assert (Hadv : Binary64.advance k mass dt s = Returns s1).
  { unfold Binary64.advance. rewrite Ha. exact Hu. }
  apply (b64_advance_kinds _ _ _ _ _ Hadv).
Qed.

Lemma b64_falls_nth l d :
  Binary64.falls l = true ->
  forall i, (S i < length l)%nat ->
    (nth i l d >? nth (S i) l d)%b64 = true.
Proof.
  induction l as [|a l IH]; intros H i Hi; [cbn in Hi; lia|].
  destruct l as [|b l]; [cbn in Hi; lia|].
  cbn [Binary64.falls] in H. apply andb_prop in H. destruct H as [H1 H2].
  destruct i as [|i]; [exact H1|].
  cbn [length] in Hi. change (nth (S i) (a :: b :: l) d) with (nth i (b :: l) d).
  change (nth (S (S i)) (a :: b :: l) d) with (nth (S i) (b :: l) d).
  apply IH; [exact H2 | cbn [length]; lia].
Qed.

Lemma b64_rises_nth l d :
  Binary64.rises l = true ->
  forall i, (S i < length l)%nat ->
    (nth (S i) l d >? nth i l d)%b64 = true.
Proof.
  induction l as [|a l IH]; intros H i Hi; [cbn in Hi; lia|].
  destruct l as [|b l]; [cbn in Hi; lia|].
  cbn [Binary64.rises] in H. apply andb_prop in H. destruct H as [H1 H2].
  destruct i as [|i]; [exact H1|].
  cbn [length] in Hi. change (nth (S i) (a :: b :: l) d) with (nth i (b :: l) d).
  change (nth (S (S i)) (a :: b :: l) d) with (nth (S i) (b :: l) d).
  apply IH; [exact H2 | cbn [length]; lia].
Qed.

(** ** The notebook's call on binary64 floats *)

(** The call returns after 23 passes. *)
Lemma b64_notebook_call_returns :
  exists time height velocity,
    Binary64.notebook_call 24 = Returns (time, height, velocity) /\
    length time = 23%nat /\ length height = 23%nat /\
    length velocity = 23%nat /\
    nth 0 height (Binary64.float 0) = Binary64.float 20 /\
    Binary64.falls height = true /\ Binary64.rises time = true /\
    (Binary64.float (8 # 10) >? nth 8 time (Binary64.float 0))%b64 = true /\
    (exists a s',
       Binary64.calculate_acceleration (last velocity (Binary64.float 0))
         (Binary64.float (35 # 1000)) Binary64.default_mass Binary64.gravity
       = Returns a /\
       Binary64.update_state (last time (Binary64.float 0))
         (last height (Binary64.float 0)) (last velocity (Binary64.float 0))
         a Binary64.default_dt = Returns s' /\
       (Binary64.height_of s' <=? Binary64.float 0)%b64 = true).
Proof.
  eexists _, _, _. split; [vm_compute; reflexivity|].
  repeat (split; [vm_compute; reflexivity|]).
  eexists _, _. split; [vm_compute; reflexivity|].
  split; vm_compute; reflexivity.
Qed.

(** ** A run that stalls: [falling_mass(1e17, k=1.0)]

    The velocity settles at the terminal velocity, and at [1e17] the
    spacing of the floats is 16: the height absorbs every displacement. *)

Lemma b64_stall_reached :
  exists t,
    Binary64.walk (Binary64.float 1) Binary64.default_mass
      Binary64.default_dt 45
      (Binary64.initial_state (Binary64.PyFloat (F64.of_Z (10 ^ 17))))
    = Some (t, Binary64.stall_height, Binary64.stall_velocity).
Proof. eexists. vm_compute. reflexivity. Qed.

Lemma b64_stall_step t :
  Binary64.above (t, Binary64.stall_height, Binary64.stall_velocity) = true /\
  Binary64.advance (Binary64.float 1) Binary64.default_mass
    Binary64.default_dt (t, Binary64.stall_height, Binary64.stall_velocity)
  = Returns ((t + Binary64.default_dt)%b64, Binary64.stall_height,
             Binary64.stall_velocity).
Proof.
  split; [reflexivity|].
  rewrite b64_advance_cases, b64_update_state_cases.
  cbn [Binary64.velocity_of Binary64.height_of Binary64.time_of fst snd].
  change (Binary64.pow_raises Binary64.stall_velocity) with false.
  change (Binary64.pow_raises Binary64.default_dt) with false.
  cbn iota. do 2 f_equal; vm_compute; reflexivity.
Qed.

Lemma b64_passes_prefix k mass dt s l s' :
  Binary64.passes k mass dt s l s' ->
  forall n, (n <= length l)%nat ->
  exists l1 s1, Binary64.passes k mass dt s l1 s1 /\ length l1 = n.
Proof.
  induction 1 as [s|s a s1 l s2 Hab Ha Hu Hp IH]; intros n Hn.
  - exists [], s. split; [apply Binary64.passes_nil | cbn in *; lia].
  - destruct n as [|n].
    + exists [], s. split; [apply Binary64.passes_nil | reflexivity].
    + cbn [length] in Hn. destruct (IH n) as (l1 & s1' & Hp1 & Hl1); [lia|].
      exists (s :: l1), s1'. split; [econstructor; eauto | cbn; lia].
Qed.

Lemma b64_stall_passes n :
  exists l s',
    Binary64.passes (Binary64.float 1) Binary64.default_mass
      Binary64.default_dt
      (Binary64.initial_state (Binary64.PyFloat (F64.of_Z (10 ^ 17)))) l s' /\
    length l = n.
Proof.
  destruct b64_stall_reached as (t & Hw).
  apply b64_walk_passes in Hw. destruct Hw as (l0 & Hp0 & Hl0).
  destruct (le_lt_dec n 45) as [Hle|Hgt].
  - apply (b64_passes_prefix _ _ _ _ _ _ Hp0). lia.
  - destruct (b64_passes_invariant (Binary64.float 1) Binary64.default_mass
                Binary64.default_dt
                (fun s => Binary64.height_of s = Binary64.stall_height /\
                          Binary64.velocity_of s = Binary64.stall_velocity))
      with (n := (n - 45)%nat)
           (s := (t, Binary64.stall_height, Binary64.stall_velocity))
      as (l1 & s1 & Hp1 & Hl1 & _).
    + intros [[t' h'] v'] [Hh Hv]. cbn in Hh, Hv. subst h' v'.
      destruct (b64_stall_step t') as [Hab Hadv].
      split; [exact Hab|]. eexists. split; [exact Hadv|]. split; reflexivity.
    + split; reflexivity.
    + exists (l0 ++ l1), s1.
      split; [exact (b64_passes_app _ _ _ _ _ _ _ _ Hp0 Hp1)|].
      rewrite length_app. lia.
Qed.

(** ** Times, errors and a mass of zero *)

(** The times of a returned call: they start at [0.0], and each is the
    binary64 sum of the one before and [dt]. *)
Lemma b64_time_steps fuel h0 k mass dt time height velocity :
  Binary64.falling_mass fuel h0 k mass dt = Returns (time, height, velocity) ->
  length time = length height /\
  length height = length velocity /\
  (forall t, nth_error time 0 = Some t -> t = Binary64.float 0) /\
  (forall i t t',
     nth_error time i = Some t -> nth_error time (S i) = Some t' ->
     t' = (t + dt)%b64).
Proof.
  intros H.
  destruct (b64_falling_mass_returns _ _ _ _ _ _ _ _ H)
    as (l & s' & Hp & Hab & Hlen & -> & -> & ->).
  rewrite !length_map. split; [reflexivity|]. split; [reflexivity|]. split.
  - intros t Ht. rewrite nth_error_map in Ht.
    destruct (nth_error l 0) as [x|] eqn:Hx; [|discriminate].
    injection Ht as <-. rewrite (b64_passes_first _ _ _ _ _ _ _ Hp Hx).
    reflexivity.
  - intros i t t' Ht Ht'. rewrite nth_error_map in Ht, Ht'.
    destruct (nth_error l i) as [x|] eqn:Hx; [|discriminate].
    destruct (nth_error l (S i)) as [y|] eqn:Hy; [|discriminate].
    injection Ht as <-. injection Ht' as <-.
    destruct (b64_passes_next _ _ _ _ _ _ Hp i x Hx)
      as (a & y' & Ha & Hu & Hn).
    rewrite nth_error_app1 in Hn
      by (apply nth_error_Some; rewrite Hy; discriminate).
    rewrite Hy in Hn. injection Hn as <-.
    assert (Hadv : Binary64.advance k mass dt x = Returns y).
    { unfold Binary64.advance. rewrite Ha. exact Hu. }
    apply (b64_advance_kinds _ _ _ _ _ Hadv).
Qed.

(** The notebook's call on binary64 floats returns 23 samples with strictly
    increasing times. *)
Lemma b64_notebook_times :
  exists time height velocity,
    (forall fuel, (23 < fuel)%nat ->
       Binary64.notebook_call fuel = Returns (time, height, velocity)) /\
    length time = 23%nat /\
    forall i, (S i < length time)%nat ->
      (nth (S i) time (Binary64.float 0)
       >? nth i time (Binary64.float 0))%b64 = true.
Proof.
  destruct b64_notebook_call_returns
    as (time & height & velocity & Hret & Hlen & _ & _ & _ & _ & Hrise & _).
  exists time, height, velocity. split; [|split].
  - intros fuel Hfuel.
    apply (b64_falling_mass_more_fuel 24 fuel _ _ _ _ _ Hret). lia.
  - exact Hlen.
  - exact (b64_rises_nth time (Binary64.float 0) Hrise).
Qed.

(** What [falling_mass] can raise. *)
Lemma b64_falling_mass_raises fuel h0 k mass dt e :
  Binary64.falling_mass fuel h0 k mass dt = Raises e ->
  e = OverflowError /\ Binary64.pow_raises dt = true /\
  (h0 >? Binary64.float 0)%b64 = true.
Proof.
  unfold Binary64.falling_mass. intros H.
  pose proof (b64_falling_loop_spec fuel k mass dt (Binary64.float 0) h0
                Binary64.start_velocity [] [] []) as Hs.
  rewrite H in Hs. destruct Hs as (l & s' & Hp & Hab & _ & Hadv).
  pose proof (b64_passes_velocity _ _ _ _ _ _ Hp (or_introl eq_refl)) as Hv.
  apply b64_loop_velocity_pow in Hv.
  destruct (b64_advance_raises _ _ _ _ _ Hadv) as (-> & [Hv' | Hdt]);
    [congruence|].
  split; [reflexivity|]. split; [exact Hdt|].
  pose proof (b64_passes_head _ _ _ _ _ _ Hp) as Hhd.
  destruct l as [|x l].
  - cbn in Hhd. injection Hhd as ->. exact Hab.
  - apply b64_passes_inv in Hp. destruct Hp as (_ & _ & s1 & Hadv1 & _).
    rewrite b64_advance_cases, b64_update_state_cases, Hdt in Hadv1.
    destruct (Binary64.pow_raises _); discriminate.
Qed.

Lemma b64_falling_mass_overflow fuel h0 k mass dt :
  (h0 >? Binary64.float 0)%b64 = true ->
  Binary64.pow_raises dt = true ->
  Binary64.falling_mass (S fuel) h0 k mass dt = Raises OverflowError.
Proof.
  intros Hh Hdt. unfold Binary64.falling_mass.
  rewrite b64_falling_loop_step. unfold Binary64.above.
  cbn [Binary64.height_of fst snd]. rewrite Hh.
  rewrite b64_advance_cases, b64_update_state_cases.
  cbn [Binary64.velocity_of snd].
  change (Binary64.pow_raises Binary64.start_velocity) with false.
  rewrite Hdt. reflexivity.
Qed.

Lemma b64_rest_drag k :
  let d := F64.mul (F64.mul (F64.neg (F64.sign F64.zero)) k)
             (F64.square F64.zero) in
  F64.is_zero d = true \/ d = S754_nan.
Proof. destruct k as [s|s| |s m e]; cbn; auto. Qed.

(** With a mass of zero the acceleration at rest is [nan]. *)
Lemma b64_accel_rest_zero_mass k m :
  F64.is_zero m = true ->
  F64.accel F64.zero k m (Binary64.num Binary64.gravity) = S754_nan.
Proof.
  intros Hm. destruct b64_gravity_finite as (mg & eg & ->).
  unfold F64.accel. destruct (b64_rest_drag k) as [Hd | ->].
  - destruct m as [s| | |]; try discriminate.
    destruct (F64.mul (F64.mul _ _) _) as [s'| | |]; try discriminate.
    destruct s, s'; reflexivity.
  - rewrite f64_add_nan_r. reflexivity.
Qed.

(** A pass whose acceleration is [nan] ends the loop. *)
Lemma b64_nan_pass k mass dt h0 :
  (h0 >? Binary64.float 0)%b64 = true ->
  Binary64.pow_raises dt = false ->
  F64.add (Binary64.num h0)
    (F64.add (F64.mul F64.zero (Binary64.num dt))
       (F64.mul
          (F64.mul (Binary64.num Binary64.one_half)
             (F64.accel F64.zero (Binary64.num k) (Binary64.num mass)
                (Binary64.num Binary64.gravity)))
          (F64.square (Binary64.num dt)))) = S754_nan ->
  forall fuel,
    Binary64.falling_mass (S (S fuel)) h0 k mass dt
    = Returns ([Binary64.float 0], [h0], [Binary64.float 0]).
Proof.
  intros Hh Hdt Hnan fuel.
  assert (Hadv : exists s',
            Binary64.advance k mass dt (Binary64.initial_state h0)
            = Returns s' /\ Binary64.above s' = false).
  { rewrite b64_advance_cases, b64_update_state_cases.
    change (Binary64.pow_raises
              (Binary64.velocity_of (Binary64.initial_state h0))) with false.
    rewrite Hdt. cbn iota. eexists. split; [reflexivity|].
    unfold Binary64.above, Binary64.vgt.
    cbn [Binary64.height_of Binary64.initial_state Binary64.velocity_of
           Binary64.time_of fst snd].
    unfold Binary64.vadd, Binary64.vmul.
    rewrite !b64_num_binop, b64_num_unop.
    change (Binary64.num Binary64.start_velocity) with F64.zero.
    cbn [Binary64.num]. rewrite Hnan. reflexivity. }
  destruct Hadv as (s' & Hadv & Hab).
  assert (Hp : Binary64.passes k mass dt (Binary64.initial_state h0)
                 [Binary64.initial_state h0] s').
  { apply (b64_passes_advance _ _ _ _ s'); [exact Hh | exact Hadv |].
    apply Binary64.passes_nil. }
  rewrite (b64_falling_mass_lands (S (S fuel)) h0 k mass dt _ s' Hp Hab)
    by (cbn; lia).
  reflexivity.
Qed.

(** * The claims *)

(** C1, as stated, fails: the state after the last recorded one need not
    have a height [<= 0].  In [falling_mass(1e308, dt=1e153)] the third
    pass squares a velocity of about [-2e154]; the square is [inf], the drag
    [0.0 * inf] is [nan], and so is the height after the pass: the loop is
    left on a height that is neither [> 0] nor [<= 0]. *)
Lemma successor_height_nan_example :
  exists time height velocity a s',
    Binary64.falling_mass 10 (Binary64.PyFloat (F64.of_Z (10 ^ 308)))
      Binary64.default_k Binary64.default_mass
      (Binary64.PyFloat (F64.of_Z (10 ^ 153)))
    = Returns (time, height, velocity) /\
    length height = 3%nat /\
    Binary64.calculate_acceleration (last velocity (Binary64.float 0))
      Binary64.default_k Binary64.default_mass Binary64.gravity
    = Returns a /\
    Binary64.update_state (last time (Binary64.float 0))
      (last height (Binary64.float 0)) (last velocity (Binary64.float 0)) a
      (Binary64.PyFloat (F64.of_Z (10 ^ 153)))
    = Returns s' /\
    F64.is_nan (Binary64.num (Binary64.height_of s')) = true /\
    (Binary64.height_of s' <=? Binary64.float 0)%b64 = false.
Proof.
  eexists _, _, _, _, _. split; [vm_compute; reflexivity|].
  split; [reflexivity|]. split; [vm_compute; reflexivity|].
  split; [vm_compute; reflexivity|]. split; reflexivity.
Qed.

(** C1, amended.  A returned call has recorded the states [l] of its
    passes: the first is the initial state, every recorded state has a
    height [> 0], and [calculate_acceleration] on its velocity followed by
    [update_state] gives the next recorded state, or, for the last one, the
    state [s'] the loop is left in, whose height is not [> 0] (it is [<= 0]
    or [nan]).  Nothing is interpolated.  The notebook's call
    [falling_mass(20, k=0.035)] returns 23 samples; the heights start at
    [20], decrease strictly and end at the last positive one, whose
    successor is [<= 0]. *)
Theorem falling_mass_records_then_advances :
  (forall fuel h0 k mass dt time height velocity,
     Binary64.falling_mass fuel h0 k mass dt
     = Returns (time, height, velocity) ->
     (forall x, In x height -> (x >? Binary64.float 0)%b64 = true) /\
     exists l s',
       time = map Binary64.time_of l /\
       height = map Binary64.height_of l /\
       velocity = map Binary64.velocity_of l /\
       ((h0 >? Binary64.float 0)%b64 = true ->
        nth_error l 0 = Some (Binary64.initial_state h0)) /\
       (forall i x, nth_error l i = Some x ->
          exists a y,
            Binary64.calculate_acceleration (Binary64.velocity_of x) k mass
              Binary64.gravity = Returns a /\
            Binary64.update_state (Binary64.time_of x)
              (Binary64.height_of x) (Binary64.velocity_of x) a dt
            = Returns y /\
            nth_error (l ++ [s']) (S i) = Some y) /\
       nth_error (l ++ [s']) 0 = Some (Binary64.initial_state h0) /\
       (Binary64.height_of s' >? Binary64.float 0)%b64 = false) /\
  (exists time height velocity,
     (forall fuel, (23 < fuel)%nat ->
        Binary64.notebook_call fuel = Returns (time, height, velocity)) /\
     length height = 23%nat /\
     nth 0 height (Binary64.float 0) = Binary64.float 20 /\
     (forall i, (S i < length height)%nat ->
        (nth i height (Binary64.float 0)
         >? nth (S i) height (Binary64.float 0))%b64 = true) /\
     (last height (Binary64.float 0) >? Binary64.float 0)%b64 = true /\
     exists a s',
       Binary64.calculate_acceleration (last velocity (Binary64.float 0))
         (Binary64.float (35 # 1000)) Binary64.default_mass Binary64.gravity
       = Returns a /\
       Binary64.update_state (last time (Binary64.float 0))
         (last height (Binary64.float 0)) (last velocity (Binary64.float 0))
         a Binary64.default_dt = Returns s' /\
       (Binary64.height_of s' <=? Binary64.float 0)%b64 = true).
Proof.
  split.
  - intros fuel h0 k mass dt time height velocity H.
    destruct (b64_falling_mass_returns _ _ _ _ _ _ _ _ H)
      as (l & s' & Hp & Hab & Hlen & -> & -> & ->).
    split.
    + intros x Hx. apply in_map_iff in Hx. destruct Hx as (s & <- & Hs).
      exact (b64_passes_above _ _ _ _ _ _ Hp s Hs).
    + exists l, s'. repeat (split; [reflexivity|]).
      split; [|split; [|split]].
      * intros Hh0. pose proof (b64_passes_head _ _ _ _ _ _ Hp) as Hhd.
        destruct l as [|x l]; [|exact Hhd].
        cbn in Hhd. injection Hhd as ->.
        unfold Binary64.above, Binary64.initial_state in Hab.
        cbn [Binary64.height_of fst snd] in Hab. congruence.
      * exact (b64_passes_next _ _ _ _ _ _ Hp).
      * exact (b64_passes_head _ _ _ _ _ _ Hp).
      * exact Hab.
  - destruct b64_notebook_call_returns
      as (time & height & velocity & Hret & _ & Hlen & _ & H0 & Hfall & _ & _
          & Hlast).
    exists time, height, velocity.
    split; [|split; [|split; [|split; [|split]]]].
    + intros fuel Hfuel.
      apply (b64_falling_mass_more_fuel 24 fuel _ _ _ _ _ Hret). lia.
    + exact Hlen.
    + exact H0.
    + exact (b64_falls_nth height (Binary64.float 0) Hfall).
    + destruct (b64_falling_mass_returns _ _ _ _ _ _ _ _ Hret)
        as (l & s' & Hp & _ & _ & _ & Hh & _).
      assert (Hin : In (last height (Binary64.float 0)) height).
      { destruct height as [|x height]; [discriminate|].
        destruct (exists_last (l := x :: height)) as (l' & y & E);
          [discriminate|].
        rewrite E, last_last. apply in_or_app. right. left. reflexivity. }
      revert Hin. generalize (last height (Binary64.float 0)). intros x Hin.
      rewrite Hh in Hin. apply in_map_iff in Hin.
      destruct Hin as (s & <- & Hin).
      exact (b64_passes_above _ _ _ _ _ _ Hp s Hin).
    + exact Hlast.
Qed.

Lemma falling_mass_records_then_advances_witness :
  exists time height velocity,
    Binary64.falling_mass 10 (Binary64.float 20) Binary64.default_k
      Binary64.default_mass (Binary64.float 1)
    = Returns (time, height, velocity) /\
    length height = 3%nat /\
    (forall x, In x height -> (x >? Binary64.float 0)%b64 = true) /\
    exists l s',
      time = map Binary64.time_of l /\
      height = map Binary64.height_of l /\
      velocity = map Binary64.velocity_of l /\
      ((Binary64.float 20 >? Binary64.float 0)%b64 = true ->
       nth_error l 0 = Some (Binary64.initial_state (Binary64.float 20))) /\
      (forall i x, nth_error l i = Some x ->
         exists a y,
           Binary64.calculate_acceleration (Binary64.velocity_of x)
             Binary64.default_k Binary64.default_mass Binary64.gravity
           = Returns a /\
           Binary64.update_state (Binary64.time_of x)
             (Binary64.height_of x) (Binary64.velocity_of x) a
             (Binary64.float 1)
           = Returns y /\
           nth_error (l ++ [s']) (S i) = Some y) /\
      nth_error (l ++ [s']) 0
      = Some (Binary64.initial_state (Binary64.float 20)) /\
      (Binary64.height_of s' >? Binary64.float 0)%b64 = false.
Proof.
  eexists _, _, _. split; [vm_compute; reflexivity|].
  split; [reflexivity|].
  apply (proj1 falling_mass_records_then_advances 10%nat
           (Binary64.float 20) Binary64.default_k Binary64.default_mass
           (Binary64.float 1)).
  vm_compute; reflexivity.
Defined.







(** C4, as stated, fails: the sums are rounded.  In the notebook's call
    [time[8]] is [0.7999999999999999], less than [8*dt = 0.8]. *)
Lemma time_grid_rounding_example :
  exists time height velocity,
    Binary64.notebook_call 24 = Returns (time, height, velocity) /\
    F64.mul (F64.of_Z 8) (Binary64.num Binary64.default_dt)
    = F64.of_Q (8 # 10) /\
    (Binary64.float (8 # 10) >? nth 8 time (Binary64.float 0))%b64 = true.
Proof.
  eexists _, _, _. split; [vm_compute; reflexivity|].
  split; vm_compute; reflexivity.
Qed.

(** C4, amended.  The three lists [falling_mass] returns have the same
    length.  The times start at [0.0] and each is the binary64 sum of the
    one before and [dt]; in the notebook's call the 23 times increase
    strictly.  That [time[i] = i*dt], and that for [dt > 0] the times
    increase strictly with consecutive ones exactly [dt] apart, holds in
    exact arithmetic; on floats it holds up to rounding only. *)
Theorem falling_mass_time_grid :
  (* on binary64 floats *)
  (forall fuel h0 k mass dt time height velocity,
     Binary64.falling_mass fuel h0 k mass dt
     = Returns (time, height, velocity) ->
     length time = length height /\
     length height = length velocity /\
     (forall t, nth_error time 0 = Some t -> t = Binary64.float 0) /\
     (forall i t t',
        nth_error time i = Some t -> nth_error time (S i) = Some t' ->
        t' = (t + dt)%b64)) /\
  (* the notebook's call, on binary64 floats *)
  (exists time height velocity,
     (forall fuel, (23 < fuel)%nat ->
        Binary64.notebook_call fuel = Returns (time, height, velocity)) /\
     length time = 23%nat /\
     forall i, (S i < length time)%nat ->
       (nth (S i) time (Binary64.float 0)
        >? nth i time (Binary64.float 0))%b64 = true) /\
  (* in exact arithmetic *)
  (forall fuel h0 k mass dt time height velocity,
     falling_mass fuel h0 k mass dt = Returns (time, height, velocity) ->
     length time = length height /\
     length height = length velocity /\
     forall qd, is_rational dt qd ->
       (forall i, (i < length time)%nat ->
          is_rational (nth i time (float 0)) (Qnat i * qd)) /\
       (0 < qd ->
        forall i, (S i < length time)%nat ->
          exists a b,
            is_rational (nth i time (float 0)) a /\
            is_rational (nth (S i) time (float 0)) b /\
            a < b /\ b - a == qd)).
Proof.
  split; [|split].
  - exact b64_time_steps.
  - exact b64_notebook_times.
  - exact exact_time_grid.
Qed.

Lemma falling_mass_time_grid_witness :
  (exists time height velocity,
     Binary64.falling_mass 10 (Binary64.float 20) Binary64.default_k
       Binary64.default_mass (Binary64.float 1)
     = Returns (time, height, velocity) /\
     length time = 3%nat /\
     length time = length height /\
     length height = length velocity /\
     (forall t, nth_error time 0 = Some t -> t = Binary64.float 0) /\
     (forall i t t',
        nth_error time i = Some t -> nth_error time (S i) = Some t' ->
        t' = (t + Binary64.float 1)%b64)) /\
  (exists time height velocity,
     falling_mass 10 (float 20) default_k default_mass (float 1)
     = Returns (time, height, velocity) /\
     length time = 3%nat /\
     length time = length height /\
     length height = length velocity /\
     forall qd, is_rational (float 1) qd ->
       (forall i, (i < length time)%nat ->
          is_rational (nth i time (float 0)) (Qnat i * qd)) /\
       (0 < qd ->
        forall i, (S i < length time)%nat ->
          exists a b,
            is_rational (nth i time (float 0)) a /\
            is_rational (nth (S i) time (float 0)) b /\
            a < b /\ b - a == qd)).
Proof.
  split.
  - eexists _, _, _. split; [vm_compute; reflexivity|].
    split; [reflexivity|].
    apply (proj1 falling_mass_time_grid 10%nat (Binary64.float 20)
             Binary64.default_k Binary64.default_mass (Binary64.float 1)).
    vm_compute; reflexivity.
  - eexists _, _, _. split; [vm_compute; reflexivity|].
    split; [reflexivity|].
    apply (proj2 (proj2 falling_mass_time_grid) 10%nat (float 20) default_k
             default_mass (float 1)).
    vm_compute; reflexivity.
Defined.

(** C5, as stated, fails on binary64 floats: [falling_mass(1e17, k=1.0)],
    with the default [mass = 1.0] and [dt = 0.1], never leaves the loop.
    The velocity settles at the terminal velocity and the height, where
    the floats are 16 apart, absorbs every displacement. *)
Lemma falling_mass_stalls_example :
  (Binary64.PyFloat (F64.of_Z (10 ^ 17)) >? Binary64.float 0)%b64 = true /\
  (Binary64.default_dt >? Binary64.float 0)%b64 = true /\
  (Binary64.float 0 <=? Binary64.float 1)%b64 = true /\
  (Binary64.default_mass >? Binary64.float 0)%b64 = true /\
  forall fuel,
    Binary64.falling_mass fuel (Binary64.PyFloat (F64.of_Z (10 ^ 17)))
      (Binary64.float 1) Binary64.default_mass Binary64.default_dt
    = OutOfFuel.
Proof.
  repeat (split; [reflexivity|]).
  apply b64_never_lands. exact b64_stall_passes.
Qed.

(** C5, amended.  In exact arithmetic, for rational [dt > 0], [k >= 0],
    [mass > 0] and any rational [initial_height], the loop of
    [falling_mass] is left after finitely many passes, with a height
    [<= 0], and the call returns as soon as the fuel exceeds that number.
    On binary64 floats this does not hold for every such input; the
    notebook's call [falling_mass(20, k=0.035)] leaves the loop after 23
    passes. *)
Theorem falling_mass_terminates :
  (* in exact arithmetic *)
  (forall (h0 k mass dt : value) (q0 qk qm qd : Q),
     is_rational h0 q0 -> is_rational k qk -> is_rational mass qm ->
     is_rational dt qd ->
     0 <= qk -> 0 < qm -> 0 < qd ->
     exists n,
       lands_after k mass dt (initial_state h0) n /\
       (height_of (run k mass dt n (initial_state h0)) <=? float 0)%py
       = true /\
       forall fuel, (n < fuel)%nat ->
         exists r, falling_mass fuel h0 k mass dt = Returns r) /\
  (* the notebook's call, on binary64 floats *)
  (exists time height velocity,
     (forall fuel, (23 < fuel)%nat ->
        Binary64.notebook_call fuel = Returns (time, height, velocity)) /\
     length time = 23%nat).
Proof.
  split.
  - exact exact_termination.
  - destruct b64_notebook_times
      as (time & height & velocity & Hret & Hlen & _).
    exists time, height, velocity. auto.
Qed.

Lemma falling_mass_terminates_witness :
  exists n,
    lands_after (float (35 # 1000)) default_mass default_dt
      (initial_state (float 20)) n /\
    (height_of (run (float (35 # 1000)) default_mass default_dt n
                  (initial_state (float 20))) <=? float 0)%py = true /\
    forall fuel, (n < fuel)%nat ->
      exists r,
        falling_mass fuel (float 20) (float (35 # 1000)) default_mass
          default_dt = Returns r.
Proof.
  apply (proj1 falling_mass_terminates (float 20) (float (35 # 1000))
           default_mass default_dt 20 (35 # 1000) 1 (1 # 10));
    try apply is_rational_float; try reflexivity.
  discriminate.
Defined.

(** C6. When [initial_height > 0], the three lists [falling_mass] returns
    are not empty and start with the initial state: [time[0] = 0.0],
    [height[0] = initial_height], [velocity[0] = 0.0]. *)
Theorem falling_mass_first_sample fuel h0 k mass dt time height velocity :
  (h0 >? float 0)%py = true ->
  falling_mass fuel h0 k mass dt = Returns (time, height, velocity) ->
  exists time' height' velocity',
    time = float 0 :: time' /\
    height = h0 :: height' /\
    velocity = float 0 :: velocity'.
Proof.
  intros Hh H. returned H n Hl.
  pose proof (lands_after_pos k mass dt (initial_state h0) n Hh Hl) as Hn.
  destruct n as [|n]; [lia|]. cbn [samples map].
  eexists _, _, _. repeat split.
Qed.

Lemma falling_mass_first_sample_witness :
  exists time height velocity,
    falling_mass 10 (float 20) default_k default_mass (float 1)
    = Returns (time, height, velocity) /\
    exists time' height' velocity',
      time = float 0 :: time' /\
      height = float 20 :: height' /\
      velocity = float 0 :: velocity'.
Proof.
  eexists _, _, _. split; [vm_compute; reflexivity|].
  apply (falling_mass_first_sample 10 (float 20) default_k default_mass
           (float 1)); [reflexivity | vm_compute; reflexivity].
Defined.

(** C7. For [k = 0] the recorded heights are the closed form
    [h(t) = h0 - 0.5*9.81*t^2] at the recorded times [t = i*dt]:
    [height[i] = initial_height - 0.5*9.81*(i*dt)^2], with no
    discretisation error at the samples. *)
Theorem free_fall_closed_form fuel h0 k mass dt (q0 qm qd : Q)
    time height velocity :
  is_rational h0 q0 -> is_rational k 0 -> is_rational mass qm ->
  is_rational dt qd ->
  falling_mass fuel h0 k mass dt = Returns (time, height, velocity) ->
  forall i, (i < length height)%nat ->
    is_rational (nth i height (float 0))
      (q0 - (1 # 2) * (981 # 100) * (Qnat i * qd) ^ 2) /\
    exists ti,
      is_rational (nth i time (float 0)) ti /\
      is_rational (nth i height (float 0))
        (q0 - (1 # 2) * (981 # 100) * ti ^ 2).
Proof.
  intros Hq Hk Hm Hd H i Hi. returned H n Hl.
  rewrite length_map, samples_length in Hi.
  rewrite !nth_map_samples by exact Hi.
  destruct (free_fall_samples k mass dt h0 qm qd q0 n i Hk Hm Hd Hq Hl Hi)
    as (Ht & Hh & _).
  assert (Hh' : is_rational
            (height_of (run k mass dt i (initial_state h0)))
            (q0 - (1 # 2) * (981 # 100) * (Qnat i * qd) ^ 2)).
  { apply (is_rational_eq _ _ _ Hh). unfold g. ring. }
  split; [exact Hh'|]. exists (Qnat i * qd). split; [exact Ht | exact Hh'].
Qed.

Lemma free_fall_closed_form_witness :
  exists time height velocity,
    falling_mass 10 (float 20) default_k default_mass (float 1)
    = Returns (time, height, velocity) /\
    length height = 3%nat /\
    forall i, (i < length height)%nat ->
      is_rational (nth i height (float 0))
        (20 - (1 # 2) * (981 # 100) * (Qnat i * 1) ^ 2) /\
      exists ti,
        is_rational (nth i time (float 0)) ti /\
        is_rational (nth i height (float 0))
          (20 - (1 # 2) * (981 # 100) * ti ^ 2).
Proof.
  eexists _, _, _. split; [vm_compute; reflexivity|].
  split; [reflexivity|].
  eapply (free_fall_closed_form 10 (float 20) default_k default_mass
            (float 1) 20 1 1);
    try apply is_rational_float.
  vm_compute; reflexivity.
Defined.

(** C8. For [k = 0] and [dt > 0] the recorded velocities decrease strictly:
    [velocity[i+1] < velocity[i]]. *)
Theorem free_fall_velocity_decreases fuel h0 k mass dt (q0 qm qd : Q)
    time height velocity :
  is_rational h0 q0 -> is_rational k 0 -> is_rational mass qm ->
  is_rational dt qd -> 0 < qd ->
  falling_mass fuel h0 k mass dt = Returns (time, height, velocity) ->
  forall i, (S i < length velocity)%nat ->
    exists a b,
      is_rational (nth i velocity (float 0)) a /\
      is_rational (nth (S i) velocity (float 0)) b /\
      b < a.
Proof.
  intros Hq Hk Hm Hd Hpos H i Hi. returned H n Hl.
  rewrite length_map, samples_length in Hi.
  rewrite !nth_map_samples by lia.
  assert (Hi' : (i < n)%nat) by lia.
  destruct (free_fall_samples k mass dt h0 qm qd q0 n i Hk Hm Hd Hq Hl Hi')
    as (_ & _ & Hv).
  destruct (free_fall_samples k mass dt h0 qm qd q0 n (S i) Hk Hm Hd Hq Hl Hi)
    as (_ & _ & Hv').
  exists (g * (Qnat i * qd)), (g * (Qnat (S i) * qd)).
  split; [exact Hv|]. split; [exact Hv'|].
  rewrite Qnat_S. unfold g. nra.
Qed.

Lemma free_fall_velocity_decreases_witness :
  exists time height velocity,
    falling_mass 10 (float 20) default_k default_mass (float 1)
    = Returns (time, height, velocity) /\
    length velocity = 3%nat /\
    forall i, (S i < length velocity)%nat ->
      exists a b,
        is_rational (nth i velocity (float 0)) a /\
        is_rational (nth (S i) velocity (float 0)) b /\
        b < a.
Proof.
  eexists _, _, _. split; [vm_compute; reflexivity|].
  split; [reflexivity|].
  eapply (free_fall_velocity_decreases 10 (float 20) default_k default_mass
            (float 1) 20 1 1);
    try apply is_rational_float; [reflexivity|].
  vm_compute; reflexivity.
Defined.

(** C9, as stated, fails: with [mass = 0] neither function raises.
    [calculate_acceleration] returns [nan] (for [0/0]) or an infinity, and
    [falling_mass(20, mass=0)] returns the initial sample. *)
Lemma zero_mass_no_fault_example :
  calculate_acceleration (float 0) default_k (float 0) gravity
  = Returns (NpFloat64 NaN) /\
  calculate_acceleration (float 3) (float 1) (float 0) gravity
  = Returns (NpFloat64 (Inf true)) /\
  falling_mass 2 (float 20) default_k (float 0) default_dt
  = Returns ([float 0], [float 20], [float 0]) /\
  (forall fuel,
     falling_mass fuel (float 20) default_k (float 0) default_dt
     <> Raises ZeroDivisionError).
Proof.
  repeat split; try reflexivity.
  intros fuel. apply falling_loop_no_raise.
Qed.

(** C9, amended.  With [mass = 0] no division fault is raised:
    [total_force] is a numpy scalar, so the division yields [nan] or an
    infinity.  [calculate_acceleration] returns that value, unless [v] is a
    Python float whose square is out of range.  [falling_mass] with
    [initial_height > 0] records the initial sample; the acceleration at
    rest is [nan], so is the next height, the loop test fails and the three
    one-element lists are returned, unless [dt] is a Python float whose
    square is out of range: then the call raises [OverflowError]. *)
Theorem zero_mass_gives_nan_not_fault (v k mass gr dt h0 : Binary64.value)
    (fuel : nat) :
  F64.is_zero (Binary64.num mass) = true ->
  Binary64.calculate_acceleration v k mass gr <> Raises ZeroDivisionError /\
  (Binary64.pow_raises v = false ->
   exists a,
     Binary64.calculate_acceleration v k mass gr
     = Returns (Binary64.NpFloat64 a) /\
     F64.is_finite a = false) /\
  Binary64.falling_mass fuel h0 k mass dt <> Raises ZeroDivisionError /\
  ((h0 >? Binary64.float 0)%b64 = true ->
   Binary64.pow_raises dt = false ->
   Binary64.falling_mass (S (S fuel)) h0 k mass dt
   = Returns ([Binary64.float 0], [h0], [Binary64.float 0])) /\
  ((h0 >? Binary64.float 0)%b64 = true ->
   Binary64.pow_raises dt = true ->
   Binary64.falling_mass (S fuel) h0 k mass dt = Raises OverflowError).
Proof.
  intros Hm. rewrite b64_calculate_acceleration_cases.
  split; [destruct (Binary64.pow_raises v); discriminate|].
  split; [|split; [|split]].
  - intros ->. eexists. split; [reflexivity|]. unfold F64.accel.
    now apply f64_div_zero.
  - intros H. apply b64_falling_mass_raises in H. destruct H as [H _].
    discriminate.
  - intros Hh Hdt. apply b64_nan_pass; [exact Hh | exact Hdt |].
    rewrite (b64_accel_rest_zero_mass _ _ Hm).
    rewrite f64_mul_nan_r, f64_mul_nan_l, !f64_add_nan_r. reflexivity.
  - apply b64_falling_mass_overflow.
Qed.

Lemma zero_mass_gives_nan_not_fault_witness :
  Binary64.calculate_acceleration (Binary64.float (- (2)))
    (Binary64.float (35 # 1000)) (Binary64.float 0) Binary64.gravity
  <> Raises ZeroDivisionError /\
  (exists a,
     Binary64.calculate_acceleration (Binary64.float (- (2)))
       (Binary64.float (35 # 1000)) (Binary64.float 0) Binary64.gravity
     = Returns (Binary64.NpFloat64 a) /\
     F64.is_finite a = false) /\
  Binary64.falling_mass 5 (Binary64.float 20) (Binary64.float (35 # 1000))
    (Binary64.float 0) Binary64.default_dt
  = Returns ([Binary64.float 0], [Binary64.float 20], [Binary64.float 0]).
Proof.
  destruct (zero_mass_gives_nan_not_fault (Binary64.float (- (2)))
              (Binary64.float (35 # 1000)) (Binary64.float 0)
              Binary64.gravity Binary64.default_dt (Binary64.float 20) 3
              eq_refl) as (H1 & H2 & _ & H3 & _).
  split; [exact H1|]. split; [exact (H2 eq_refl) | exact (H3 eq_refl eq_refl)].
Defined.

(** C10. When [initial_height <= 0] the loop body is not entered:
    [falling_mass] returns three empty lists and raises nothing, whatever
    [k], [mass] and [dt] are.  One evaluation of the loop test is all the
    run needs. *)
Theorem falling_mass_on_the_ground fuel h0 k mass dt :
  (h0 <=? float 0)%py = true ->
  lands_after k mass dt (initial_state h0) 0 /\
  falling_mass (S fuel) h0 k mass dt = Returns ([], [], []).
Proof.
  intros Hh. apply vle_not_vgt in Hh.
  assert (Hl : lands_after k mass dt (initial_state h0) 0).
  { split; [intros i Hi; lia | exact Hh]. }
  split; [exact Hl|].
  rewrite (falling_mass_lands (S fuel) h0 k mass dt 0 Hl) by lia.
  reflexivity.
Qed.

Lemma falling_mass_on_the_ground_witness :
  lands_after default_k default_mass default_dt
    (initial_state (float (- (3 # 2)))) 0 /\
  falling_mass 1 (float (- (3 # 2))) default_k default_mass default_dt
  = Returns ([], [], []).
Proof.
  apply (falling_mass_on_the_ground 0 (float (- (3 # 2)))). reflexivity.
Defined.

(** * Further properties of the scheme, in exact arithmetic

    What the integration scheme of the three functions guarantees when
    nothing is rounded: the rule that links consecutive samples, closed
    forms for free fall, the behaviour for small and for large time steps,
    and the scalar types of the returned lists. *)

(** ** A returned call on rational arguments *)

Lemma run_rationals k mass dt h0 (qk qm qd q0 : Q) :
  is_rational k qk -> is_rational mass qm -> ~ qm == 0 ->
  is_rational dt qd -> is_rational h0 q0 ->
  exists k' m' d' q0',
    k' == qk /\ m' == qm /\ d' == qd /\ q0' == q0 /\
    forall n,
      nums (run k mass dt n (initial_state h0))
      = fin3 (qrun k' m' d' n (0, q0', 0)).
Proof.
  intros (k' & Hk & Hk') (m' & Hm & Hm') Hne (d' & Hd & Hd')
    (q0' & Hq & Hq').
  exists k', m', d', q0'. repeat split; try assumption.
  intros n. apply run_fin; auto.
  - apply Qis_zero_false. rewrite Hm'. exact Hne.
  - unfold nums, initial_state. cbn. rewrite Hq. reflexivity.
Qed.

(** The lists of a returned call are the states of [qrun], up to the pass
    that reaches the ground. *)
Lemma returned_on_rationals fuel h0 k mass dt (qk qm qd q0 : Q)
    time height velocity :
  is_rational k qk -> is_rational mass qm -> ~ qm == 0 ->
  is_rational dt qd -> is_rational h0 q0 ->
  falling_mass fuel h0 k mass dt = Returns (time, height, velocity) ->
  exists n k' m' d' q0',
    k' == qk /\ m' == qm /\ d' == qd /\ q0' == q0 /\
    length time = n /\ length height = n /\ length velocity = n /\
    (forall i, (i < n)%nat -> 0 < qheight (qrun k' m' d' i (0, q0', 0))) /\
    qheight (qrun k' m' d' n (0, q0', 0)) <= 0 /\
    forall i, (i < n)%nat ->
      is_rational (nth i time (float 0))
        (fst (fst (qrun k' m' d' i (0, q0', 0)))) /\
      is_rational (nth i height (float 0))
        (qheight (qrun k' m' d' i (0, q0', 0))) /\
      is_rational (nth i velocity (float 0))
        (qvelocity (qrun k' m' d' i (0, q0', 0))).
Proof.
  intros Hk Hm Hne Hd Hq H. returned H n Hl.
  destruct (run_rationals k mass dt h0 qk qm qd q0 Hk Hm Hne Hd Hq)
    as (k' & m' & d' & q0' & Hk' & Hm' & Hd' & Hq' & Hrun).
  exists n, k', m', d', q0'.
  rewrite !length_map, samples_length.
  repeat (split; [assumption || reflexivity|]).
  assert (Hrat : forall i,
            is_rational (height_of (run k mass dt i (initial_state h0)))
              (qheight (qrun k' m' d' i (0, q0', 0)))).
  { intros i. apply (is_rational_nums _ _ (Hrun i)). }
  split; [|split].
  - intros i Hi. apply Qltb_true.
    rewrite <- (above_rational _ _ (Hrat i)). destruct Hl as [Hl _].
    exact (Hl i Hi).
  - apply Qltb_false. rewrite <- (above_rational _ _ (Hrat n)).
    destruct Hl as [_ Hl]. exact Hl.
  - intros i Hi. rewrite !nth_map_samples by exact Hi.
    apply (is_rational_nums _ _ (Hrun i)).
Qed.

(** ** One pass *)

(** The displacement of a pass is the time step times the mean of the old
    and the new velocity. *)
Lemma qadvance_trapezoid (k m dt : Q) (s : qstate) :
  qheight (qadvance k m dt s) - qheight s
  == dt * (qvelocity s + qvelocity (qadvance k m dt s)) / 2.
Proof.
  destruct s as [[t h] v]. unfold qheight, qvelocity, qadvance.
  cbn [fst snd]. generalize (qaccel v k m g). intros a. field.
Qed.

(** The first pass starts at rest: it feels no drag. *)
Lemma qrun_first_pass (k m dt h0 : Q) :
  ~ m == 0 ->
  qheight (qrun k m dt 1 (0, h0, 0)) == h0 - (981 # 200) * (dt * dt) /\
  qvelocity (qrun k m dt 1 (0, h0, 0)) == - (981 # 100) * dt.
Proof.
  intros Hm. cbn [qrun qadvance]. unfold qheight, qvelocity, qaccel.
  cbn [fst snd]. rewrite (Qsgn_zero 0) by reflexivity. unfold g.
  split; field; exact Hm.
Qed.

(** X2. Consecutive samples obey the trapezoid rule: on rational arguments
    with [mass <> 0], [height[i+1] - height[i]
    = dt * (velocity[i] + velocity[i+1]) / 2]. *)
Theorem samples_trapezoid fuel h0 k mass dt (qk qm qd q0 : Q)
    time height velocity :
  is_rational k qk -> is_rational mass qm -> ~ qm == 0 ->
  is_rational dt qd -> is_rational h0 q0 ->
  falling_mass fuel h0 k mass dt = Returns (time, height, velocity) ->
  forall i, (S i < length height)%nat ->
    exists h h' v v',
      is_rational (nth i height (float 0)) h /\
      is_rational (nth (S i) height (float 0)) h' /\
      is_rational (nth i velocity (float 0)) v /\
      is_rational (nth (S i) velocity (float 0)) v' /\
      h' - h == qd * (v + v') / 2.
Proof.
  intros Hk Hm Hne Hd Hq H i Hi.
  destruct (returned_on_rationals fuel h0 k mass dt qk qm qd q0 _ _ _
              Hk Hm Hne Hd Hq H)
    as (n & k' & m' & d' & q0' & _ & _ & Hd' & _ & _ & Hlen & _ & _ & _
        & Hs).
  rewrite Hlen in Hi.
  destruct (Hs i ltac:(lia)) as (_ & Hh & Hv).
  destruct (Hs (S i) Hi) as (_ & Hh' & Hv').
  eexists _, _, _, _. repeat (split; [eassumption|]).
  rewrite qrun_S, qadvance_trapezoid.
  apply Qdiv_comp; [|reflexivity]. apply Qmult_comp; [exact Hd'|reflexivity].
Qed.

Lemma samples_trapezoid_witness :
  exists time height velocity,
    falling_mass 5 (float 20) (float 1) (float 1) (float 1)
    = Returns (time, height, velocity) /\
    length height = 3%nat /\
    forall i, (S i < length height)%nat ->
      exists h h' v v',
        is_rational (nth i height (float 0)) h /\
        is_rational (nth (S i) height (float 0)) h' /\
        is_rational (nth i velocity (float 0)) v /\
        is_rational (nth (S i) velocity (float 0)) v' /\
        h' - h == 1 * (v + v') / 2.
Proof.
  eexists _, _, _. split; [vm_compute; reflexivity|].
  split; [reflexivity|].
  eapply (samples_trapezoid 5 (float 20) (float 1) (float 1) (float 1)
            1 1 1 20);
    try apply is_rational_float; [discriminate|].
  vm_compute; reflexivity.
Defined.

(** ** Free fall *)

(** X4. For [k = 0] the recorded velocities are the closed form
    [velocity[i] = -9.81 * i * dt]. *)
Theorem free_fall_velocities fuel h0 k mass dt (q0 qm qd : Q)
    time height velocity :
  is_rational h0 q0 -> is_rational k 0 -> is_rational mass qm ->
  is_rational dt qd ->
  falling_mass fuel h0 k mass dt = Returns (time, height, velocity) ->
  forall i, (i < length velocity)%nat ->
    is_rational (nth i velocity (float 0)) (- (981 # 100) * (Qnat i * qd)).
Proof.
  intros Hq Hk Hm Hd H i Hi. returned H n Hl.
  rewrite length_map, samples_length in Hi.
  rewrite nth_map_samples by exact Hi.
  destruct (free_fall_samples k mass dt h0 qm qd q0 n i Hk Hm Hd Hq Hl Hi)
    as (_ & _ & Hv).
  exact Hv.
Qed.

Lemma free_fall_velocities_witness :
  exists time height velocity,
    falling_mass 10 (float 20) default_k default_mass (float 1)
    = Returns (time, height, velocity) /\
    length velocity = 3%nat /\
    forall i, (i < length velocity)%nat ->
      is_rational (nth i velocity (float 0)) (- (981 # 100) * (Qnat i * 1)).
Proof.
  eexists _, _, _. split; [vm_compute; reflexivity|].
  split; [reflexivity|].
  eapply (free_fall_velocities 10 (float 20) default_k default_mass
            (float 1) 20 1 1);
    try apply is_rational_float.
  vm_compute; reflexivity.
Defined.

(** X5. In exact arithmetic, for [k = 0], [mass <> 0] and
    [initial_height > 0], the number [n] of recorded samples brackets the
    time of impact [T] of the closed form,
    [9.81 * T^2 = 2 * initial_height]: the last recorded time [(n-1)*dt] is
    before [T] and the next step [n*dt] is not. *)
Theorem free_fall_impact_bracket fuel h0 k mass dt (q0 qm qd : Q)
    time height velocity :
  is_rational h0 q0 -> is_rational k 0 -> is_rational mass qm ->
  ~ qm == 0 -> is_rational dt qd -> 0 < q0 ->
  falling_mass fuel h0 k mass dt = Returns (time, height, velocity) ->
  exists n,
    length time = S n /\
    (981 # 100) * (Qnat n * qd) ^ 2 < 2 * q0 /\
    2 * q0 <= (981 # 100) * (Qnat (S n) * qd) ^ 2.
Proof.
  intros Hq Hk Hm Hne Hd Hpos H. returned H n Hl.
  rewrite length_map, samples_length.
  assert (Hh : forall i,
            above (run k mass dt i (initial_state h0))
            = Qltb 0 (q0 + (1 # 2) * g * (Qnat i * qd) ^ 2)).
  { intros i.
    destruct (run_free_fall k mass dt h0 qm qd q0 i Hk Hm Hne Hd Hq)
      as (_ & Hh & _).
    apply (above_rational _ _ Hh). }
  destruct n as [|n].
  - destruct Hl as [_ Hl]. rewrite Hh in Hl. apply Qltb_false in Hl.
    change (Qnat 0) with 0 in Hl. exfalso.
    setoid_replace (q0 + (1 # 2) * g * (0 * qd) ^ 2) with q0 in Hl by ring.
    lra.
  - exists n. split; [reflexivity|]. destruct Hl as [Hlt Hl].
    specialize (Hlt n ltac:(lia)). rewrite Hh in Hlt, Hl.
    apply Qltb_true in Hlt. apply Qltb_false in Hl. unfold g in Hlt, Hl.
    split; lra.
Qed.

Lemma free_fall_impact_bracket_witness :
  exists time height velocity,
    falling_mass 10 (float 20) default_k default_mass (float 1)
    = Returns (time, height, velocity) /\
    exists n,
      length time = S n /\
      (981 # 100) * (Qnat n * 1) ^ 2 < 2 * 20 /\
      2 * 20 <= (981 # 100) * (Qnat (S n) * 1) ^ 2.
Proof.
  eexists _, _, _. split; [vm_compute; reflexivity|].
  eapply (free_fall_impact_bracket 10 (float 20) default_k default_mass
            (float 1) 20 1 1);
    try apply is_rational_float; [discriminate | reflexivity |].
  vm_compute; reflexivity.
Defined.

(** ** Small time steps: a monotone fall below the terminal speed *)

(** One pass of the scaled speed for [theta <= 1/4]: the speed grows, is
    positive afterwards and stays below the terminal speed
    [u^2 = theta]. *)
Lemma small_step_pass (theta x : Q) :
  0 < theta -> theta <= 1 # 4 -> 0 <= x -> x * x <= theta ->
  x <= x + theta - x * x /\ 0 < x + theta - x * x /\
  (x + theta - x * x) * (x + theta - x * x) <= theta.
Proof.
  intros Ht Ht4 Hx Hxx.
  assert (Hhalf : x <= 1 # 2).
  { destruct (Qlt_le_dec (1 # 2) x) as [H|H]; [nra | exact H]. }
  set (d := theta - x * x).
  assert (Hd : 0 <= d) by (unfold d; lra).
  assert (H1 : 0 <= ((1 # 2) - x) * ((3 # 2) - x)).
  { apply Qmult_le_0_compat; lra. }
  assert (H2 : 0 <= d * (1 - 2 * x - d)).
  { apply Qmult_le_0_compat; [exact Hd|]. unfold d. nra. }
  assert (E : (x + theta - x * x) * (x + theta - x * x)
              == theta - d * (1 - 2 * x - d)) by (unfold d; ring).
  split; [lra|]. split.
  - destruct (Qlt_le_dec 0 x) as [H|H]; [lra|].
    assert (x == 0) by lra. nra.
  - rewrite E. lra.
Qed.

Section SmallStep.
Variables k m dt h0 : Q.
Hypothesis k_pos : 0 < k.
Hypothesis m_pos : 0 < m.
Hypothesis dt_pos : 0 < dt.
Hypothesis small : 4 * k * (dt * dt) * (981 # 100) <= m.

Lemma small_theta : drag_theta k m dt <= 1 # 4.
Proof.
  unfold drag_theta. apply Qle_shift_div_r; [exact m_pos|]. lra.
Qed.

Lemma small_speed (n : nat) :
  0 <= drag_speed k m dt h0 n /\
  drag_speed k m dt h0 n * drag_speed k m dt h0 n <= drag_theta k m dt.
Proof.
  pose proof (drag_theta_pos k m dt k_pos m_pos dt_pos) as Ht.
  induction n as [|n [IH0 IH]].
  - rewrite drag_speed_0. lra.
  - rewrite (drag_speed_fall k m dt h0 k_pos m_pos dt_pos n IH0).
    destruct (small_step_pass _ _ Ht small_theta IH0 IH) as (H1 & H2 & H3).
    split; [lra | exact H3].
Qed.

Lemma small_speed_grows (n : nat) :
  drag_speed k m dt h0 n <= drag_speed k m dt h0 (S n) /\
  0 < drag_speed k m dt h0 (S n).
Proof.
  pose proof (drag_theta_pos k m dt k_pos m_pos dt_pos) as Ht.
  destruct (small_speed n) as (H0 & H).
  rewrite (drag_speed_fall k m dt h0 k_pos m_pos dt_pos n H0).
  destruct (small_step_pass _ _ Ht small_theta H0 H) as (H1 & H2 & _).
  split; assumption.
Qed.

(** Back to velocity and height. *)
Lemma small_step_run (n : nat) :
  let s := qrun k m dt n (0, h0, 0) in
  let s' := qrun k m dt (S n) (0, h0, 0) in
  qvelocity s <= 0 /\
  k * (qvelocity s * qvelocity s) <= m * (981 # 100) /\
  qvelocity s' <= qvelocity s /\
  qheight s' < qheight s.
Proof.
  cbn zeta.
  destruct (small_speed n) as (H0 & H).
  destruct (small_speed_grows n) as (Hg & Hp).
  pose proof (drag_drop_step k m dt h0 m_pos n) as HE.
  unfold drag_speed, drag_drop, drag_theta in *.
  pose proof (scale_pos k m dt k_pos m_pos dt_pos) as Hb.
  set (b := k * dt / m) in *.
  set (v := qvelocity (qrun k m dt n (0, h0, 0))) in *.
  set (v' := qvelocity (qrun k m dt (S n) (0, h0, 0))) in *.
  set (h := qheight (qrun k m dt n (0, h0, 0))) in *.
  set (h' := qheight (qrun k m dt (S n) (0, h0, 0))) in *.
  assert (Hc : 0 < 2 * k / m).
  { apply Qlt_shift_div_l; [exact m_pos|]. lra. }
  set (c := 2 * k / m) in *.
  assert (Hc2 : 0 < k * (dt * dt) / (m * m)).
  { apply Qlt_shift_div_l; [nra|].
    assert (0 < dt * dt) by nra. nra. }
  assert (E1 : - b * v * (- b * v)
               == k * (dt * dt) / (m * m) * (k * (v * v))).
  { unfold b. field. lra. }
  assert (E2 : k * (dt * dt) * (981 # 100) / m
               == k * (dt * dt) / (m * m) * (m * (981 # 100))).
  { field. lra. }
  split; [|split; [|split]].
  - clearbody b v. nra.
  - rewrite E1, E2 in H.
    exact (proj1 (Qmult_le_l _ _ _ Hc2) H).
  - clearbody b v v'. nra.
  - clearbody b c v v' h h'.
    assert (Hpos : 0 < c * (h - h')).
    { setoid_replace (c * (h - h')) with (c * (h0 - h') - c * (h0 - h))
        by ring.
      rewrite HE. lra. }
    destruct (Qlt_le_dec h' h) as [Hlt|Hle]; [exact Hlt|]. nra.
Qed.

End SmallStep.

(** X6. Small time steps give a monotone fall.  On rational arguments with
    [k > 0], [mass > 0], [dt > 0] and [4 * k * dt^2 * 9.81 <= mass]: every
    recorded velocity is downwards and not faster than the terminal
    velocity, [k * v^2 <= mass * 9.81]; from one sample to the next the
    velocity does not increase and the height drops strictly. *)
Theorem small_step_monotone fuel h0 k mass dt (qk qm qd q0 : Q)
    time height velocity :
  is_rational k qk -> is_rational mass qm -> is_rational dt qd ->
  is_rational h0 q0 ->
  0 < qk -> 0 < qm -> 0 < qd -> 4 * qk * (qd * qd) * (981 # 100) <= qm ->
  falling_mass fuel h0 k mass dt = Returns (time, height, velocity) ->
  (forall i, (i < length velocity)%nat ->
     exists v,
       is_rational (nth i velocity (float 0)) v /\
       v <= 0 /\ qk * (v * v) <= qm * (981 # 100)) /\
  (forall i, (S i < length velocity)%nat ->
     exists v v' h h',
       is_rational (nth i velocity (float 0)) v /\
       is_rational (nth (S i) velocity (float 0)) v' /\
       is_rational (nth i height (float 0)) h /\
       is_rational (nth (S i) height (float 0)) h' /\
       v' <= v /\ h' < h).
Proof.
  intros Hk Hm Hd Hq Hk0 Hm0 Hd0 Hsmall H.
  assert (Hne : ~ qm == 0) by lra.
  destruct (returned_on_rationals fuel h0 k mass dt qk qm qd q0 _ _ _
              Hk Hm Hne Hd Hq H)
    as (n & k' & m' & d' & q0' & Hk' & Hm' & Hd' & _ & _ & _ & Hlen & _ & _
        & Hs).
  rewrite Hlen.
  assert (Hrun : forall i,
            let s := qrun k' m' d' i (0, q0', 0) in
            let s' := qrun k' m' d' (S i) (0, q0', 0) in
            qvelocity s <= 0 /\
            k' * (qvelocity s * qvelocity s) <= m' * (981 # 100) /\
            qvelocity s' <= qvelocity s /\ qheight s' < qheight s).
  { intros i. apply small_step_run.
    - rewrite Hk'. exact Hk0.
    - rewrite Hm'. exact Hm0.
    - rewrite Hd'. exact Hd0.
    - rewrite Hk', Hd', Hm'. exact Hsmall. }
  split.
  - intros i Hi. destruct (Hs i Hi) as (_ & _ & Hv).
    destruct (Hrun i) as (A & B & _). cbn zeta in A, B.
    revert Hv A B.
    generalize (qvelocity (qrun k' m' d' i (0, q0', 0))). intros v Hv A B.
    exists v. rewrite Hk', Hm' in B. repeat split; assumption.
  - intros i Hi.
    destruct (Hs i ltac:(lia)) as (_ & Hh & Hv).
    destruct (Hs (S i) Hi) as (_ & Hh' & Hv').
    destruct (Hrun i) as (_ & _ & C & D).
    eexists _, _, _, _.
    split; [exact Hv|]. split; [exact Hv'|]. split; [exact Hh|].
    split; [exact Hh'|]. split; [exact C | exact D].
Qed.

Lemma small_step_monotone_witness :
  exists time height velocity,
    falling_mass 5 (float (1 # 10)) (float (35 # 1000)) default_mass
      default_dt = Returns (time, height, velocity) /\
    length velocity = 2%nat /\
    (forall i, (i < length velocity)%nat ->
       exists v,
         is_rational (nth i velocity (float 0)) v /\
         v <= 0 /\ (35 # 1000) * (v * v) <= 1 * (981 # 100)) /\
    (forall i, (S i < length velocity)%nat ->
       exists v v' h h',
         is_rational (nth i velocity (float 0)) v /\
         is_rational (nth (S i) velocity (float 0)) v' /\
         is_rational (nth i height (float 0)) h /\
         is_rational (nth (S i) height (float 0)) h' /\
         v' <= v /\ h' < h).
Proof.
  eexists _, _, _. split; [vm_compute; reflexivity|].
  split; [reflexivity|].
  eapply (small_step_monotone 5 (float (1 # 10)) (float (35 # 1000))
            default_mass default_dt (35 # 1000) 1 (1 # 10) (1 # 10));
    try apply is_rational_float; try reflexivity.
  discriminate.
Defined.

(** ** Large time steps: the mass moves upwards *)

Section LargeStep.
Variables k m dt h0 : Q.
Hypothesis k_pos : 0 < k.
Hypothesis m_pos : 0 < m.
Hypothesis dt_pos : 0 < dt.
Hypothesis large : 3 * m < k * (dt * dt) * (981 # 100).
Hypothesis high : (981 # 200) * (dt * dt) < h0.

Lemma large_theta : 3 < drag_theta k m dt.
Proof.
  unfold drag_theta. apply Qlt_shift_div_l; [exact m_pos | exact large].
Qed.

(** The second pass overshoots: the third state moves upwards and is higher
    than the second. *)
Lemma large_step_run :
  0 < qheight (qrun k m dt 1 (0, h0, 0)) /\
  qheight (qrun k m dt 1 (0, h0, 0)) < qheight (qrun k m dt 2 (0, h0, 0)) /\
  0 < qvelocity (qrun k m dt 2 (0, h0, 0)).
Proof.
  pose proof large_theta as Ht.
  pose proof (drag_speed_0 k m dt h0) as U0.
  pose proof (drag_speed_fall k m dt h0 k_pos m_pos dt_pos 0) as U1.
  rewrite U0 in U1. specialize (U1 ltac:(lra)).
  pose proof (drag_speed_fall k m dt h0 k_pos m_pos dt_pos 1) as U2.
  rewrite U1 in U2. specialize (U2 ltac:(lra)).
  pose proof (drag_drop_step k m dt h0 m_pos 1) as E2.
  rewrite U1, U2 in E2.
  assert (Hm : ~ m == 0) by lra.
  destruct (qrun_first_pass k m dt h0 Hm) as (H1 & _).
  pose proof (scale_pos k m dt k_pos m_pos dt_pos) as Hb.
  assert (Hc : 0 < 2 * k / m).
  { apply Qlt_shift_div_l; [exact m_pos|]. lra. }
  unfold drag_speed, drag_drop in *.
  set (theta := drag_theta k m dt) in *.
  set (b := k * dt / m) in *. set (c := 2 * k / m) in *.
  set (h1 := qheight (qrun k m dt 1 (0, h0, 0))) in *.
  set (h2 := qheight (qrun k m dt 2 (0, h0, 0))) in *.
  set (v2 := qvelocity (qrun k m dt 2 (0, h0, 0))) in *.
  clearbody theta b c h1 h2 v2.
  assert (Hsq : 3 * theta < theta * theta) by nra.
  split; [lra|]. split.
  - assert (Hpos : 0 < c * (h2 - h1)).
    { setoid_replace (c * (h2 - h1)) with (c * (h0 - h1) - c * (h0 - h2))
        by ring.
      rewrite E2. lra. }
    destruct (Qlt_le_dec h1 h2) as [Hlt|Hle]; [exact Hlt|]. nra.
  - assert (Hneg : - b * v2 < 0) by (rewrite U2; lra).
    destruct (Qlt_le_dec 0 v2) as [Hlt|Hle]; [exact Hlt|]. nra.
Qed.

End LargeStep.

(** X7. In exact arithmetic, large time steps make the scheme overshoot.
    On rational arguments with [k > 0], [mass > 0], [dt > 0],
    [k * dt^2 * 9.81 > 3 * mass] and [initial_height > 4.905 * dt^2], a
    returned call has recorded at least three samples, and the third one
    moves upwards and lies above the second: [velocity[2] > 0] and
    [height[2] > height[1]]. *)
Theorem large_step_overshoots fuel h0 k mass dt (qk qm qd q0 : Q)
    time height velocity :
  is_rational k qk -> is_rational mass qm -> is_rational dt qd ->
  is_rational h0 q0 ->
  0 < qk -> 0 < qm -> 0 < qd ->
  3 * qm < qk * (qd * qd) * (981 # 100) ->
  (981 # 200) * (qd * qd) < q0 ->
  falling_mass fuel h0 k mass dt = Returns (time, height, velocity) ->
  (3 <= length height)%nat /\
  exists h1 h2 v2,
    is_rational (nth 1 height (float 0)) h1 /\
    is_rational (nth 2 height (float 0)) h2 /\
    is_rational (nth 2 velocity (float 0)) v2 /\
    h1 < h2 /\ 0 < v2.
Proof.
  intros Hk Hm Hd Hq Hk0 Hm0 Hd0 Hlarge Hhigh H.
  assert (Hne : ~ qm == 0) by lra.
  destruct (returned_on_rationals fuel h0 k mass dt qk qm qd q0 _ _ _
              Hk Hm Hne Hd Hq H)
    as (n & k' & m' & d' & q0' & Hk' & Hm' & Hd' & Hq' & _ & Hlen & _ & _
        & Hn & Hs).
  rewrite Hlen.
  destruct (large_step_run k' m' d' q0') as (H1 & H12 & Hv2).
  { rewrite Hk'. exact Hk0. }
  { rewrite Hm'. exact Hm0. }
  { rewrite Hd'. exact Hd0. }
  { rewrite Hk', Hd', Hm'. exact Hlarge. }
  { rewrite Hd', Hq'. exact Hhigh. }
  assert (Hq0 : 0 < q0') by (rewrite Hq'; nra).
  assert (Hn3 : (3 <= n)%nat).
  { destruct n as [|[|[|n]]]; [| | |lia]; exfalso.
    - unfold qheight in Hn. cbn in Hn. lra.
    - lra.
    - lra. }
  split; [exact Hn3|].
  destruct (Hs 1%nat ltac:(lia)) as (_ & Hh1 & _).
  destruct (Hs 2%nat ltac:(lia)) as (_ & Hh2 & Hvel2).
  eexists _, _, _.
  split; [exact Hh1|]. split; [exact Hh2|]. split; [exact Hvel2|].
  split; [exact H12 | exact Hv2].
Qed.

Lemma large_step_overshoots_witness :
  exists time height velocity,
    falling_mass 5 (float 20) (float 1) (float 1) (float 1)
    = Returns (time, height, velocity) /\
    (3 <= length height)%nat /\
    exists h1 h2 v2,
      is_rational (nth 1 height (float 0)) h1 /\
      is_rational (nth 2 height (float 0)) h2 /\
      is_rational (nth 2 velocity (float 0)) v2 /\
      h1 < h2 /\ 0 < v2.
Proof.
  eexists _, _, _. split; [vm_compute; reflexivity|].
  eapply (large_step_overshoots 5 (float 20) (float 1) (float 1) (float 1)
            1 1 1 20);
    try apply is_rational_float; reflexivity.
Defined.

(** The run of the witness: the mass, dropped from 20 m, is recorded at
    48.49805 m after two passes. *)
Example large_step_run_example :
  exists time height velocity,
    falling_mass 5 (float 20) (float 1) (float 1) (float 1)
    = Returns (time, height, velocity) /\
    Forall2 is_rational height [20; 15.095; 48.49805] /\
    Forall2 is_rational velocity [0; - 9.81; 76.6161].
Proof.
  eexists _, _, _. split; [vm_compute; reflexivity|].
  repeat split; repeat constructor; (eexists; split; reflexivity).
Qed.

(** ** Only the ratio [k / mass] matters *)

Lemma qaccel_ratio (v v' k1 m1 k2 m2 : Q) :
  v == v' -> k1 * m2 == k2 * m1 -> ~ m1 == 0 -> ~ m2 == 0 ->
  qaccel v k1 m1 g == qaccel v' k2 m2 g.
Proof.
  intros Hv Hr H1 H2. unfold qaccel.
  rewrite (Qsgn_compat v v' Hv), Hv.
  assert (Hk : k1 == k2 * m1 / m2).
  { setoid_replace k1 with (k1 * m2 / m2) by (field; exact H2).
    rewrite Hr. reflexivity. }
  rewrite Hk. field. split; assumption.
Qed.

Lemma qadvance_ratio (k1 m1 d1 k2 m2 d2 : Q) (s s' : qstate) :
  k1 * m2 == k2 * m1 -> ~ m1 == 0 -> ~ m2 == 0 -> d1 == d2 ->
  qstate_eq s s' ->
  qstate_eq (qadvance k1 m1 d1 s) (qadvance k2 m2 d2 s').
Proof.
  intros Hr H1 H2 Hd. destruct s as [[t h] v], s' as [[t' h'] v'].
  unfold qstate_eq, qheight, qvelocity, qadvance. cbn [fst snd].
  intros (Ht & Hh & Hv).
  rewrite (qaccel_ratio v v' k1 m1 k2 m2 Hv Hr H1 H2), Ht, Hh, Hv, Hd.
  repeat split; reflexivity.
Qed.

Lemma qrun_ratio (k1 m1 d1 k2 m2 d2 : Q) (s s' : qstate) (n : nat) :
  k1 * m2 == k2 * m1 -> ~ m1 == 0 -> ~ m2 == 0 -> d1 == d2 ->
  qstate_eq s s' ->
  qstate_eq (qrun k1 m1 d1 n s) (qrun k2 m2 d2 n s').
Proof.
  intros Hr H1 H2 Hd Hs. induction n as [|n IH]; [exact Hs|].
  rewrite !qrun_S. now apply qadvance_ratio.
Qed.

Lemma Forall2_map_samples (R : value -> value -> Prop) (f : state -> value)
    k1 m1 d1 k2 m2 d2 (n : nat) :
  forall s1 s2,
  (forall i, (i < n)%nat ->
     R (f (run k1 m1 d1 i s1)) (f (run k2 m2 d2 i s2))) ->
  Forall2 R (map f (samples k1 m1 d1 n s1)) (map f (samples k2 m2 d2 n s2)).
Proof.
  induction n as [|n IH]; intros s1 s2 H; [constructor|].
  cbn [samples map]. constructor.
  - apply (H 0%nat). lia.
  - apply IH. intros i Hi. apply (H (S i)). lia.
Qed.

(** X8. The drag coefficient and the mass enter through their ratio only:
    two calls on rational arguments whose [k / mass] agree (masses not
    zero) return, with the same fuel, lists of the same numbers.  For
    [k = 0] this is the docstring's remark that the mass is not needed. *)
Theorem only_the_ratio_matters fuel h0 dt k1 m1 k2 m2
    (q0 qd qk1 qm1 qk2 qm2 : Q) time height velocity :
  is_rational h0 q0 -> is_rational dt qd ->
  is_rational k1 qk1 -> is_rational m1 qm1 ->
  is_rational k2 qk2 -> is_rational m2 qm2 ->
  ~ qm1 == 0 -> ~ qm2 == 0 -> qk1 * qm2 == qk2 * qm1 ->
  falling_mass fuel h0 k1 m1 dt = Returns (time, height, velocity) ->
  exists time' height' velocity',
    falling_mass fuel h0 k2 m2 dt = Returns (time', height', velocity') /\
    Forall2 same_number time time' /\
    Forall2 same_number height height' /\
    Forall2 same_number velocity velocity'.
Proof.
  intros Hq Hd Hk1 Hm1 Hk2 Hm2 Hne1 Hne2 Hr H.
  apply falling_mass_returns in H.
  destruct H as (n & Hfuel & Hl & -> & -> & ->).
  destruct (run_rationals k1 m1 dt h0 qk1 qm1 qd q0 Hk1 Hm1 Hne1 Hd Hq)
    as (a1 & b1 & d1 & p1 & Ea1 & Eb1 & Ed1 & Ep1 & Hrun1).
  destruct (run_rationals k2 m2 dt h0 qk2 qm2 qd q0 Hk2 Hm2 Hne2 Hd Hq)
    as (a2 & b2 & d2 & p2 & Ea2 & Eb2 & Ed2 & Ep2 & Hrun2).
  assert (Heq : forall i,
            qstate_eq (qrun a1 b1 d1 i (0, p1, 0))
                      (qrun a2 b2 d2 i (0, p2, 0))).
  { intros i. apply qrun_ratio.
    - rewrite Ea1, Eb1, Ea2, Eb2. exact Hr.
    - rewrite Eb1. exact Hne1.
    - rewrite Eb2. exact Hne2.
    - rewrite Ed1, Ed2. reflexivity.
    - unfold qstate_eq, qheight, qvelocity. cbn [fst snd].
      rewrite Ep1, Ep2. repeat split; reflexivity. }
  assert (Hsame : forall i,
            same_number (time_of (run k1 m1 dt i (initial_state h0)))
                        (time_of (run k2 m2 dt i (initial_state h0))) /\
            same_number (height_of (run k1 m1 dt i (initial_state h0)))
                        (height_of (run k2 m2 dt i (initial_state h0))) /\
            same_number (velocity_of (run k1 m1 dt i (initial_state h0)))
                        (velocity_of (run k2 m2 dt i (initial_state h0)))).
  { intros i.
    destruct (is_rational_nums _ _ (Hrun1 i)) as (T1 & H1 & V1).
    destruct (is_rational_nums _ _ (Hrun2 i)) as (T2 & H2 & V2).
    destruct (Heq i) as (Et & Eh & Ev).
    split; [|split]; eexists; (split; [eassumption|]).
    - apply (is_rational_eq _ _ _ T2). symmetry. exact Et.
    - apply (is_rational_eq _ _ _ H2). symmetry. exact Eh.
    - apply (is_rational_eq _ _ _ V2). symmetry. exact Ev. }
  assert (Hab : forall i,
            above (run k2 m2 dt i (initial_state h0))
            = above (run k1 m1 dt i (initial_state h0))).
  { intros i. destruct (Hsame i) as (_ & (q & Ha & Hb) & _).
    rewrite (above_rational _ _ Ha), (above_rational _ _ Hb). reflexivity. }
  assert (Hl2 : lands_after k2 m2 dt (initial_state h0) n).
  { destruct Hl as [Hlt Hn]. split.
    - intros i Hi. rewrite Hab. exact (Hlt i Hi).
    - rewrite Hab. exact Hn. }
  eexists _, _, _. split.
  - apply (falling_mass_lands fuel h0 k2 m2 dt n Hl2 Hfuel).
  - split; [|split]; apply Forall2_map_samples; intros i _; apply Hsame.
Qed.

Lemma only_the_ratio_matters_witness :
  exists time height velocity,
    falling_mass 10 (float 20) (float (1 # 100)) (float 1) (float 1)
    = Returns (time, height, velocity) /\
    length height = 3%nat /\
    is_rational (nth 2 height (float 0)) (8611805 # 10000000) /\
    exists time' height' velocity',
      falling_mass 10 (float 20) (float (2 # 100)) (float 2) (float 1)
      = Returns (time', height', velocity') /\
      Forall2 same_number time time' /\
      Forall2 same_number height height' /\
      Forall2 same_number velocity velocity'.
Proof.
  eexists _, _, _. split; [vm_compute; reflexivity|].
  split; [reflexivity|].
  split; [eexists; split; [reflexivity | vm_compute; reflexivity]|].
  eapply (only_the_ratio_matters 10 (float 20) (float 1)
            (float (1 # 100)) (float 1) (float (2 # 100)) (float 2)
            20 1 (1 # 100) 1 (2 # 100) 2);
    try apply is_rational_float; try discriminate;
    try (vm_compute; reflexivity).
Defined.

(** ** The scalar types in the returned lists *)

Lemma advance_kinds k mass dt (s : state) :
  is_numpy (height_of (advance k mass dt s)) = true /\
  is_numpy (velocity_of (advance k mass dt s)) = true /\
  is_numpy (time_of (advance k mass dt s))
  = is_numpy (time_of s) || is_numpy dt.
Proof.
  destruct s as [[t h] v].
  unfold advance, update_state, time_of, height_of, velocity_of, one_half,
    float, vadd, vmul, vpow2.
  cbn [fst snd].
  repeat (rewrite binop_numpy_l || rewrite binop_numpy_r).
  split; [reflexivity|]. split; [reflexivity|].
  destruct t, dt; reflexivity.
Qed.

Lemma run_kinds k mass dt (s : state) (n : nat) :
  is_numpy (height_of (run k mass dt (S n) s)) = true /\
  is_numpy (velocity_of (run k mass dt (S n) s)) = true.
Proof.
  rewrite run_S.
  destruct (advance_kinds k mass dt (run k mass dt n s)) as (H & V & _).
  split; assumption.
Qed.

Lemma run_time_kind k mass dt (s : state) (n : nat) :
  is_numpy (time_of s) = false -> is_numpy dt = false ->
  is_numpy (time_of (run k mass dt n s)) = false.
Proof.
  intros Hs Hd. induction n as [|n IH]; [exact Hs|].
  rewrite run_S.
  destruct (advance_kinds k mass dt (run k mass dt n s)) as (_ & _ & T).
  rewrite T, IH, Hd. reflexivity.
Qed.

(** X12. The returned lists mix scalar types.  After the first sample
    every height and every velocity is a numpy [float64], whatever the
    caller passed; the first velocity is the Python float [0.0], and with a
    Python float [dt] every time is a Python float. *)
Theorem returned_scalar_types fuel h0 k mass dt time height velocity :
  falling_mass fuel h0 k mass dt = Returns (time, height, velocity) ->
  (forall i, (0 < i < length height)%nat ->
     is_numpy (nth i height (float 0)) = true /\
     is_numpy (nth i velocity (float 0)) = true) /\
  (forall i, (i < length time)%nat -> is_numpy dt = false ->
     is_numpy (nth i time (float 0)) = false) /\
  ((0 < length velocity)%nat -> nth 0 velocity (float 0) = float 0).
Proof.
  intros H. returned H n Hl.
  rewrite !length_map, samples_length. split; [|split].
  - intros i [Hi0 Hi]. rewrite !nth_map_samples by exact Hi.
    destruct i as [|i]; [lia|]. apply run_kinds.
  - intros i Hi Hd. rewrite nth_map_samples by exact Hi.
    apply run_time_kind; [reflexivity | exact Hd].
  - intros Hn. rewrite nth_map_samples by exact Hn. reflexivity.
Qed.

Lemma returned_scalar_types_witness :
  exists time height velocity,
    falling_mass 10 (float 20) default_k default_mass (float 1)
    = Returns (time, height, velocity) /\
    length height = 3%nat /\
    (forall i, (0 < i < length height)%nat ->
       is_numpy (nth i height (float 0)) = true /\
       is_numpy (nth i velocity (float 0)) = true) /\
    (forall i, (i < length time)%nat -> is_numpy (float 1) = false ->
       is_numpy (nth i time (float 0)) = false) /\
    ((0 < length velocity)%nat -> nth 0 velocity (float 0) = float 0).
Proof.
  eexists _, _, _. split; [vm_compute; reflexivity|].
  split; [reflexivity|].
  apply (returned_scalar_types 10 (float 20) default_k default_mass
           (float 1)).
  vm_compute; reflexivity.
Defined.

(** ** Drag and free fall compared *)

(** The acceleration of a falling mass: gravity plus the drag. *)
Lemma qaccel_falling (v k m : Q) :
  v <= 0 -> ~ m == 0 -> qaccel v k m g == g + k * (v * v) / m.
Proof.
  intros Hv Hm. unfold qaccel.
  destruct (Qle_lt_or_eq _ _ Hv) as [Hneg|Hz].
  - rewrite (Qsgn_neg v Hneg). field. exact Hm.
  - rewrite (Qsgn_zero v Hz), Hz. field. exact Hm.
Qed.

Section DragSlowsTheFall.
Variables k m dt h0 : Q.
Hypothesis k_pos : 0 < k.
Hypothesis m_pos : 0 < m.
Hypothesis dt_pos : 0 < dt.
Hypothesis small : 4 * k * (dt * dt) * (981 # 100) <= m.

Lemma drag_above_free_fall (n : nat) :
  g * (Qnat n * dt) <= qvelocity (qrun k m dt n (0, h0, 0)) /\
  h0 + (1 # 2) * g * (Qnat n * dt) ^ 2
  <= qheight (qrun k m dt n (0, h0, 0)).
Proof.
  induction n as [|n (IHv & IHh)].
  - unfold qheight, qvelocity. cbn [qrun fst snd]. change (Qnat 0) with 0.
    split; ring_simplify; lra.
  - destruct (small_step_run k m dt h0 k_pos m_pos dt_pos small n)
      as (Hv & _ & _ & _).
    cbn zeta in Hv. rewrite qrun_S.
    destruct (qrun k m dt n (0, h0, 0)) as [[t h] v].
    unfold qheight, qvelocity in *. cbn [qadvance fst snd] in *.
    assert (Hm : ~ m == 0) by lra.
    rewrite (qaccel_falling v k m Hv Hm), Qnat_S.
    assert (Hdrag : 0 <= k * (v * v) / m).
    { apply Qle_shift_div_l; [exact m_pos|].
      pose proof (Qsq_nonneg v). nra. }
    set (d := k * (v * v) / m) in *. clearbody d.
    pose proof (Qnat_nonneg n) as Hn. unfold g in *.
    set (c := Qnat n) in *. clearbody c.
    assert (Hdd : 0 < dt * dt) by nra.
    assert (H1 : 0 <= d * dt) by nra.
    assert (H2 : 0 <= d * (dt * dt)) by nra.
    split.
    + nra.
    + assert (E : (c + 1) * dt * ((c + 1) * dt)
                  == c * dt * (c * dt) + 2 * c * (dt * dt) + dt * dt)
        by ring.
      assert (H3 : - (981 # 100) * c * (dt * dt) <= v * dt) by nra.
      simpl Qpower in *. nra.
Qed.

End DragSlowsTheFall.

(** X13. In exact arithmetic, drag never speeds the fall up.  On rational
    arguments with [k > 0], [mass > 0], [dt > 0] and
    [4 * k * dt^2 * 9.81 <= mass], each recorded velocity is at least the
    free-fall velocity [-9.81 * i * dt] of the same step and each recorded
    height is at least the free-fall height
    [initial_height - 4.905 * (i * dt)^2]. *)
Theorem drag_never_speeds_the_fall fuel h0 k mass dt (qk qm qd q0 : Q)
    time height velocity :
  is_rational k qk -> is_rational mass qm -> is_rational dt qd ->
  is_rational h0 q0 ->
  0 < qk -> 0 < qm -> 0 < qd -> 4 * qk * (qd * qd) * (981 # 100) <= qm ->
  falling_mass fuel h0 k mass dt = Returns (time, height, velocity) ->
  forall i, (i < length height)%nat ->
    exists v h,
      is_rational (nth i velocity (float 0)) v /\
      is_rational (nth i height (float 0)) h /\
      - (981 # 100) * (Qnat i * qd) <= v /\
      q0 - (981 # 200) * (Qnat i * qd) ^ 2 <= h.
Proof.
  intros Hk Hm Hd Hq Hk0 Hm0 Hd0 Hsmall H.
  assert (Hne : ~ qm == 0) by lra.
  destruct (returned_on_rationals fuel h0 k mass dt qk qm qd q0 _ _ _
              Hk Hm Hne Hd Hq H)
    as (n & k' & m' & d' & q0' & Hk' & Hm' & Hd' & Hq' & _ & Hlen & _ & _ & _
        & Hs).
  rewrite Hlen. intros i Hi. destruct (Hs i Hi) as (_ & Hh & Hv).
  assert (Hrun : g * (Qnat i * d') <= qvelocity (qrun k' m' d' i (0, q0', 0))
                 /\ q0' + (1 # 2) * g * (Qnat i * d') ^ 2
                    <= qheight (qrun k' m' d' i (0, q0', 0))).
  { apply drag_above_free_fall.
    - rewrite Hk'. exact Hk0.
    - rewrite Hm'. exact Hm0.
    - rewrite Hd'. exact Hd0.
    - rewrite Hk', Hd', Hm'. exact Hsmall. }
  destruct Hrun as (A & B). revert Hv Hh A B.
  generalize (qvelocity (qrun k' m' d' i (0, q0', 0))).
  generalize (qheight (qrun k' m' d' i (0, q0', 0))).
  intros h v Hv Hh A B. exists v, h.
  split; [exact Hv|]. split; [exact Hh|].
  unfold g in A, B. rewrite Hd' in A, B. rewrite Hq' in B.
  split.
  - exact A.
  - eapply Qle_trans; [|exact B]. apply Qle_lteq. right.
    simpl Qpower. ring.
Qed.

Lemma drag_never_speeds_the_fall_witness :
  exists time height velocity,
    falling_mass 10 (float 20) (float (1 # 100)) default_mass (float 1)
    = Returns (time, height, velocity) /\
    length height = 3%nat /\
    forall i, (i < length height)%nat ->
      exists v h,
        is_rational (nth i velocity (float 0)) v /\
        is_rational (nth i height (float 0)) h /\
        - (981 # 100) * (Qnat i * 1) <= v /\
        20 - (981 # 200) * (Qnat i * 1) ^ 2 <= h.
Proof.
  eexists _, _, _. split; [vm_compute; reflexivity|].
  split; [reflexivity|].
  eapply (drag_never_speeds_the_fall 10 (float 20) (float (1 # 100))
            default_mass (float 1) (1 # 100) 1 1 20);
    try apply is_rational_float; try (vm_compute; reflexivity).
  discriminate.
Defined.

(** ** The terminal velocity *)

(** X14. In exact arithmetic, the terminal velocity is a fixed point of
    the loop body.  For a downward rational velocity [v] with
    [k * v^2 = mass * 9.81] and [mass > 0], [calculate_acceleration]
    returns zero, and [update_state] with that acceleration keeps the
    velocity and moves the position by [v * dt]. *)
Theorem terminal_velocity_is_kept (t x v k mass dt : value)
    (qt qx qv qk qm qd : Q) :
  is_rational t qt -> is_rational x qx -> is_rational v qv ->
  is_rational k qk -> is_rational mass qm -> is_rational dt qd ->
  qv < 0 -> 0 < qm -> qk * (qv * qv) == qm * (981 # 100) ->
  exists a t' x' v',
    calculate_acceleration v k mass gravity = Returns a /\
    is_rational a 0 /\
    update_state t x v a dt = (t', x', v') /\
    is_rational t' (qt + qd) /\
    is_rational x' (qx + qv * qd) /\
    is_rational v' qv.
Proof.
  intros Ht Hx Hv Hk Hm Hd Hneg Hpos Hterm.
  assert (Ha : is_rational
                 (NpFloat64 (xaccel (num v) (num k) (num mass) (num gravity)))
                 0).
  { destruct Hv as (v' & Hv & Hv'), Hk as (k' & Hk & Hk'),
      Hm as (m' & Hm & Hm').
    exists (qaccel v' k' m' g). split.
    - cbn [num]. rewrite Hv, Hk, Hm. apply xaccel_fin.
      apply Qis_zero_false. rewrite Hm'. lra.
    - rewrite (qaccel_compat _ _ _ _ _ _ _ _ Hv' Hk' Hm' (Qeq_refl g)).
      rewrite qaccel_falling by lra.
      unfold g. rewrite Hterm. field. lra. }
  pose proof (calculate_acceleration_returns v k mass gravity) as Hc.
  revert Ha Hc.
  generalize (NpFloat64 (xaccel (num v) (num k) (num mass) (num gravity))).
  intros a Ha Hc. exists a. eexists _, _, _.
  split; [exact Hc|].
  split; [exact Ha|].
  unfold update_state. split; [reflexivity|].
  split; [auto with rational|].
  split.
  - assert (Hx' : is_rational
              (x + (v * dt + one_half * a * vpow2 dt))%py
              (qx + (qv * qd + (1 # 2) * 0 * (qd * qd)))).
    { unfold one_half. auto 6 with rational. }
    apply (is_rational_eq _ _ _ Hx'). ring.
  - assert (Hv' : is_rational (v + a * dt)%py (qv + 0 * qd))
      by auto with rational.
    apply (is_rational_eq _ _ _ Hv'). ring.
Qed.

Lemma terminal_velocity_is_kept_witness :
  exists a t' x' v',
    calculate_acceleration (float (- (1))) (float (981 # 100)) (float 1)
      gravity = Returns a /\
    is_rational a 0 /\
    update_state (float 0) (float 20) (float (- (1))) a (float (1 # 10))
    = (t', x', v') /\
    is_rational t' (0 + (1 # 10)) /\
    is_rational x' (20 + - (1) * (1 # 10)) /\
    is_rational v' (- (1)).
Proof.
  apply (terminal_velocity_is_kept (float 0) (float 20) (float (- (1)))
           (float (981 # 100)) (float 1) (float (1 # 10))
           0 20 (- (1)) (981 # 100) 1 (1 # 10));
    try apply is_rational_float; reflexivity.
Defined.

(** * Further properties of the program on binary64 floats *)

(** X1. What [falling_mass] raises.  The only error is the
    [OverflowError] of [dt**2], for a Python float [dt] whose square is out
    of range, and it is raised in the first pass, as soon as the loop is
    entered; the velocity is squared as the float [0.0] or as a numpy
    scalar, and [total_force] is divided as a numpy scalar, so neither
    [v**2] nor the division raises.  A call that returns gives three lists
    of the same length. *)
Theorem only_overflow_is_raised fuel h0 k mass dt :
  (forall e,
     Binary64.falling_mass fuel h0 k mass dt = Raises e ->
     e = OverflowError /\ Binary64.pow_raises dt = true /\
     (h0 >? Binary64.float 0)%b64 = true) /\
  ((h0 >? Binary64.float 0)%b64 = true -> Binary64.pow_raises dt = true ->
   Binary64.falling_mass (S fuel) h0 k mass dt = Raises OverflowError) /\
  (forall time height velocity,
     Binary64.falling_mass fuel h0 k mass dt
     = Returns (time, height, velocity) ->
     length time = length height /\ length height = length velocity).
Proof.
  split; [|split].
  - intros e. apply b64_falling_mass_raises.
  - apply b64_falling_mass_overflow.
  - intros time height velocity H.
    destruct (b64_time_steps _ _ _ _ _ _ _ _ H) as (H1 & H2 & _). auto.
Qed.

Lemma only_overflow_is_raised_witness :
  Binary64.falling_mass 3 (Binary64.float 20) Binary64.default_k
    Binary64.default_mass (Binary64.PyFloat (F64.of_Z (10 ^ 200)))
  = Raises OverflowError /\
  exists time height velocity,
    Binary64.falling_mass 3 (Binary64.float 20) Binary64.default_k
      Binary64.default_mass (Binary64.NpFloat64 (F64.of_Z (10 ^ 200)))
    = Returns (time, height, velocity) /\
    length time = length height /\ length height = length velocity.
Proof.
  split.
  - apply (proj1 (proj2 (only_overflow_is_raised 2 (Binary64.float 20)
             Binary64.default_k Binary64.default_mass
             (Binary64.PyFloat (F64.of_Z (10 ^ 200)))))); reflexivity.
  - eexists _, _, _. split; [vm_compute; reflexivity|].
    apply (proj2 (proj2 (only_overflow_is_raised 3 (Binary64.float 20)
             Binary64.default_k Binary64.default_mass
             (Binary64.NpFloat64 (F64.of_Z (10 ^ 200)))))).
    vm_compute; reflexivity.
Defined.

(** ** The first pass *)

Lemma b64_accel_rest k m g :
  F64.is_finite k = true -> F64.sign_bit k = false ->
  F64.accel F64.zero k m g = F64.accel F64.zero F64.zero m g.
Proof.
  intros Hf Hs. unfold F64.accel.
  destruct k as [s|s| |s mk ek]; try discriminate; cbn in Hs; subst;
    reflexivity.
Qed.

Lemma b64_advance_rest k mass dt h0 :
  F64.is_finite (Binary64.num k) = true ->
  F64.sign_bit (Binary64.num k) = false ->
  Binary64.advance k mass dt (Binary64.initial_state h0)
  = Binary64.advance Binary64.default_k mass dt (Binary64.initial_state h0).
Proof.
  intros Hf Hs. rewrite !b64_advance_cases.
  cbn [Binary64.initial_state Binary64.velocity_of snd].
  change (Binary64.num Binary64.start_velocity) with F64.zero.
  change (Binary64.num Binary64.default_k) with F64.zero.
  rewrite (b64_accel_rest _ _ _ Hf Hs). reflexivity.
Qed.

(** The first two recorded states of a run that ends. *)
Lemma b64_passes_two k mass dt s l s' s1 :
  Binary64.passes k mass dt s l s' -> Binary64.above s' = false ->
  Binary64.advance k mass dt s = Returns s1 ->
  firstn 2 l
  = if Binary64.above s
    then if Binary64.above s1 then [s; s1] else [s]
    else [].
Proof.
  intros Hp Hab Hadv. destruct l as [|x l].
  - apply b64_passes_length_nil in Hp; [|reflexivity]. subst s'.
    rewrite Hab. reflexivity.
  - apply b64_passes_inv in Hp.
    destruct Hp as (-> & Habs & s1' & Hadv' & Hp).
    rewrite Hadv in Hadv'. injection Hadv' as <-. rewrite Habs.
    destruct l as [|y l].
    + apply b64_passes_length_nil in Hp; [|reflexivity]. subst s'.
      rewrite Hab. reflexivity.
    + apply b64_passes_inv in Hp. destruct Hp as (-> & Hab1 & _).
      rewrite Hab1. reflexivity.
Qed.

Lemma b64_passes_none k mass dt s l s' :
  Binary64.passes k mass dt s l s' -> Binary64.above s' = false ->
  (forall s1, Binary64.advance k mass dt s <> Returns s1) ->
  l = [] /\ Binary64.above s = false.
Proof.
  intros Hp Hab Hadv. destruct l as [|x l].
  - apply b64_passes_length_nil in Hp; [|reflexivity]. subst s'. auto.
  - apply b64_passes_inv in Hp. destruct Hp as (_ & _ & s1 & H1 & _).
    destruct (Hadv s1 H1).
Qed.

(** X3. The first pass feels no drag: the velocity it starts from is
    [0.0].  For a finite [k] that is not negative, the first two samples of
    [falling_mass(h0, k, mass, dt)] are those of the call with [k = 0.0]. *)
Theorem first_pass_without_drag fuel fuel0 h0 k mass dt
    time height velocity time0 height0 velocity0 :
  F64.is_finite (Binary64.num k) = true ->
  F64.sign_bit (Binary64.num k) = false ->
  Binary64.falling_mass fuel h0 k mass dt
  = Returns (time, height, velocity) ->
  Binary64.falling_mass fuel0 h0 Binary64.default_k mass dt
  = Returns (time0, height0, velocity0) ->
  firstn 2 time = firstn 2 time0 /\
  firstn 2 height = firstn 2 height0 /\
  firstn 2 velocity = firstn 2 velocity0.
Proof.
  intros Hf Hs H H0.
  destruct (b64_falling_mass_returns _ _ _ _ _ _ _ _ H)
    as (l & s' & Hp & Hab & _ & -> & -> & ->).
  destruct (b64_falling_mass_returns _ _ _ _ _ _ _ _ H0)
    as (l0 & s0' & Hp0 & Hab0 & _ & -> & -> & ->).
  pose proof (b64_advance_rest k mass dt h0 Hf Hs) as Hadv.
  assert (E : firstn 2 l = firstn 2 l0).
  { destruct (Binary64.advance Binary64.default_k mass dt
                (Binary64.initial_state h0)) as [s1| |] eqn:H1.
    - rewrite (b64_passes_two _ _ _ _ _ _ s1 Hp Hab Hadv).
      rewrite (b64_passes_two _ _ _ _ _ _ s1 Hp0 Hab0 H1). reflexivity.
    - destruct (b64_passes_none _ _ _ _ _ _ Hp Hab) as [-> _];
        [intros s1; rewrite Hadv; discriminate|].
      destruct (b64_passes_none _ _ _ _ _ _ Hp0 Hab0) as [-> _];
        [intros s1; rewrite H1; discriminate|].
      reflexivity.
    - destruct (b64_advance_not_out_of_fuel _ _ _ _ H1). }
  rewrite !firstn_map, E. auto.
Qed.

Lemma first_pass_without_drag_witness :
  exists time height velocity time0 height0 velocity0,
    Binary64.falling_mass 10 (Binary64.float 20) (Binary64.float (1 # 100))
      Binary64.default_mass (Binary64.float 1)
    = Returns (time, height, velocity) /\
    Binary64.falling_mass 10 (Binary64.float 20) Binary64.default_k
      Binary64.default_mass (Binary64.float 1)
    = Returns (time0, height0, velocity0) /\
    length height = 3%nat /\
    nth 2 height (Binary64.float 0) <> nth 2 height0 (Binary64.float 0) /\
    firstn 2 time = firstn 2 time0 /\
    firstn 2 height = firstn 2 height0 /\
    firstn 2 velocity = firstn 2 velocity0.
Proof.
  eexists _, _, _, _, _, _. split; [vm_compute; reflexivity|].
  split; [vm_compute; reflexivity|]. split; [reflexivity|].
  split; [discriminate|].
  apply (first_pass_without_drag 10 10 (Binary64.float 20)
           (Binary64.float (1 # 100)) Binary64.default_mass
           (Binary64.float 1));
    vm_compute; reflexivity.
Defined.

(** ** A time step of zero *)

Lemma f64_add_zero_r x s :
  F64.gt x F64.zero = true -> F64.add x (S754_zero s) = x.
Proof.
  destruct x as [sx|[|]| |sx m e]; try discriminate; reflexivity.
Qed.

Lemma f64_mul_zero_r x s :
  F64.is_finite x = true -> F64.is_zero (F64.mul x (S754_zero s)) = true.
Proof. destruct x; try discriminate; reflexivity. Qed.

Lemma f64_mul_finite_l x y :
  F64.is_finite (F64.mul x y) = true -> F64.is_finite y = true.
Proof.
  destruct x as [sx|sx| |sx mx ex], y as [sy|sy| |sy my ey];
    try discriminate; reflexivity.
Qed.

Lemma f64_add_zero_zero x y :
  F64.is_zero x = true -> F64.is_zero y = true ->
  F64.is_zero (F64.add x y) = true.
Proof.
  destruct x as [[|]| | |], y as [[|]| | |]; try discriminate; reflexivity.
Qed.

Lemma f64_add_pos_zero_zero y :
  F64.is_zero y = true -> F64.add F64.zero y = F64.zero.
Proof. destruct y as [[|]| | |]; try discriminate; reflexivity. Qed.

Lemma f64_is_zero_eq x :
  F64.is_zero x = true -> exists s, x = S754_zero s.
Proof. destruct x as [s| | |]; try discriminate. exists s. reflexivity. Qed.

(** With [dt = 0.0] a pass from rest changes neither the height nor the
    velocity. *)
Lemma b64_zero_step_pass k mass dt s :
  F64.is_zero (Binary64.num dt) = true ->
  F64.is_finite
    (F64.mul (Binary64.num Binary64.one_half)
       (F64.accel F64.zero (Binary64.num k) (Binary64.num mass)
          (Binary64.num Binary64.gravity))) = true ->
  Binary64.above s = true ->
  Binary64.num (Binary64.velocity_of s) = F64.zero ->
  Binary64.loop_velocity (Binary64.velocity_of s) ->
  exists s',
    Binary64.advance k mass dt s = Returns s' /\
    Binary64.num (Binary64.height_of s')
    = Binary64.num (Binary64.height_of s) /\
    Binary64.num (Binary64.velocity_of s') = F64.zero /\
    Binary64.loop_velocity (Binary64.velocity_of s').
Proof.
  intros Hdt Hfin Hab Hv Hlv.
  assert (Hpow : Binary64.pow_raises dt = false).
  { destruct dt as [x|x]; [|reflexivity].
    destruct x; try discriminate; reflexivity. }
  rewrite b64_advance_cases, b64_update_state_cases, Hpow.
  rewrite (b64_loop_velocity_pow _ Hlv). eexists. split; [reflexivity|].
  cbn [Binary64.height_of Binary64.velocity_of fst snd].
  rewrite Hv.
  set (a := F64.accel F64.zero (Binary64.num k) (Binary64.num mass)
              (Binary64.num Binary64.gravity)) in *.
  pose proof (f64_mul_finite_l _ _ Hfin) as Ha.
  destruct (f64_is_zero_eq _ Hdt) as (sd & Hd).
  split; [|split].
  - unfold Binary64.vadd, Binary64.vmul.
    rewrite !b64_num_binop, b64_num_unop. cbn [Binary64.num].
    rewrite Hv, Hd.
    assert (Hz : F64.is_zero
                   (F64.add (F64.mul F64.zero (S754_zero sd))
                      (F64.mul (F64.mul (Binary64.num Binary64.one_half) a)
                         (F64.square (S754_zero sd)))) = true).
    { apply f64_add_zero_zero; [reflexivity|].
      apply (f64_mul_zero_r _ (xorb sd sd) Hfin). }
    destruct (f64_is_zero_eq _ Hz) as (s0 & E).
    rewrite E. apply f64_add_zero_r. exact Hab.
  - unfold Binary64.vadd, Binary64.vmul.
    rewrite !b64_num_binop. cbn [Binary64.num]. rewrite Hv, Hd.
    apply f64_add_pos_zero_zero. apply f64_mul_zero_r. exact Ha.
  - right. unfold Binary64.vadd, Binary64.vmul.
    rewrite !b64_binop_is_numpy. cbn [Binary64.is_numpy orb].
    apply orb_true_r.
Qed.

(** X9. A time step of zero is not rejected.  With [initial_height > 0],
    [dt = 0.0] and arguments for which half the acceleration at rest is a
    finite float, the height never changes and the call does not return,
    whatever the fuel. *)
Theorem zero_step_never_returns fuel h0 k mass dt :
  (h0 >? Binary64.float 0)%b64 = true ->
  F64.is_zero (Binary64.num dt) = true ->
  F64.is_finite
    (F64.mul (Binary64.num Binary64.one_half)
       (F64.accel F64.zero (Binary64.num k) (Binary64.num mass)
          (Binary64.num Binary64.gravity))) = true ->
  Binary64.falling_mass fuel h0 k mass dt = OutOfFuel.
Proof.
  intros Hh Hdt Hfin. revert fuel. apply b64_never_lands. intros n.
  destruct (b64_passes_invariant k mass dt
              (fun s => Binary64.above s = true /\
                        Binary64.num (Binary64.velocity_of s) = F64.zero /\
                        Binary64.loop_velocity (Binary64.velocity_of s)))
    with (n := n) (s := Binary64.initial_state h0)
    as (l & s' & Hp & Hl & _).
  - intros s (Hab & Hv & Hlv). split; [exact Hab|].
    destruct (b64_zero_step_pass k mass dt s Hdt Hfin Hab Hv Hlv)
      as (s' & Hadv & Hh' & Hv' & Hlv').
    exists s'. split; [exact Hadv|]. split; [|auto].
    unfold Binary64.above, Binary64.vgt in *. rewrite Hh'. exact Hab.
  - split; [exact Hh|]. split; [reflexivity | left; reflexivity].
  - exists l, s'. auto.
Qed.

Lemma zero_step_never_returns_witness :
  Binary64.falling_mass 1000 (Binary64.float 20) (Binary64.float (35 # 1000))
    Binary64.default_mass (Binary64.float 0)
  = OutOfFuel.
Proof.
  apply (zero_step_never_returns 1000 (Binary64.float 20)
           (Binary64.float (35 # 1000)) Binary64.default_mass
           (Binary64.float 0)); vm_compute; reflexivity.
Defined.

(** ** Arguments that are not numbers *)

Lemma b64_accel_rest_not_finite k m :
  F64.is_finite k = false \/ F64.is_finite m = false ->
  F64.accel F64.zero k m (Binary64.num Binary64.gravity) = S754_nan.
Proof.
  intros H. destruct b64_gravity_finite as (mg & eg & ->).
  unfold F64.accel. destruct H as [H|H].
  - assert (E : F64.mul (F64.mul (F64.neg (F64.sign F64.zero)) k)
                  (F64.square F64.zero) = S754_nan)
      by (destruct k; try discriminate; reflexivity).
    rewrite E, f64_add_nan_r. reflexivity.
  - destruct m as [sm|sm| |sm mm em]; try discriminate; [|reflexivity].
    destruct (b64_rest_drag k) as [Hd | Hd]; cbv zeta in Hd.
    + destruct (f64_is_zero_eq _ Hd) as (s & ->). reflexivity.
    + rewrite Hd. reflexivity.
Qed.

(** X10. Arguments that are not numbers are not reported.  An
    [initial_height] of [nan] gives three empty lists.  With
    [initial_height > 0] and a [k], [mass] or [dt] that is [nan] or
    infinite, the first pass makes the height [nan] and the call returns
    the initial sample alone, unless [dt] is a Python float whose square is
    out of range. *)
Theorem not_a_number_is_not_reported :
  (forall fuel h0 k mass dt,
     F64.is_nan (Binary64.num h0) = true ->
     Binary64.falling_mass (S fuel) h0 k mass dt = Returns ([], [], [])) /\
  (forall fuel h0 k mass dt,
     (h0 >? Binary64.float 0)%b64 = true ->
     Binary64.pow_raises dt = false ->
     F64.is_finite (Binary64.num k) = false \/
     F64.is_finite (Binary64.num mass) = false \/
     F64.is_finite (Binary64.num dt) = false ->
     Binary64.falling_mass (S (S fuel)) h0 k mass dt
     = Returns ([Binary64.float 0], [h0], [Binary64.float 0])).
Proof.
  split.
  - intros fuel h0 k mass dt Hnan. unfold Binary64.falling_mass.
    rewrite b64_falling_loop_step. unfold Binary64.above, Binary64.vgt.
    cbn [Binary64.height_of fst snd].
    destruct (Binary64.num h0); try discriminate. reflexivity.
  - intros fuel h0 k mass dt Hh Hdt H. apply b64_nan_pass; [exact Hh|exact Hdt|].
    destruct (F64.is_finite (Binary64.num dt)) eqn:Hfd.
    + rewrite b64_accel_rest_not_finite
        by (destruct H as [H|[H|H]]; [auto | auto | discriminate]).
      rewrite f64_mul_nan_r, f64_mul_nan_l, !f64_add_nan_r. reflexivity.
    + assert (E : F64.mul F64.zero (Binary64.num dt) = S754_nan).
      { destruct (Binary64.num dt); try discriminate; reflexivity. }
      rewrite E, f64_add_nan_l, f64_add_nan_r. reflexivity.
Qed.

Lemma not_a_number_is_not_reported_witness :
  Binary64.falling_mass 3 (Binary64.PyFloat S754_nan)
    (Binary64.float (35 # 1000)) Binary64.default_mass Binary64.default_dt
  = Returns ([], [], []) /\
  Binary64.falling_mass 3 (Binary64.float 20) (Binary64.PyFloat S754_nan)
    Binary64.default_mass Binary64.default_dt
  = Returns ([Binary64.float 0], [Binary64.float 20], [Binary64.float 0]) /\
  Binary64.falling_mass 3 (Binary64.float 20) (Binary64.float (35 # 1000))
    (Binary64.PyFloat (S754_infinity false)) Binary64.default_dt
  = Returns ([Binary64.float 0], [Binary64.float 20], [Binary64.float 0]) /\
  Binary64.falling_mass 3 (Binary64.float 20) (Binary64.float (35 # 1000))
    Binary64.default_mass (Binary64.PyFloat (S754_infinity false))
  = Returns ([Binary64.float 0], [Binary64.float 20], [Binary64.float 0]).
Proof.
  split; [|split; [|split]].
  - apply (proj1 not_a_number_is_not_reported). reflexivity.
  - apply (proj2 not_a_number_is_not_reported); auto.
  - apply (proj2 not_a_number_is_not_reported); auto.
  - apply (proj2 not_a_number_is_not_reported); auto.
Defined.

(** ** An infinite height *)

Lemma f64_add_inf x :
  F64.add (S754_infinity false) x = S754_infinity false \/
  F64.add (S754_infinity false) x = S754_nan.
Proof. destruct x as [s|[|]| |s m e]; cbn; auto. Qed.

(** The height after a pass is the height before it plus a displacement. *)
Lemma b64_update_state_height t x v a dt s' :
  Binary64.update_state t x v a dt = Returns s' ->
  exists d, Binary64.num (Binary64.height_of s') = F64.add (Binary64.num x) d.
Proof.
  rewrite b64_update_state_cases.
  destruct (Binary64.pow_raises dt); [discriminate|].
  intros H. injection H as <-. eexists.
  cbn [Binary64.height_of fst snd]. unfold Binary64.vadd at 1.
  rewrite b64_num_binop. reflexivity.
Qed.

Lemma b64_passes_infinite k mass dt s l s' :
  Binary64.passes k mass dt s l s' ->
  Binary64.num (Binary64.height_of s) = S754_infinity false ->
  forall x, In x l ->
    Binary64.num (Binary64.height_of x) = S754_infinity false.
Proof.
  induction 1 as [s|s a s1 l s2 Hab Ha Hu Hp IH]; intros Hs x Hx.
  - destruct Hx.
  - destruct Hx as [<- | Hx]; [exact Hs|]. apply IH; [|exact Hx].
    destruct l as [|y l]; [destruct Hx|].
    apply b64_passes_inv in Hp. destruct Hp as (_ & Hab1 & _).
    destruct (b64_update_state_height _ _ _ _ _ _ Hu) as (d & Hd).
    unfold Binary64.above, Binary64.vgt in Hab1.
    rewrite Hd, Hs in Hab1 |- *.
    destruct (f64_add_inf d) as [E|E]; rewrite E in Hab1 |- *;
      [reflexivity | discriminate].
Qed.

(** X11. An infinite [initial_height] is not rejected, and the mass never
    comes down from it: every recorded height of a returned call is
    [+inf].  (Such a call returns only when a displacement is [nan] or
    [-inf].) *)
Theorem infinite_height_stays fuel h0 k mass dt time height velocity :
  Binary64.num h0 = S754_infinity false ->
  Binary64.falling_mass fuel h0 k mass dt = Returns (time, height, velocity) ->
  forall x, In x height -> Binary64.num x = S754_infinity false.
Proof.
  intros Hh H x Hx.
  destruct (b64_falling_mass_returns _ _ _ _ _ _ _ _ H)
    as (l & s' & Hp & _ & _ & _ & -> & _).
  apply in_map_iff in Hx. destruct Hx as (s & <- & Hs).
  exact (b64_passes_infinite _ _ _ _ _ _ Hp Hh s Hs).
Qed.

Lemma infinite_height_stays_witness :
  exists time height velocity,
    Binary64.falling_mass 10 (Binary64.PyFloat (S754_infinity false))
      Binary64.default_k Binary64.default_mass
      (Binary64.PyFloat (F64.of_Z (10 ^ 153)))
    = Returns (time, height, velocity) /\
    length height = 3%nat /\
    forall x, In x height -> Binary64.num x = S754_infinity false.
Proof.
  eexists _, _, _. split; [vm_compute; reflexivity|].
  split; [reflexivity|].
  eapply (infinite_height_stays 10 (Binary64.PyFloat (S754_infinity false))
            Binary64.default_k Binary64.default_mass
            (Binary64.PyFloat (F64.of_Z (10 ^ 153))));
    [reflexivity | vm_compute; reflexivity].
Defined.
